(** * Digitalbot: order, deposit and flat-file store

    A shallow embedding of the storefront bot's data layer
    (DatabaseManager, utils/database.js), its security helper's cipher,
    block list and sessions (SecurityManager, utils/security.js), the file
    manager's readFile (utils/fileManager.js), the four domain managers
    (OrderManager, ProductManager, UserManager, PaymentManager) and the
    branches of the main file's handlers that the
    properties below speak of: the cancellation of a deposit and of an
    order, the purchase with balance, the owner's approval of an order and
    of a deposit, the rejection of an order, the upload of a proof of
    transfer, the status check of a gateway deposit, and the test by which
    the callback listener picks a handler.

    Conventions of the embedding.
    - A JS object used as a record is a finite map from property names to
      values ([gmap string value]); reading a missing property gives
      [VUndef], as [item[key]] does.
    - JS numbers are integers here (amounts are whole Rupiah, stock and
      counters are counts); [VNaN] stands for the one non-number that the
      arithmetic of the code can produce.
    - An ISO-8601 timestamp string ([new Date(t).toISOString()]) is carried
      as [VTime t], [t] being the epoch milliseconds it denotes.
    - [async] functions are functions of a state-and-exception monad over
      the [World]: the files on disk, each DatabaseManager's cache, the
      clock, and the answers the environment is going to give
      (file-system failures, random identifiers, the payment gateway).
    - A collection is what [readData] can hand out: an array of records,
      an object, a string, or, under a name that [Object.prototype] has,
      a function. The query of a search is an object, [null], or left
      out.
    - The text produced by [JSON.stringify] is carried as the value it
      denotes: NaN has become [null] in it and a property whose value is
      [undefined] is gone ([json]). The ciphertext produced by the
      library's AES-256-CBC is symbolic: it records the key and IV it was
      sealed under and opens under that pair only.
    - One operation of a manager runs as one step: the clock stands still
      while it runs and no other handler runs between its awaits. *)

From stdpp Require Import gmap strings list fin_maps.
From Stdlib Require Import ZArith.

Set Warnings "-register-all".

Open Scope string_scope.
Open Scope Z_scope.

(** ** JavaScript values *)

Inductive value :=
  | VUndef
  | VNull
  | VBool (b : bool)
  | VNum (n : Z)
  | VNaN
  | VStr (s : string)
  | VTime (t : Z)
  | VObj (o : gmap string value)
  | VArr (l : list value).

Abbreviation item := (gmap string value).

(** [item[key]] *)
Definition prop (o : item) (key : string) : value :=
  default VUndef (o !! key).

(** JS truthiness ([if (v)], [!v], [v || w]). *)
Definition truthy (v : value) : bool :=
  match v with
  | VUndef | VNull | VNaN => false
  | VBool b => b
  | VNum n => negb (n =? 0)
  | VStr s => negb (String.eqb s "")
  | VTime _ | VObj _ | VArr _ => true
  end.

(** [v || w] *)
Definition js_or (v w : value) : value := if truthy v then v else w.

(** [a === b]. Objects and arrays compare by reference; a stored object is
    never the object of a query literal, so they compare unequal. *)
Definition strict_eq (a b : value) : bool :=
  match a, b with
  | VUndef, VUndef => true
  | VNull, VNull => true
  | VBool x, VBool y => Bool.eqb x y
  | VNum x, VNum y => x =? y
  | VStr x, VStr y => String.eqb x y
  | VTime x, VTime y => x =? y
  | _, _ => false
  end.

(** [ToNumber] on the values the arithmetic below meets; [None] is NaN. *)
Definition to_num (v : value) : option Z :=
  match v with
  | VNum n => Some n
  | VNull => Some 0
  | VBool b => Some (if b then 1 else 0)
  | _ => None
  end.

(** [a < b] on numbers: false as soon as one side is NaN. *)
Definition js_lt (a b : value) : bool :=
  match to_num a, to_num b with
  | Some x, Some y => x <? y
  | _, _ => false
  end.

Definition js_ge (a b : value) : bool :=
  match to_num a, to_num b with
  | Some x, Some y => y <=? x
  | _, _ => false
  end.

Definition js_add (a b : value) : value :=
  match to_num a, to_num b with
  | Some x, Some y => VNum (x + y)
  | _, _ => VNaN
  end.

Definition js_sub (a b : value) : value :=
  match to_num a, to_num b with
  | Some x, Some y => VNum (x - y)
  | _, _ => VNaN
  end.

(** [Math.max(0, v)] *)
Definition Math_max0 (v : value) : value :=
  match to_num v with
  | Some x => VNum (Z.max 0 x)
  | None => VNaN
  end.

(** [new Date(v).getTime()]; [None] is NaN (an invalid date). *)
Definition getTime (v : value) : option Z :=
  match v with
  | VTime t => Some t
  | VNum n => Some n
  | VNull => Some 0
  | VBool b => Some (if b then 1 else 0)
  | _ => None
  end.

(** [Object.keys(query).every(key => item[key] === query[key])] *)
Definition matches (query o : item) : bool :=
  forallb (λ kv, strict_eq (prop o kv.1) kv.2) (map_to_list query).

(** What a caller hands over as [query]: an object, [null], or nothing at
    all ([undefined]). An object passes for the argument it is. *)
Inductive arg :=
  | Given (query : item)
  | GivenNull
  | NotGiven.

#[warning="-uniform-inheritance"] Coercion Given : item >-> arg.

(** What [JSON.parse(JSON.stringify(v))] makes of a value [v] that is a
    property of an object: [None] when the property is left out
    ([undefined]); NaN comes back as [null]; inside an array [undefined]
    comes back as [null] too. *)
Fixpoint json_value (v : value) : option value :=
  match v with
  | VUndef => None
  | VNaN => Some VNull
  | VObj o => Some (VObj (omap json_value o))
  | VArr l => Some (VArr (map (λ x, default VNull (json_value x)) l))
  | VNull | VBool _ | VNum _ | VStr _ | VTime _ => Some v
  end.

Definition json_item (o : item) : item := omap json_value o.

(** [v[key]] for a value [v] that is not [null] or [undefined] and a
    [key] other than [length]: a primitive or an array has no such
    property. With [v?.[key]] the same holds for every [v]. *)
Definition member (v : value) (key : string) : value :=
  match v with
  | VObj o => prop o key
  | _ => VUndef
  end.

(** SameValueZero, the comparison of [Set.has] and [Array.includes]:
    [===] but for NaN, which is the same as itself. *)
Definition same_value_zero (a b : value) : bool :=
  match a, b with
  | VNaN, VNaN => true
  | _, _ => strict_eq a b
  end.

(** ** Collections, serialized text and ciphertext *)

(** A collection file holds an array of records, a single object (the
    [stats] file) or, when the store is encrypted, one string. The
    arrays of this model are arrays of records, as the code writes them.
    [DFun name] is the built-in function [Object.prototype[name]], which
    a lookup by an inherited name finds in an object literal; it is no
    array and has no JSON text.
    [JsonText d] is the JSON text that denotes [d]; [Sealed key iv t] is
    the hex ciphertext of the text [t] under [key] and [iv]. *)
Inductive data :=
  | DArr (l : list item)
  | DObj (o : item)
  | DStr (s : jstr)
  | DFun (name : string)
with jstr :=
  | Lit (s : string)
  | JsonText (d : data)
  | Sealed (key iv : string) (plain : jstr).

(** [JSON.parse(JSON.stringify(d))]: what is left of a collection value
    once it has been text. *)
Definition json (d : data) : data :=
  match d with
  | DArr l => DArr (json_item <$> l)
  | DObj o => DObj (json_item o)
  | DStr s => DStr s
  | DFun name => DFun name
  end.

(** A function has no JSON text: [JSON.stringify] answers [undefined]. *)
Definition serializable (d : data) : bool :=
  match d with
  | DFun _ => false
  | _ => true
  end.

(** [JSON.stringify(d)] for a [d] that has a text. *)
Definition JSON_stringify (d : data) : jstr := JsonText (json d).

(** ** Configuration (config.js) *)

Record Config := {
  ENCRYPTION : bool;            (* DATABASE.ENCRYPTION *)
  ENCRYPTION_KEY : string;      (* SECURITY.ENCRYPTION_KEY, hex *)
  ENCRYPTION_IV : string;       (* SECURITY.ENCRYPTION_IV, hex *)
  REQUIRE_APPROVAL : bool       (* BUSINESS.REQUIRE_APPROVAL *)
}.

(** ** The world *)

(** The five DatabaseManager objects of the process: the main file's own
    and one constructed by each domain manager. *)
Inductive handle := db_main | db_user | db_product | db_order | db_payment.

#[global] Instance handle_eq_dec : EqDecision handle.
Proof. solve_decision. Defined.

Definition handle_code (h : handle) : nat :=
  match h with
  | db_main => 0 | db_user => 1 | db_product => 2 | db_order => 3 | db_payment => 4
  end%nat.

Definition handle_of_code (n : nat) : handle :=
  match n with
  | 0 => db_main | 1 => db_user | 2 => db_product | 3 => db_order | _ => db_payment
  end%nat.

#[global] Instance handle_countable : Countable handle.
Proof.
  apply (inj_countable' handle_code handle_of_code).
  by intros [].
Defined.

Record World := {
  config : Config;
  files : gmap string data;            (* the JSON files, by collection name *)
  caches : gmap (handle * string) data;(* this.cache of each DatabaseManager *)
  io_faults : list bool;               (* upcoming fs calls: true = it throws *)
  now : Z;                             (* Date.now() *)
  entropy : list string;               (* upcoming crypto.randomBytes / Math.random *)
  gateway_up : bool                    (* does the payment gateway answer status true *)
}.

Definition set_files (f : gmap string data) (w : World) : World :=
  {| config := config w; files := f; caches := caches w;
     io_faults := io_faults w; now := now w; entropy := entropy w;
     gateway_up := gateway_up w |}.

Definition set_caches (c : gmap (handle * string) data) (w : World) : World :=
  {| config := config w; files := files w; caches := c;
     io_faults := io_faults w; now := now w; entropy := entropy w;
     gateway_up := gateway_up w |}.

Definition set_io_faults (l : list bool) (w : World) : World :=
  {| config := config w; files := files w; caches := caches w;
     io_faults := l; now := now w; entropy := entropy w;
     gateway_up := gateway_up w |}.

Definition set_now (t : Z) (w : World) : World :=
  {| config := config w; files := files w; caches := caches w;
     io_faults := io_faults w; now := t; entropy := entropy w;
     gateway_up := gateway_up w |}.

Definition set_entropy (l : list string) (w : World) : World :=
  {| config := config w; files := files w; caches := caches w;
     io_faults := io_faults w; now := now w; entropy := l;
     gateway_up := gateway_up w |}.

(** ** The state-and-exception monad *)

Inductive Res (A : Type) :=
  | Ok (a : A)
  | Throw (message : string).
Arguments Ok {A} a.
Arguments Throw {A} message.

Definition M (A : Type) : Type := World → Res A * World.

Definition ret {A} (a : A) : M A := λ w, (Ok a, w).

Definition bind {A B} (m : M A) (k : A → M B) : M B :=
  λ w, match m w with
       | (Ok a, w') => k a w'
       | (Throw e, w') => (Throw e, w')
       end.

(** [throw new Error(message)] *)
Definition throw {A} (message : string) : M A := λ w, (Throw message, w).

(** [try { m } catch (error) { h error.message }] *)
Definition try_catch {A} (m : M A) (h : string → M A) : M A :=
  λ w, match m w with
       | (Ok a, w') => (Ok a, w')
       | (Throw e, w') => h e w'
       end.

#[global] Instance M_ret : MRet M := @ret.
#[global] Instance M_bind : MBind M := λ A B k m, bind m k.

Definition get {A} (f : World → A) : M A := λ w, (Ok (f w), w).
Definition modify (f : World → World) : M unit := λ w, (Ok tt, f w).

(** [for (const x of xs) { body x }], threading an accumulator. *)
Fixpoint for_of {A B} (xs : list A) (body : A → B → M B) (acc : B) : M B :=
  match xs with
  | [] => ret acc
  | x :: rest => acc' ← body x acc; for_of rest body acc'
  end.

(** [{ success: true, ... }] or [{ success: false, message }] *)
Inductive Reply (A : Type) :=
  | Success (a : A)
  | Failure (message : string).
Arguments Success {A} a.
Arguments Failure {A} message.

(** ** The environment: file system, clock, randomness, gateway *)

(** Every fs call that can throw asks the environment whether it does. *)
Definition fs_fault : M bool :=
  λ w, match io_faults w with
       | [] => (Ok false, w)
       | f :: rest => (Ok f, set_io_faults rest w)
       end.

Definition fs_pathExists (dbName : string) : M bool :=
  get (λ w, bool_decide (is_Some (files w !! dbName))).

(** [fs.readJson] parses the text of the file: what comes back holds
    neither NaN nor [undefined], and a text denotes no function. *)
Definition fs_readJson (dbName : string) : M data :=
  f ← fs_fault;
  if f : bool then throw "EIO: read failed"
  else fl ← get files;
       match fl !! dbName with
       | Some d =>
           if serializable d then ret (json d)
           else throw "Unexpected token in JSON"
       | None => throw "ENOENT: no such file"
       end.

(** [fs.writeJson] makes the text first ([JSON.stringify], which has
    none for a function, so that the [replace] on it throws) and writes
    it then: the file holds what the text denotes. *)
Definition fs_writeJson (dbName : string) (d : data) : M unit :=
  if negb (serializable d)
  then throw "Cannot read properties of undefined (reading 'replace')"
  else
    f ← fs_fault;
    if f : bool then throw "EIO: write failed"
    else modify (λ w, set_files (<[dbName := json d]> (files w)) w).

Definition fs_ensureDir : M unit :=
  f ← fs_fault;
  if f : bool then throw "EACCES: permission denied" else ret tt.

(** [crypto.randomBytes(..).toString('hex')], [Math.random().toString(36)] *)
Definition draw : M string :=
  λ w, match entropy w with
       | [] => (Ok "", w)
       | r :: rest => (Ok r, set_entropy rest w)
       end.

(** [JSON.parse] of a text of this model. *)
Definition JSON_parse (t : jstr) : M data :=
  match t with
  | JsonText d =>
      if serializable d then ret (json d)
      else throw "Unexpected token in JSON"
  | _ => throw "Unexpected token in JSON"
  end.

(** ** SecurityManager (utils/security.js) *)

Module SecurityManager.

(** [createCipheriv('aes-256-cbc', key, iv)] accepts a 32-byte key and a
    16-byte IV, given here as 64 and 32 hex digits. *)
Definition key_ok (cfg : Config) : bool :=
  Nat.eqb (String.length (ENCRYPTION_KEY cfg)) 64 &&
  Nat.eqb (String.length (ENCRYPTION_IV cfg)) 32.

Definition encrypt (text : jstr) : M jstr :=
  try_catch
    (cfg ← get config;
     if key_ok cfg
     then ret (Sealed (ENCRYPTION_KEY cfg) (ENCRYPTION_IV cfg) text)
     else throw "Invalid key length")
    (λ _, throw "Encryption failed").

Definition decrypt (encryptedText : jstr) : M jstr :=
  try_catch
    (cfg ← get config;
     if negb (key_ok cfg) then throw "Invalid key length"
     else match encryptedText with
          | Sealed k iv plain =>
              if String.eqb k (ENCRYPTION_KEY cfg) && String.eqb iv (ENCRYPTION_IV cfg)
              then ret plain
              else throw "bad decrypt"
          | _ => throw "wrong final block length"
          end)
    (λ _, throw "Decryption failed").

Definition generateSecureToken : M value :=
  r ← draw; ret (VStr r).

Definition generateOrderId : M value :=
  r ← draw; ret (VStr ("ORD-" +:+ r)).

(** [this.blockedUsers], a [Set] of user ids, in insertion order. *)
Definition isBlocked (blockedUsers : list value) (userId : value) : bool :=
  existsb (same_value_zero userId) blockedUsers.

(** [blockUser(userId, reason)] with the default [duration = 0]: no timer
    is set that would take the user out of the set again. *)
Definition blockUser (blockedUsers : list value) (userId : value) : list value :=
  if isBlocked blockedUsers userId then blockedUsers else blockedUsers ++ [userId].

(** *** Sessions

    [this.activeSessions], a [Map] from session ids to session objects.
    The id that [crypto.randomUUID()] draws and the clock are arguments. *)
Record session := {
  id : string;
  userId : value;
  createdAt : Z;
  lastActivity : Z;
  isActive : bool
}.

(** config.SECURITY.SESSION_TIMEOUT *)
Definition SESSION_TIMEOUT : Z := 3600000.

Definition createSession (activeSessions : gmap string session)
    (sessionId : string) (user : value) (t : Z) : gmap string session * string :=
  (<[sessionId := {| id := sessionId; userId := user; createdAt := t;
                     lastActivity := t; isActive := true |}]> activeSessions,
   sessionId).

Definition validateSession (activeSessions : gmap string session)
    (sessionId : string) (t : Z) : gmap string session * bool :=
  match activeSessions !! sessionId with
  | None => (activeSessions, false)
  | Some s =>
      if negb (isActive s) then (activeSessions, false)
      else if SESSION_TIMEOUT <? t - lastActivity s
      then (<[sessionId := {| id := id s; userId := userId s;
                              createdAt := createdAt s;
                              lastActivity := lastActivity s;
                              isActive := false |}]> activeSessions,
            false)
      else (<[sessionId := {| id := id s; userId := userId s;
                              createdAt := createdAt s;
                              lastActivity := t;
                              isActive := true |}]> activeSessions,
            true)
  end.

Definition destroySession (activeSessions : gmap string session)
    (sessionId : string) : gmap string session :=
  base.delete sessionId activeSessions.

(** One tick of the timer of [startSessionCleaner]. *)
Definition cleanSessions (activeSessions : gmap string session) (t : Z)
  : gmap string session :=
  filter (λ kv, ¬ (SESSION_TIMEOUT < t - lastActivity kv.2)) activeSessions.

End SecurityManager.

(** ** DatabaseManager (utils/database.js) *)

Module DatabaseManager.

(** The keys of [this.databases]. *)
Definition databases : list string :=
  ["users"; "products"; "orders"; "payments"; "deposits"; "logs"; "stats"; "sessions"].

Definition known (dbName : string) : bool := bool_decide (dbName ∈ databases).

(** [this.databases] and the [defaults] of [getDefaultData] are object
    literals: a lookup by one of the names below finds a property of
    [Object.prototype] in them, a built-in function or, for [__proto__],
    the prototype itself. Each is truthy and none is a string. *)
Definition Object_prototype : list string :=
  ["constructor"; "__defineGetter__"; "__defineSetter__"; "hasOwnProperty";
   "__lookupGetter__"; "__lookupSetter__"; "isPrototypeOf";
   "propertyIsEnumerable"; "toString"; "valueOf"; "__proto__"; "toLocaleString"].

Definition inherited (dbName : string) : bool :=
  bool_decide (dbName ∈ Object_prototype).

Definition cache_get (h : handle) (dbName : string) : M (option data) :=
  get (λ w, caches w !! (h, dbName)).

Definition cache_set (h : handle) (dbName : string) (d : data) : M unit :=
  modify (λ w, set_caches (<[(h, dbName) := d]> (caches w)) w).

(** [defaults[dbName] || []] *)
Definition getDefaultData (dbName : string) : M data :=
  t ← get now;
  if String.eqb dbName "stats"
  then ret (DObj (<["totalUsers" := VNum 0]> (<["totalProducts" := VNum 0]>
                 (<["totalOrders" := VNum 0]> (<["totalRevenue" := VNum 0]>
                 (<["lastUpdate" := VTime t]> ∅))))))
  else if String.eqb dbName "__proto__" then ret (DObj ∅)
  else if inherited dbName then ret (DFun dbName)
  else ret (DArr []).

Definition readData (h : handle) (dbName : string) : M data :=
  try_catch
    (c ← cache_get h dbName;
     match c with
     | Some d => ret d
     | None =>
         if negb (known dbName || inherited dbName)
         then throw ("Database " +:+ dbName +:+ " not found")
         else
           (* what an inherited name finds is no path: no file is there *)
           ex ← (if known dbName then fs_pathExists dbName else ret false);
           if negb ex then getDefaultData dbName
           else
             raw ← fs_readJson dbName;
             cfg ← get config;
             d ← match raw with
                 | DStr s =>
                     if ENCRYPTION cfg
                     then t ← SecurityManager.decrypt s; JSON_parse t
                     else ret raw
                 | _ => ret raw
                 end;
             _ ← cache_set h dbName d;
             ret d
     end)
    (λ _, getDefaultData dbName).

Definition writeData (h : handle) (dbName : string) (d : data) : M bool :=
  try_catch
    (if negb (known dbName || inherited dbName)
     then throw ("Database " +:+ dbName +:+ " not found")
     else
       cfg ← get config;
       saveData ← (if ENCRYPTION cfg
                   then
                     (* [cipher.update(undefined)] throws *)
                     if negb (serializable d) then throw "Encryption failed"
                     else c ← SecurityManager.encrypt (JSON_stringify d); ret (DStr c)
                   else ret d);
       (* what an inherited name finds is no path: the write is refused *)
       _ ← (if known dbName then fs_writeJson dbName saveData
            else throw "The path argument must be of type string");
       _ ← cache_set h dbName d;
       ret true)
    (λ _, ret false).

(** [findOne] and [findMany] have no [try]: with [null] or nothing for
    [query], [Object.keys(query)] throws a TypeError, in [findOne] inside
    the callback of [find], that is, once the array has a first element.
    In what [findOne] answers, [null] and [undefined] are both [None]. *)
Definition findOne (h : handle) (dbName : string) (query : arg) : M (option item) :=
  match query with
  | Given query =>
      d ← readData h dbName;
      match d with
      | DArr l => ret (List.find (matches query) l)
      | _ => ret None
      end
  | GivenNull | NotGiven =>
      d ← readData h dbName;
      match d with
      | DArr (_ :: _) => throw "Cannot convert undefined or null to object"
      | _ => ret None
      end
  end.

(** [query = {}] stands in when nothing is given. *)
Definition findMany (h : handle) (dbName : string) (query : arg) : M (list item) :=
  match query with
  | Given query =>
      d ← readData h dbName;
      match d with
      | DArr l =>
          if bool_decide (map_to_list query = []) then ret l
          else ret (List.filter (matches query) l)
      | _ => ret []
      end
  | NotGiven =>
      d ← readData h dbName;
      match d with
      | DArr l => ret l
      | _ => ret []
      end
  | GivenNull =>
      d ← readData h dbName;
      match d with
      | DArr _ => throw "Cannot convert undefined or null to object"
      | _ => ret []
      end
  end.

Definition generateId : M value :=
  r ← draw; ret (VStr r).

(** [data.push(item)] on the array [readData] handed out: that array is
    the cached object itself exactly when the cache holds the
    collection, and then the cache sees the new element at once. *)
Definition push_shared (h : handle) (dbName : string) (pushed : data) : M unit :=
  c ← cache_get h dbName;
  match c with
  | Some _ => cache_set h dbName pushed
  | None => ret tt
  end.

Definition insert (h : handle) (dbName : string) (it : item) : M (option item) :=
  try_catch
    (d ← readData h dbName;
     match d with
     | DArr l =>
         id ← (if truthy (prop it "id") then ret (prop it "id") else generateId);
         t ← get now;
         let it1 := <["id" := id]> it in
         let it2 := <["createdAt" := js_or (prop it1 "createdAt") (VTime t)]> it1 in
         let it3 := <["updatedAt" := VTime t]> it2 in
         _ ← push_shared h dbName (DArr (l ++ [it3]));
         _ ← writeData h dbName (DArr (l ++ [it3]));
         ret (Some it3)
     | _ => throw (dbName +:+ " is not an array")
     end)
    (λ _, ret None).

(** [{ ...item, ...updates, updatedAt: new Date().toISOString() }] *)
Definition patch (t : Z) (updates it : item) : item :=
  <["updatedAt" := VTime t]> (updates ∪ it).

Definition update (h : handle) (dbName : string) (query updates : item) : M bool :=
  try_catch
    (d ← readData h dbName;
     match d with
     | DArr l =>
         t ← get now;
         let updated := existsb (matches query) l in
         let newData := map (λ it, if matches query it then patch t updates it else it) l in
         _ ← (if updated then writeData h dbName (DArr newData) else ret true);
         ret updated
     | _ => throw (dbName +:+ " is not an array")
     end)
    (λ _, ret false).

Definition delete (h : handle) (dbName : string) (query : item) : M bool :=
  try_catch
    (d ← readData h dbName;
     match d with
     | DArr l =>
         let newData := List.filter (λ it, negb (matches query it)) l in
         let deleted := negb (Nat.eqb (length l) (length newData)) in
         _ ← (if deleted then writeData h dbName (DArr newData) else ret true);
         ret deleted
     | _ => throw (dbName +:+ " is not an array")
     end)
    (λ _, ret false).

(** The catch block of [initDatabase] logs and rethrows. *)
Definition initDatabase (h : handle) : M unit :=
  try_catch
    (_ ← fs_ensureDir;
     _ ← fs_ensureDir;
     _ ← fs_ensureDir;
     for_of databases
       (λ name (_ : unit),
          ex ← fs_pathExists name;
          if negb ex
          then dflt ← getDefaultData name;
               _ ← writeData h name dflt;
               ret tt
          else ret tt)
       tt)
    (λ e, throw e).

Definition clearCache (h : handle) (dbName : option string) : M unit :=
  match dbName with
  | Some n => modify (λ w, set_caches (base.delete (h, n) (caches w)) w)
  | None => modify (λ w, set_caches (filter (λ kv, kv.1.1 ≠ h) (caches w)) w)
  end.

(** What [findOne] answers with [null] and [undefined] kept apart:
    [null] when the collection is not an array, [undefined] when no
    record of the array matches. *)
Inductive answer :=
  | Found (o : item)
  | Undefined
  | Null.

Definition findOne_answer (h : handle) (dbName : string) (query : item) : M answer :=
  d ← readData h dbName;
  match d with
  | DArr l =>
      ret (match List.find (matches query) l with
           | Some o => Found o
           | None => Undefined
           end)
  | _ => ret Null
  end.

End DatabaseManager.

(** ** FileManager.readFile (utils/fileManager.js) *)

Module FileManager.


End FileManager.

(** ** Validator.sanitize (utils/validator.js) *)

Module Validator.

(** [scrub] is what [trim] and the three regular-expression [replace]
    calls do to a string. *)
Definition sanitize (scrub : string → string) (input : value) : value :=
  match input with
  | VStr s => VStr (scrub s)
  | _ => input
  end.

(** [Number.isInteger(userId) && userId > 0] *)
Definition isValidUserId (userId : value) : bool :=
  match userId with
  | VNum n => 0 <? n
  | _ => false
  end.

(** [Number.isInteger(stock) && stock >= 0] *)
Definition isValidStock (stock : value) : bool :=
  match stock with
  | VNum n => 0 <=? n
  | _ => false
  end.

End Validator.

(** ** OrderManager (modules/orderManager.js) *)

Module OrderManager.

Definition createOrder (orderData : item) : M (Reply item) :=
  try_catch
    (orderId ← SecurityManager.generateOrderId;
     t ← get now;
     let order : item :=
       <["orderId" := orderId]> (
       <["userId" := prop orderData "userId"]> (
       <["productId" := prop orderData "productId"]> (
       <["productName" := prop orderData "productName"]> (
       <["amount" := prop orderData "amount"]> (
       <["quantity" := js_or (prop orderData "quantity") (VNum 1)]> (
       <["paymentMethod" := prop orderData "paymentMethod"]> (
       <["status" := VStr "pending"]> (
       <["paymentStatus" := VStr "unpaid"]> (
       <["deliveryStatus" := VStr "pending"]> (
       <["notes" := js_or (prop orderData "notes") (VStr "")]> (
       <["metadata" := VObj (
           <["userInfo" := js_or (prop orderData "userInfo") (VObj ∅)]> (
           <["productInfo" := js_or (prop orderData "productInfo") (VObj ∅)]> (
           <["paymentInfo" := VObj ∅]> ∅)))]> (
       <["createdAt" := VTime t]> (
       <["updatedAt" := VTime t]> (
       <["expiresAt" := VTime (t + 3600000)]> ∅)))))))))))))) in
     inserted ← DatabaseManager.insert db_order "orders" order;
     (* insert fills in id, createdAt and updatedAt on the object it was given *)
     ret (Success (default order inserted)))
    (λ e, ret (Failure e)).

Definition updateOrder (orderId : value) (updates : item) : M bool :=
  try_catch
    (t ← get now;
     DatabaseManager.update db_order "orders"
       (<["orderId" := orderId]> ∅) (<["updatedAt" := VTime t]> updates))
    (λ _, ret false).

Definition getOrder (orderId : value) : M (option item) :=
  try_catch
    (DatabaseManager.findOne db_order "orders" (Given (<["orderId" := orderId]> ∅)))
    (λ _, ret None).

Definition approveOrder (orderId approvedBy : value) : M (Reply item) :=
  try_catch
    (o ← getOrder orderId;
     match o with
     | None => throw "Order not found"
     | Some order =>
         if negb (strict_eq (prop order "status") (VStr "pending"))
         then throw "Order cannot be approved"
         else
           t ← get now;
           _ ← updateOrder orderId
                 (<["status" := VStr "processing"]> (
                  <["paymentStatus" := VStr "paid"]> (
                  <["approvedBy" := approvedBy]> (
                  <["approvedAt" := VTime t]> ∅))));
           ret (Success order)
     end)
    (λ e, ret (Failure e)).

Definition rejectOrder (orderId reason rejectedBy : value) : M (Reply item) :=
  try_catch
    (o ← getOrder orderId;
     match o with
     | None => throw "Order not found"
     | Some order =>
         t ← get now;
         _ ← updateOrder orderId
               (<["status" := VStr "cancelled"]> (
                <["paymentStatus" := VStr "refunded"]> (
                <["rejectedBy" := rejectedBy]> (
                <["rejectionReason" := reason]> (
                <["rejectedAt" := VTime t]> ∅)))));
         ret (Success order)
     end)
    (λ e, ret (Failure e)).

Definition completeOrder (orderId : value) : M (Reply item) :=
  try_catch
    (o ← getOrder orderId;
     match o with
     | None => throw "Order not found"
     | Some order =>
         t ← get now;
         _ ← updateOrder orderId
               (<["status" := VStr "completed"]> (
                <["deliveryStatus" := VStr "delivered"]> (
                <["completedAt" := VTime t]> ∅)));
         ret (Success order)
     end)
    (λ e, ret (Failure e)).

Definition cancelOrder (orderId reason : value) : M (Reply item) :=
  try_catch
    (o ← getOrder orderId;
     match o with
     | None => throw "Order not found"
     | Some order =>
         if negb (strict_eq (prop order "status") (VStr "pending")
                  || strict_eq (prop order "status") (VStr "processing"))
         then throw "Order cannot be cancelled"
         else
           t ← get now;
           _ ← updateOrder orderId
                 (<["status" := VStr "cancelled"]> (
                  <["cancellationReason" := reason]> (
                  <["cancelledAt" := VTime t]> ∅)));
           ret (Success order)
     end)
    (λ e, ret (Failure e)).

(** [now > new Date(expiresAt).getTime()] *)
Definition past (t : Z) (expiresAt : value) : bool :=
  match getTime expiresAt with
  | Some e => e <? t
  | None => false
  end.

Definition cleanupExpiredOrders : M Z :=
  try_catch
    (orders ← DatabaseManager.readData db_order "orders";
     t ← get now;
     match orders with
     | DArr l =>
         for_of l
           (λ order cleanedCount,
              if strict_eq (prop order "status") (VStr "pending")
                 && truthy (prop order "expiresAt")
              then
                if past t (prop order "expiresAt")
                then _ ← cancelOrder (prop order "orderId") (VStr "Order expired");
                     ret (cleanedCount + 1)
                else ret cleanedCount
              else ret cleanedCount)
           0
     | DObj _ | DFun _ => throw "orders is not iterable"
     | DStr _ => ret 0   (* iterates the characters; none has a status *)
     end)
    (λ _, ret 0).

Section WithSort.

(** [orders.sort((a, b) => new Date(b.createdAt) - new Date(a.createdAt))]:
    the order in which the engine's [Array.prototype.sort] leaves an
    array under this comparator. *)
Variable newest_first : list item → list item.

(** [if (filters[key]) orders = orders.filter(o => o[key] === filters[key])] *)
Definition narrowed (filters : item) (key : string) (l : list item) : list item :=
  if truthy (prop filters key)
  then List.filter (λ o, strict_eq (prop o key) (prop filters key)) l
  else l.

(** [filter] makes a new array; without a filter the array that [sort]
    reorders is the one [readData] handed out, the cached array itself
    when the cache holds the collection. *)
Definition getAllOrders (filters : item) : M (list item) :=
  try_catch
    (orders ← DatabaseManager.readData db_order "orders";
     match orders with
     | DArr l =>
         if truthy (prop filters "status") || truthy (prop filters "paymentStatus")
            || truthy (prop filters "userId") || truthy (prop filters "productId")
         then
           ret (newest_first
                  (narrowed filters "productId" (narrowed filters "userId"
                     (narrowed filters "paymentStatus" (narrowed filters "status" l)))))
         else
           _ ← DatabaseManager.push_shared db_order "orders" (DArr (newest_first l));
           ret (newest_first l)
     | _ => throw "orders.sort is not a function"
     end)
    (λ _, ret []).

End WithSort.

End OrderManager.

(** ** UserManager (modules/userManager.js, the second class of
    src/modules/productManager.js) *)

Module UserManager.

Definition getUser (userId : value) : M (option item) :=
  try_catch
    (DatabaseManager.findOne db_user "users" (Given (<["userId" := userId]> ∅)))
    (λ _, ret None).

Definition updateUser (userId : value) (updates : item) : M bool :=
  try_catch
    (t ← get now;
     DatabaseManager.update db_user "users"
       (<["userId" := userId]> ∅) (<["lastActivity" := VTime t]> updates))
    (λ _, ret false).

Definition updateBalance (userId amount : value) (type : string) : M (Reply value) :=
  try_catch
    (u ← getUser userId;
     match u with
     | None => throw "User not found"
     | Some user =>
         let balance := prop user "balance" in
         newBalance ←
           (if String.eqb type "add" then ret (js_add balance amount)
            else if String.eqb type "subtract" then
                   if js_lt balance amount then throw "Insufficient balance"
                   else ret (js_sub balance amount)
            else if String.eqb type "set" then ret amount
            else ret balance);
         _ ← updateUser userId (<["balance" := newBalance]> ∅);
         ret (Success newBalance)
     end)
    (λ e, ret (Failure e)).

(** [user.statistics?.totalOrders] *)
Definition statistic (user : item) (key : string) : value :=
  match prop user "statistics" with
  | VObj s => prop s key
  | _ => VUndef
  end.

Definition incrementOrderCount (userId : value) : M bool :=
  try_catch
    (u ← getUser userId;
     match u with
     | None => ret false
     | Some user =>
         _ ← updateUser userId
               (<["statistics.totalOrders" :=
                    js_add (js_or (statistic user "totalOrders") (VNum 0)) (VNum 1)]> ∅);
         ret true
     end)
    (λ _, ret false).

(** [list.filter(x => x.status === 'completed')] *)
Definition completed (l : list item) : list item :=
  List.filter (λ x, strict_eq (prop x "status") (VStr "completed")) l.

(** [list.reduce((sum, x) => sum + x.amount, 0)] *)
Definition total (l : list item) : value :=
  fold_left (λ sum x, js_add sum (prop x "amount")) l (VNum 0).

Definition getUserStats (userId : value) : M (option item) :=
  try_catch
    (u ← getUser userId;
     match u with
     | None => ret None
     | Some user =>
         orders ← DatabaseManager.findMany db_user "orders" (Given (<["userId" := userId]> ∅));
         deposits ← DatabaseManager.findMany db_user "deposits" (Given (<["userId" := userId]> ∅));
         ret (Some (
           <["userId" := prop user "userId"]> (
           <["username" := prop user "username"]> (
           <["balance" := prop user "balance"]> (
           <["totalOrders" := VNum (Z.of_nat (length orders))]> (
           <["completedOrders" := VNum (Z.of_nat (length (completed orders)))]> (
           <["pendingOrders" := VNum (Z.of_nat (length (List.filter
                (λ o, strict_eq (prop o "status") (VStr "pending")) orders)))]> (
           <["totalSpent" := total (completed orders)]> (
           <["totalDeposits" := total (completed deposits)]> (
           <["joinedAt" := prop user "joinedAt"]> (
           <["lastActivity" := prop user "lastActivity"]> (
           <["status" := prop user "status"]> ∅))))))))))))
     end)
    (λ _, ret None).

(** The object [createUser] answers with:
    [{ success, message, user }], or [{ success: false, message }] from
    the catch block. *)
Definition createUser (userData : item) : M item :=
  try_catch
    (if negb (Validator.isValidUserId (prop userData "userId"))
     then throw "Invalid user ID"
     else
       existing ← DatabaseManager.findOne db_user "users"
                    (Given (<["userId" := prop userData "userId"]> ∅));
       match existing with
       | Some found =>
           ret (<["success" := VBool false]> (
                <["message" := VStr "User already exists"]> (
                <["user" := VObj found]> ∅)))
       | None =>
           t ← get now;
           let user : item :=
             <["userId" := prop userData "userId"]> (
             <["username" := js_or (prop userData "username") (VStr "Unknown")]> (
             <["firstName" := js_or (prop userData "firstName") (VStr "")]> (
             <["lastName" := js_or (prop userData "lastName") (VStr "")]> (
             <["role" := VStr "user"]> (
             <["balance" := VNum 0]> (
             <["totalSpent" := VNum 0]> (
             <["totalOrders" := VNum 0]> (
             <["status" := VStr "active"]> (
             <["isBlocked" := VBool false]> (
             <["isBanned" := VBool false]> (
             <["verificationLevel" := VNum 0]> (
             <["joinedAt" := VTime t]> (
             <["lastActivity" := VTime t]> (
             <["metadata" := VObj (
                 <["phone" := VNull]> (
                 <["email" := VNull]> (
                 <["address" := VNull]> (
                 <["preferences" := VObj ∅]> ∅))))]> (
             <["statistics" := VObj (
                 <["totalDeposits" := VNum 0]> (
                 <["totalOrders" := VNum 0]> (
                 <["totalSpent" := VNum 0]> (
                 <["completedOrders" := VNum 0]> (
                 <["cancelledOrders" := VNum 0]> ∅)))))]> ∅))))))))))))))) in
           inserted ← DatabaseManager.insert db_user "users" user;
           (* insert fills in id, createdAt and updatedAt on the object it was given *)
           ret (<["success" := VBool true]> (
                <["message" := VStr "User created"]> (
                <["user" := VObj (default user inserted)]> ∅)))
       end)
    (λ e, ret (<["success" := VBool false]> (<["message" := VStr e]> ∅))).

(** [blockUser] and [unblockUser]. The set [this.security.blockedUsers]
    of the user manager's own SecurityManager is handed in and back. *)
Definition blockUser (blockedUsers : list value) (userId reason : value)
  : M (bool * list value) :=
  try_catch
    (t ← get now;
     _ ← updateUser userId
           (<["isBlocked" := VBool true]> (
            <["blockReason" := reason]> (
            <["blockedAt" := VTime t]> ∅)));
     ret (true, SecurityManager.blockUser blockedUsers userId))
    (λ _, ret (false, blockedUsers)).

Definition unblockUser (blockedUsers : list value) (userId : value)
  : M (bool * list value) :=
  try_catch
    (_ ← updateUser userId
           (<["isBlocked" := VBool false]> (
            <["blockReason" := VNull]> (
            <["blockedAt" := VNull]> ∅)));
     ret (true, blockedUsers))
    (λ _, ret (false, blockedUsers)).

(** [getUser] with [null] and [undefined] kept apart. *)
Definition getUser_answer (userId : value) : M DatabaseManager.answer :=
  try_catch
    (DatabaseManager.findOne_answer db_user "users" (<["userId" := userId]> ∅))
    (λ _, ret DatabaseManager.Null).

(** [user !== null] *)
Definition userExists (userId : value) : M bool :=
  user ← getUser_answer userId;
  ret (match user with
       | DatabaseManager.Null => false
       | _ => true
       end).

(** [{ allowed: true }] or [{ allowed: false, reason }] *)
Inductive Access :=
  | Allowed
  | Denied (reason : string).

Definition checkUserAccess (blockedUsers : list value) (userId : value) : M Access :=
  u ← getUser userId;
  match u with
  | None => ret (Denied "User not found")
  | Some user =>
      if truthy (prop user "isBlocked") then ret (Denied "User is blocked")
      else if truthy (prop user "isBanned") then ret (Denied "User is banned")
      else if SecurityManager.isBlocked blockedUsers userId
           then ret (Denied "Temporarily blocked")
           else ret Allowed
  end.

Definition addDepositHistory (userId amount : value) : M bool :=
  try_catch
    (u ← getUser userId;
     match u with
     | None => ret false
     | Some user =>
         _ ← updateUser userId
               (<["statistics.totalDeposits" :=
                    js_add (js_or (statistic user "totalDeposits") (VNum 0)) amount]> ∅);
         ret true
     end)
    (λ _, ret false).

End UserManager.

(** ** ProductManager (modules/productManager.js) *)

Module ProductManager.
Section WithScrub.

Variable scrub : string → string.

Definition updateProduct (productId : value) (updates : item) : M bool :=
  try_catch
    (t ← get now;
     let u1 := if truthy (prop updates "name")
               then <["name" := Validator.sanitize scrub (prop updates "name")]> updates
               else updates in
     let u2 := if truthy (prop u1 "description")
               then <["description" := Validator.sanitize scrub (prop u1 "description")]> u1
               else u1 in
     DatabaseManager.update db_product "products"
       (<["productId" := productId]> ∅) (<["updatedAt" := VTime t]> u2))
    (λ _, ret false).

Definition getProduct (productId : value) : M (option item) :=
  try_catch
    (DatabaseManager.findOne db_product "products" (Given (<["productId" := productId]> ∅)))
    (λ _, ret None).

Definition incrementSalesCount (productId : value) : M bool :=
  try_catch
    (p ← getProduct productId;
     match p with
     | None => ret false
     | Some product =>
         let newStock :=
           Math_max0 (js_sub (js_or (prop product "stock") (VNum 0)) (VNum 1)) in
         _ ← updateProduct productId
               (<["totalSales" := js_add (js_or (prop product "totalSales") (VNum 0)) (VNum 1)]> (
                <["stock" := newStock]> ∅));
         ret true
     end)
    (λ _, ret false).

Definition checkStock (productId quantity : value) : M bool :=
  try_catch
    (p ← getProduct productId;
     match p with
     | None => ret false
     | Some product => ret (js_ge (prop product "stock") quantity)
     end)
    (λ _, ret false).

Definition updateStock (productId quantity : value) (operation : string)
  : M (Reply value) :=
  try_catch
    (p ← getProduct productId;
     match p with
     | None => throw "Product not found"
     | Some product =>
         let stock0 := js_or (prop product "stock") (VNum 0) in
         let newStock :=
           if String.eqb operation "add" then js_add stock0 quantity
           else if String.eqb operation "subtract" then Math_max0 (js_sub stock0 quantity)
           else if String.eqb operation "set" then quantity
           else stock0 in
         _ ← updateProduct productId (<["stock" := newStock]> ∅);
         ret (Success newStock)
     end)
    (λ e, ret (Failure e)).

Definition incrementViewCount (productId : value) : M bool :=
  try_catch
    (p ← getProduct productId;
     match p with
     | None => ret false
     | Some product =>
         _ ← updateProduct productId
               (<["totalViews" := js_add (js_or (prop product "totalViews") (VNum 0)) (VNum 1)]> ∅);
         ret true
     end)
    (λ _, ret false).

End WithScrub.
End ProductManager.

(** ** PaymentManager (modules/paymentManager.js, the third class of
    src/modules/productManager.js) *)

Module PaymentManager.

Definition updateDeposit (depositId : value) (updates : item) : M bool :=
  try_catch
    (t ← get now;
     DatabaseManager.update db_payment "deposits"
       (<["depositId" := depositId]> ∅) (<["updatedAt" := VTime t]> updates))
    (λ _, ret false).

Definition getDeposit (depositId : value) : M (option item) :=
  try_catch
    (DatabaseManager.findOne db_payment "deposits" (Given (<["depositId" := depositId]> ∅)))
    (λ _, ret None).

Definition approveDeposit (depositId approvedBy : value) : M (Reply item) :=
  try_catch
    (d ← getDeposit depositId;
     match d with
     | None => throw "Deposit not found"
     | Some deposit =>
         if negb (strict_eq (prop deposit "status") (VStr "pending"))
         then throw "Deposit cannot be approved"
         else
           t ← get now;
           _ ← updateDeposit depositId
                 (<["status" := VStr "completed"]> (
                  <["approvedBy" := approvedBy]> (
                  <["approvedAt" := VTime t]> ∅)));
           ret (Success deposit)
     end)
    (λ e, ret (Failure e)).

Definition rejectDeposit (depositId reason rejectedBy : value) : M (Reply item) :=
  try_catch
    (d ← getDeposit depositId;
     match d with
     | None => throw "Deposit not found"
     | Some deposit =>
         t ← get now;
         _ ← updateDeposit depositId
               (<["status" := VStr "rejected"]> (
                <["rejectedBy" := rejectedBy]> (
                <["rejectionReason" := reason]> (
                <["rejectedAt" := VTime t]> ∅))));
         ret (Success deposit)
     end)
    (λ e, ret (Failure e)).

(** The gateway call: its answer comes from the environment and leaves
    the local state alone. *)
Definition cancelQRISPayment (externalId : value) : M (Reply unit) :=
  try_catch
    (up ← get gateway_up;
     if up : bool then ret (Success tt) else throw "Failed to cancel payment")
    (λ e, ret (Failure e)).

Definition cleanupExpiredDeposits : M Z :=
  try_catch
    (deposits ← DatabaseManager.readData db_payment "deposits";
     t ← get now;
     match deposits with
     | DArr l =>
         for_of l
           (λ deposit cleanedCount,
              if strict_eq (prop deposit "status") (VStr "pending")
                 && truthy (prop deposit "expiresAt")
              then
                if OrderManager.past t (prop deposit "expiresAt")
                then
                  _ ← (if truthy (prop deposit "externalId")
                       then _ ← cancelQRISPayment (prop deposit "externalId"); ret tt
                       else ret tt);
                  t' ← get now;
                  _ ← updateDeposit (prop deposit "depositId")
                        (<["status" := VStr "expired"]> (
                         <["expiredAt" := VTime t']> ∅));
                  ret (cleanedCount + 1)
                else ret cleanedCount
              else ret cleanedCount)
           0
     | DObj _ | DFun _ => throw "deposits is not iterable"
     | DStr _ => ret 0
     end)
    (λ _, ret 0).

Section WithGateway.

(** What [axios.post] is going to answer at the gateway's create URL (for
    this amount and deposit id) and at its status URL (for this
    transaction id): [response.data], or the error it throws.
    [ToString v] is the text [new Error(v).message] holds. *)
Variable axios_post_create : value → value → Res value.
Variable axios_post_status : value → Res value.
Variable ToString : value → string.

(** The fields of the answer next to [success]. *)
Definition createQRISPayment (amount depositId : value) : M (Reply item) :=
  try_catch
    (match axios_post_create amount depositId with
     | Throw e => throw e
     | Ok response_data =>
         if truthy response_data
            && strict_eq (member response_data "status") (VBool true)
         then
           match member response_data "data" with
           | VUndef | VNull =>
               throw "Cannot read properties of undefined (reading 'qr_url')"
           | d =>
               ret (Success (<["qrUrl" := member d "qr_url"]> (
                             <["paymentUrl" := member d "checkout_url"]> (
                             <["externalId" := member d "trxid"]> (
                             <["metadata" := d]> ∅)))))
           end
         else throw (ToString (js_or (member response_data "message")
                                     (VStr "Failed to create QRIS payment")))
     end)
    (λ e, ret (Failure e)).

Definition checkQRISStatus (externalId : value) : M (Reply item) :=
  try_catch
    (match axios_post_status externalId with
     | Throw e => throw e
     | Ok response_data =>
         if truthy response_data
         then ret (Success (
                <["status" := js_or (member (member response_data "data") "status")
                                    (VStr "pending")]> (
                <["data" := member response_data "data"]> ∅)))
         else throw "Failed to check status"
     end)
    (λ e, ret (Failure e)).

Definition createDeposit (depositData : item) : M (Reply item) :=
  try_catch
    (depositId ← SecurityManager.generateSecureToken;
     t ← get now;
     let deposit : item :=
       <["depositId" := depositId]> (
       <["userId" := prop depositData "userId"]> (
       <["amount" := prop depositData "amount"]> (
       <["method" := prop depositData "method"]> (
       <["status" := VStr "pending"]> (
       <["qrUrl" := VNull]> (
       <["paymentUrl" := VNull]> (
       <["externalId" := VNull]> (
       <["metadata" := VObj ∅]> (
       <["createdAt" := VTime t]> (
       <["updatedAt" := VTime t]> (
       <["expiresAt" := VTime (t + 3600000)]> ∅))))))))))) in
     deposit' ←
       (if strict_eq (prop depositData "method") (VStr "QRIS_AUTO")
        then
          qrisResult ← createQRISPayment (prop depositData "amount") depositId;
          match qrisResult with
          | Success r =>
              ret (<["metadata" := prop r "metadata"]> (
                   <["externalId" := prop r "externalId"]> (
                   <["paymentUrl" := prop r "paymentUrl"]> (
                   <["qrUrl" := prop r "qrUrl"]> deposit))))
          | Failure _ => throw "Failed to create QRIS payment"
          end
        else ret deposit);
     inserted ← DatabaseManager.insert db_payment "deposits" deposit';
     (* insert fills in id, createdAt and updatedAt on the object it was given *)
     ret (Success (default deposit' inserted)))
    (λ e, ret (Failure e)).

End WithGateway.

End PaymentManager.

(** ** Callback handlers of the main file *)

Module Handlers.
Section WithScrub.

Variable scrub : string → string.

(** Messages to the chat leave the store alone; that a message can fail
    to be sent is not part of this model. *)
Definition bot_send : M unit := ret tt.

(** [bot.answerCallbackQuery(query.id, ...)] inside a handler that has no
    [query] in scope. *)
Definition answer_without_query {A} : M A := throw "query is not defined".


(** [handlePaymentActions], branch [method === 'balance']. *)
Definition handlePaymentBalance (userId productId : value) : M unit :=
  try_catch
    (p ← ProductManager.getProduct productId;
     u ← UserManager.getUser userId;
     match p with
     | None => answer_without_query
     | Some product =>
         match u with
         | None => throw "Cannot read properties of undefined (reading 'balance')"
         | Some user =>
             if js_lt (prop user "balance") (prop product "price")
             then answer_without_query
             else
               orderResult ← OrderManager.createOrder (
                 <["userId" := userId]> (
                 <["productId" := prop product "productId"]> (
                 <["productName" := prop product "name"]> (
                 <["amount" := prop product "price"]> (
                 <["paymentMethod" := VStr "BALANCE"]> (
                 <["userInfo" := VObj (<["username" := prop user "username"]> (
                                       <["firstName" := prop user "firstName"]> ∅))]> (
                 <["productInfo" := VObj (<["category" := prop product "category"]> ∅)]>
                 ∅)))))));
               match orderResult with
               | Failure _ => answer_without_query
               | Success order =>
                   _ ← UserManager.updateBalance userId (prop product "price") "subtract";
                   cfg ← get config;
                   _ ← (if REQUIRE_APPROVAL cfg
                        then
                          _ ← OrderManager.updateOrder (prop order "orderId")
                                (<["paymentStatus" := VStr "paid"]> (
                                 <["status" := VStr "processing"]> ∅));
                          _ ← bot_send;
                          bot_send
                        else
                          _ ← OrderManager.completeOrder (prop order "orderId");
                          _ ← ProductManager.incrementSalesCount scrub productId;
                          bot_send);
                   _ ← UserManager.incrementOrderCount userId;
                   ret tt
               end
         end
     end)
    (λ _, bot_send).

(** [handleOrderActions], branch [action === 'cancel']. *)
Definition handleOrderCancel (userId orderId : value) : M unit :=
  try_catch
    (o ← OrderManager.getOrder orderId;
     match o with
     | None => answer_without_query
     | Some order =>
         if negb (strict_eq (prop order "userId") userId)
         then answer_without_query
         else if negb (strict_eq (prop order "status") (VStr "pending")
                       || strict_eq (prop order "status") (VStr "processing"))
         then answer_without_query
         else
           _ ← OrderManager.cancelOrder orderId (VStr "Dibatalkan oleh user");
           _ ← UserManager.updateBalance userId (prop order "amount") "add";
           bot_send
     end)
    (λ _, bot_send).

(** [handleAdminActions], branch [section === 'order' && action === 'approve']. *)
Definition handleAdminOrderApprove (userId orderId : value) : M unit :=
  try_catch
    (result ← OrderManager.approveOrder orderId userId;
     match result with
     | Success order =>
         _ ← OrderManager.completeOrder orderId;
         _ ← ProductManager.incrementSalesCount scrub (prop order "productId");
         _ ← bot_send;
         bot_send
     | Failure _ => ret tt
     end)
    (λ _, bot_send).

(** [handleAdminActions], branch [section === 'deposit' && action === 'approve']. *)
Definition handleAdminDepositApprove (userId depositId : value) : M unit :=
  try_catch
    (result ← PaymentManager.approveDeposit depositId userId;
     match result with
     | Success deposit =>
         _ ← UserManager.updateBalance (prop deposit "userId") (prop deposit "amount") "add";
         _ ← UserManager.addDepositHistory (prop deposit "userId") (prop deposit "amount");
         _ ← bot_send;
         bot_send
     | Failure _ => ret tt
     end)
    (λ _, bot_send).

(** The message handler, once the rate limit and the access check have
    let the message through: the branches
    [state.waitingFor === 'admin_order_reject_reason'] and
    [state.waitingFor === 'deposit_proof' && msg.photo]. The dialogue
    state ([userStates]) is not part of the store. *)
Definition handleOrderRejectReason (userId orderId reason : value) : M unit :=
  try_catch
    (result ← OrderManager.rejectOrder orderId reason userId;
     match result with
     | Success order =>
         _ ← UserManager.updateBalance (prop order "userId") (prop order "amount") "add";
         _ ← bot_send;
         bot_send
     | Failure _ => bot_send
     end)
    (λ _, bot_send).

Definition handleDepositProof (depositId file_id : value) : M unit :=
  try_catch
    (_ ← PaymentManager.updateDeposit depositId
           (<["proofUrl" := file_id]> (<["status" := VStr "pending"]> ∅));
     _ ← bot_send;
     d ← PaymentManager.getDeposit depositId;
     match d with
     | None => throw "Cannot read properties of undefined (reading 'amount')"
     | Some _ => bot_send
     end)
    (λ _, bot_send).

(** [handleDepositActions], branch [action === 'check']. *)
Variable axios_post_status : value → Res value.

Definition handleDepositCheck (userId depositId : value) : M unit :=
  try_catch
    (d ← PaymentManager.getDeposit depositId;
     match d with
     | None => answer_without_query
     | Some deposit =>
         paid ←
           (if truthy (prop deposit "externalId")
            then
              statusResult ← PaymentManager.checkQRISStatus axios_post_status
                               (prop deposit "externalId");
              match statusResult with
              | Success r =>
                  if strict_eq (prop r "status") (VStr "success")
                  then
                    _ ← PaymentManager.approveDeposit depositId (VStr "AUTO_SYSTEM");
                    _ ← UserManager.updateBalance userId (prop deposit "amount") "add";
                    _ ← bot_send;
                    ret true
                  else ret false
              | Failure _ => ret false
              end
            else ret false);
         if paid : bool then ret tt else answer_without_query
     end)
    (λ _, bot_send).

End WithScrub.
End Handlers.

(** ** The dispatcher of callback queries and the page buttons *)

Module Dispatcher.

Inductive target :=
  | MainMenu | ProductsMenu | MyOrders | DepositMenu | BalanceMenu
  | ProfileMenu | HelpMenu
  | AdminPanel | AdminActions | NotAdmin
  | ProductActions | OrderActions | DepositActions | PaymentActions.

(** The handler that the [callback_query] listener hands [data] to, once
    the rate limit and the access check have let the query through;
    [None] when no test of the listener matches. [owner] is
    [isOwner(userId)]. *)
Definition route (owner : bool) (data : string) : option target :=
  if String.eqb data "main_menu" then Some MainMenu
  else if String.eqb data "menu_products" then Some ProductsMenu
  else if String.eqb data "menu_my_orders" then Some MyOrders
  else if String.eqb data "menu_deposit" then Some DepositMenu
  else if String.eqb data "menu_balance" then Some BalanceMenu
  else if String.eqb data "menu_profile" then Some ProfileMenu
  else if String.eqb data "menu_help" then Some HelpMenu
  else if String.eqb data "admin_panel"
       then Some (if owner then AdminPanel else NotAdmin)
  else if String.prefix "admin_" data
       then Some (if owner then AdminActions else NotAdmin)
  else if String.prefix "product_" data then Some ProductActions
  else if String.prefix "order_" data then Some OrderActions
  else if String.prefix "deposit_" data then Some DepositActions
  else if String.prefix "payment_" data then Some PaymentActions
  else None.

(** The [callback_data] of the navigation buttons that
    [handleProductsMenu] and [handleMyOrders] put under page [page] of
    [totalPages]; [show n] is the decimal text of [n]. *)
Definition navButtons (show : Z → string) (name : string) (page totalPages : Z)
  : list string :=
  (if 1 <? page then [name +:+ "_page_" +:+ show (page - 1)] else [])
  ++ ["noop"]
  ++ (if page <? totalPages then [name +:+ "_page_" +:+ show (page + 1)] else []).

Definition productsNavButtons (show : Z → string) (page totalPages : Z) : list string :=
  navButtons show "products" page totalPages.

Definition ordersNavButtons (show : Z → string) (page totalPages : Z) : list string :=
  navButtons show "orders" page totalPages.

End Dispatcher.
(** ** Vocabulary of the statements *)

(** What [getDefaultData] answers at clock [t]. *)
Definition default_data (dbName : string) (t : Z) : data :=
  if String.eqb dbName "stats"
  then DObj (<["totalUsers" := VNum 0]> (<["totalProducts" := VNum 0]>
            (<["totalOrders" := VNum 0]> (<["totalRevenue" := VNum 0]>
            (<["lastUpdate" := VTime t]> ∅)))))
  else if String.eqb dbName "__proto__" then DObj ∅
  else if DatabaseManager.inherited dbName then DFun dbName
  else DArr [].

(** The cipher can be set up: encryption is off or key and IV have the
    lengths AES-256-CBC asks for. *)
Definition cipher_ready (cfg : Config) : bool :=
  negb (ENCRYPTION cfg) || SecurityManager.key_ok cfg.

(** The environment in which nothing goes wrong: no file-system call is
    going to throw and the cipher can be set up. *)
Definition nominal (w : World) : bool :=
  bool_decide (io_faults w = []) && cipher_ready (config w).

(** What [writeData] puts in the file for the collection value [d]: its
    JSON text, sealed when the store is encrypted. *)
Definition stored (cfg : Config) (d : data) : data :=
  if ENCRYPTION cfg
  then DStr (Sealed (ENCRYPTION_KEY cfg) (ENCRYPTION_IV cfg) (JSON_stringify d))
  else json d.

(** The world after the fs call that [fs_fault] stands for. *)
Definition after_fs_call (w : World) : World :=
  match io_faults w with
  | [] => w
  | _ :: rest => set_io_faults rest w
  end.

(** The world after a [writeData] that went through. *)
Definition commit (h : handle) (dbName : string) (d : data) (w : World) : World :=
  set_caches (<[(h, dbName) := d]> (caches w))
    (set_files (<[dbName := stored (config w) d]> (files w)) (after_fs_call w)).

(** Does the next [writeData] to [dbName] go through? *)
Definition write_goes_through (dbName : string) (w : World) : bool :=
  DatabaseManager.known dbName && cipher_ready (config w)
  && negb (hd false (io_faults w)).

(** A DatabaseManager that holds the array [l] for [dbName] in its cache. *)
Definition warm (h : handle) (dbName : string) (l : list item) (w : World) : Prop :=
  caches w !! (h, dbName) = Some (DArr l).

(** A computation that returns normally from every world. *)
Definition never_throws {A} (m : M A) : Prop :=
  ∀ w, ∃ a w', m w = (Ok a, w').

(** [{ [key]: v }], the query of the single-key lookups. *)
Definition by_key (key : string) (v : value) : item := <[key := v]> ∅.

(** What [update] makes of the array [l]. *)
Definition patched (query updates : item) (t : Z) (l : list item) : list item :=
  map (λ it, if matches query it then DatabaseManager.patch t updates it else it) l.

Definition approval (approvedBy : value) (t : Z) : item :=
  <["updatedAt" := VTime t]> (
  <["status" := VStr "processing"]> (
  <["paymentStatus" := VStr "paid"]> (
  <["approvedBy" := approvedBy]> (
  <["approvedAt" := VTime t]> ∅)))).


(** The [updates] object [updateBalance] hands to [updateUser], as it
    reaches [update]. *)
Definition balance_update (newBalance : value) (t : Z) : item :=
  <["lastActivity" := VTime t]> (<["balance" := newBalance]> ∅).

(** The [updates] objects of the two sale operations, as they reach
    [update]. *)
Definition sale_update (totalSales newStock : value) (t : Z) : item :=
  <["updatedAt" := VTime t]> (<["totalSales" := totalSales]> (<["stock" := newStock]> ∅)).

Definition stock_update (newStock : value) (t : Z) : item :=
  <["updatedAt" := VTime t]> (<["stock" := newStock]> ∅).

(** *** Vocabulary of the order and deposit life cycles *)






Definition rejection (reason rejectedBy : value) (t : Z) : item :=
  <["updatedAt" := VTime t]> (
  <["status" := VStr "cancelled"]> (
  <["paymentStatus" := VStr "refunded"]> (
  <["rejectedBy" := rejectedBy]> (
  <["rejectionReason" := reason]> (
  <["rejectedAt" := VTime t]> ∅))))).

Definition completion (t : Z) : item :=
  <["updatedAt" := VTime t]> (
  <["status" := VStr "completed"]> (
  <["deliveryStatus" := VStr "delivered"]> (
  <["completedAt" := VTime t]> ∅))).

Definition cancellation (reason : value) (t : Z) : item :=
  <["updatedAt" := VTime t]> (
  <["status" := VStr "cancelled"]> (
  <["cancellationReason" := reason]> (
  <["cancelledAt" := VTime t]> ∅))).

(** A world with the orders of one manager's store on disk and nothing
    cached, in the nominal environment. *)
Definition plain_config : Config :=
  {| ENCRYPTION := false; ENCRYPTION_KEY := ""; ENCRYPTION_IV := "";
     REQUIRE_APPROVAL := true |}.

Definition world_of (fl : gmap string data) : World :=
  {| config := plain_config; files := fl; caches := ∅; io_faults := [];
     now := 1000; entropy := []; gateway_up := true |}.

Definition order_A (status : string) : item :=
  <["orderId" := VStr "ORD-A"]> (
  <["userId" := VNum 7]> (
  <["amount" := VNum 5000]> (
  <["status" := VStr status]> (
  <["paymentStatus" := VStr "paid"]> ∅)))).

(** The status a lookup has come back with. *)
Definition status_seen (r : Res (option item) * World) : value :=
  match r.1 with
  | Ok (Some o) => prop o "status"
  | _ => VUndef
  end.







(** [x] is a deposit the sweep at clock [t] expires. *)
Definition overdue (t : Z) (x : item) : bool :=
  strict_eq (prop x "status") (VStr "pending")
  && truthy (prop x "expiresAt")
  && OrderManager.past t (prop x "expiresAt").


Definition deposit_approval (approvedBy : value) (t : Z) : item :=
  <["updatedAt" := VTime t]> (
  <["status" := VStr "completed"]> (
  <["approvedBy" := approvedBy]> (
  <["approvedAt" := VTime t]> ∅))).



Definition expiry (t : Z) : item :=
  <["updatedAt" := VTime t]> (
  <["status" := VStr "expired"]> (
  <["expiredAt" := VTime t]> ∅)).

Definition deposit_D (status : string) (expiresAt : Z) : item :=
  <["depositId" := VStr "dep-1"]> (
  <["userId" := VNum 7]> (
  <["amount" := VNum 20000]> (
  <["method" := VStr "DANA"]> (
  <["status" := VStr status]> (
  <["externalId" := VNull]> (
  <["expiresAt" := VTime expiresAt]> ∅)))))).


(** What one turn of the sweep's loop, at clock [t] and for the deposit
    [x] of the array it iterates, makes of the stored array. *)
Definition expire_step (t : Z) (σ : list item) (x : item) : list item :=
  if overdue t x
  then patched (by_key "depositId" (prop x "depositId")) (expiry t) t σ
  else σ.

(** A later sweep: the clock has moved to [t]. *)
Definition sweep_again (w : World) (t : Z) : World :=
  (PaymentManager.cleanupExpiredDeposits (set_now t w)).2.

(** Of the stored deposits that carry [id], all are expired. *)
Definition all_expired (id : value) (σ : list item) : Prop :=
  ∀ y, In y σ → matches (by_key "depositId" id) y = true →
       prop y "status" = VStr "expired".


(** The state of the payment manager's store once the deposit [d1] that
    the lookup by [id] finds is expired: every deposit with that id is
    expired, and cache and file hold the same array. *)
Definition settled (id : value) (d1 : item) (cfg : Config) (w : World) : Prop :=
  nominal w = true ∧ config w = cfg
  ∧ ∃ s, warm db_payment "deposits" s w
      ∧ List.find (matches (by_key "depositId" id)) s = Some d1
      ∧ all_expired id s
      ∧ files w !! "deposits" = Some (stored cfg (DArr s)).

Definition pending_deposit_world : World :=
  world_of (<["deposits" := DArr [deposit_D "pending" 500]]> ∅).

Definition pending_order_world : World :=
  world_of (<["orders" := DArr [order_A "pending"]]> ∅).

Definition user_U (balance : Z) : item :=
  <["userId" := VNum 7]> (
  <["username" := VStr "budi"]> (
  <["balance" := VNum balance]> (
  <["status" := VStr "active"]> ∅))).

Definition user_world : World :=
  world_of (<["users" := DArr [user_U 10000]]> ∅).

Definition product_P (price stock : Z) : item :=
  <["productId" := VStr "prod-1"]> (
  <["name" := VStr "E-book"]> (
  <["category" := VStr "ebook"]> (
  <["price" := VNum price]> (
  <["stock" := VNum stock]> (
  <["totalSales" := VNum 3]> ∅))))).

Definition product_world : World :=
  world_of (<["products" := DArr [product_P 5000 0]]> ∅).

(** *** Vocabulary of the purchase with balance *)

(** A shop with one user (balance 10000), one product (price 5000) and no
    order yet, nothing cached; [faults] tells which of the coming
    file-system calls throw. *)
Definition shop_world (balance : Z) (faults : list bool) : World :=
  {| config := plain_config;
     files := <["users" := DArr [user_U balance]]> (
              <["products" := DArr [product_P 5000 4]]> (
              <["orders" := DArr []]> ∅));
     caches := ∅; io_faults := faults; now := 1000;
     entropy := ["k1"; "k2"; "k3"; "k4"]; gateway_up := true |}.

(** The orders in the file, as (userId, amount, paymentStatus). *)
Definition orders_on_disk (w : World) : list (value * value * value) :=
  match files w !! "orders" with
  | Some (DArr l) =>
      map (λ o, (prop o "userId", prop o "amount", prop o "paymentStatus")) l
  | _ => []
  end.

(** The balances in the file. *)
Definition balances_on_disk (w : World) : list value :=
  match files w !! "users" with
  | Some (DArr l) => map (λ u, prop u "balance") l
  | _ => []
  end.

(** The balance the user manager sees. *)
Definition balance_seen (userId : value) (w : World) : value :=
  match (UserManager.getUser userId w).1 with
  | Ok (Some u) => prop u "balance"
  | _ => VUndef
  end.

(** The handler up to and including the creation of the order, and from
    the deduction on: the two halves between which the handler awaits. *)
Definition purchase_begin (userId productId : value) : M (item * item * item) :=
  p ← ProductManager.getProduct productId;
  u ← UserManager.getUser userId;
  match p with
  | None => Handlers.answer_without_query
  | Some product =>
      match u with
      | None => throw "Cannot read properties of undefined (reading 'balance')"
      | Some user =>
          if js_lt (prop user "balance") (prop product "price")
          then Handlers.answer_without_query
          else
            orderResult ← OrderManager.createOrder (
              <["userId" := userId]> (
              <["productId" := prop product "productId"]> (
              <["productName" := prop product "name"]> (
              <["amount" := prop product "price"]> (
              <["paymentMethod" := VStr "BALANCE"]> (
              <["userInfo" := VObj (<["username" := prop user "username"]> (
                                    <["firstName" := prop user "firstName"]> ∅))]> (
              <["productInfo" := VObj (<["category" := prop product "category"]> ∅)]>
              ∅)))))));
            match orderResult with
            | Failure _ => Handlers.answer_without_query
            | Success order => ret (product, user, order)
            end
      end
  end.

Definition purchase_finish (scrub : string → string) (userId productId : value)
    (ctx : item * item * item) : M unit :=
  let '(product, user, order) := ctx in
  _ ← UserManager.updateBalance userId (prop product "price") "subtract";
  cfg ← get config;
  _ ← (if REQUIRE_APPROVAL cfg
       then
         _ ← OrderManager.updateOrder (prop order "orderId")
               (<["paymentStatus" := VStr "paid"]> (
                <["status" := VStr "processing"]> ∅));
         _ ← Handlers.bot_send;
         Handlers.bot_send
       else
         _ ← OrderManager.completeOrder (prop order "orderId");
         _ ← ProductManager.incrementSalesCount scrub productId;
         Handlers.bot_send);
  _ ← UserManager.incrementOrderCount userId;
  ret tt.

(** Two purchases of the same user whose halves alternate. *)
Definition two_purchases (scrub : string → string) (userId productId : value) : M unit :=
  a ← purchase_begin userId productId;
  b ← purchase_begin userId productId;
  _ ← purchase_finish scrub userId productId a;
  purchase_finish scrub userId productId b.

(** *** Vocabulary of the encrypted store *)

(** The one ciphertext [writeData] makes of the collection value [d]. *)
Definition sealed (cfg : Config) (d : data) : jstr :=
  Sealed (ENCRYPTION_KEY cfg) (ENCRYPTION_IV cfg) (JSON_stringify d).

Definition secret_config : Config :=
  {| ENCRYPTION := true;
     ENCRYPTION_KEY := "000102030405060708090a0b0c0d0e0f101112131415161718191a1b1c1d1e1f";
     ENCRYPTION_IV := "a0a1a2a3a4a5a6a7a8a9aaabacadaeaf";
     REQUIRE_APPROVAL := true |}.

Definition secret_world : World :=
  {| config := secret_config; files := ∅; caches := ∅; io_faults := [];
     now := 1000; entropy := []; gateway_up := true |}.

(** The size of a value, to reason about the values inside it. *)
Fixpoint value_size (v : value) : nat :=
  match v with
  | VObj o => S (map_fold (λ _ v' n, value_size v' + n)%nat 0%nat o)
  | VArr l => S (foldr (λ v' n, value_size v' + n)%nat 0%nat l)
  | _ => 1%nat
  end.

(** A read that has to go to the file of [dbName]: the reader [h'] has
    nothing cached, sees the configuration and the file that the writer
    left in [w1], and its read does not fail. *)
Definition reads_the_file_of (h' : handle) (dbName : string) (w1 w' : World) : Prop :=
  config w' = config w1
  ∧ files w' !! dbName = files w1 !! dbName
  ∧ caches w' !! (h', dbName) = None
  ∧ hd false (io_faults w') = false.

(** C6 as the claim states it: with encryption enabled, whatever
    collection value was written is what a read returns. *)
Definition reading_returns_what_was_written : Prop :=
  ∀ h h' dbName d w w1 w',
    ENCRYPTION (config w) = true →
    DatabaseManager.writeData h dbName d w = (Ok true, w1) →
    reads_the_file_of h' dbName w1 w' →
    (DatabaseManager.readData h' dbName w').1 = Ok d.

(** A deposit as the 'QRIS_AUTO' button makes it: the amount is
    [parseInt('AUTO')]. *)
Definition deposit_without_amount : item :=
  <["depositId" := VStr "dep-3"]> (
  <["userId" := VNum 7]> (
  <["amount" := VNaN]> (
  <["status" := VStr "pending"]> ∅))).

(** *** Vocabulary of the cache *)

(** What [readData] makes of the content [raw] of a file. *)
Definition decoded (cfg : Config) (raw : data) : option data :=
  match raw with
  | DStr s =>
      if ENCRYPTION cfg
      then
        if SecurityManager.key_ok cfg
        then match s with
             | Sealed k iv plain =>
                 if String.eqb k (ENCRYPTION_KEY cfg) && String.eqb iv (ENCRYPTION_IV cfg)
                 then match plain with
                      | JsonText d => if serializable d then Some (json d) else None
                      | _ => None
                      end
                 else None
             | _ => None
             end
        else None
      else Some raw
  | DFun _ => None
  | _ => Some (json raw)
  end.

(** Every entry of the cache of the DatabaseManager [h] is what the file
    of its collection holds now. *)
Definition coherent_for (h : handle) (w : World) : Prop :=
  ∀ dbName d, caches w !! (h, dbName) = Some d →
    ∃ raw, files w !! dbName = Some raw ∧ decoded (config w) raw = Some d.

Definition cache_coherent (w : World) : Prop := ∀ h, coherent_for h w.

(** A stable sort by [createdAt], newest first: what the engine's sort
    does with the comparator of [getAllOrders] on records whose dates
    are valid. *)
Definition created (o : item) : Z := default 0 (getTime (prop o "createdAt")).

Fixpoint insert_newest (o : item) (l : list item) : list item :=
  match l with
  | [] => [o]
  | x :: rest =>
      if created x <=? created o then o :: x :: rest
      else x :: insert_newest o rest
  end.

Definition newest_first (l : list item) : list item := foldr insert_newest [] l.

(** Two orders, the older one first, read once by the order manager. *)
Definition order_at (orderId : string) (t : Z) : item :=
  <["orderId" := VStr orderId]> (
  <["status" := VStr "pending"]> (
  <["createdAt" := VTime t]> ∅)).

Definition two_orders_read : World :=
  (DatabaseManager.readData db_order "orders"
     (world_of (<["orders" := DArr [order_at "ORD-1" 100; order_at "ORD-2" 200]]> ∅))).2.

(** The ids of the records of a collection value, in their order. *)
Definition order_ids (d : option data) : list value :=
  match d with
  | Some (DArr l) => map (λ o, prop o "orderId") l
  | _ => []
  end.

(** The statuses of the records of a collection value. *)
Definition statuses (d : option data) : list value :=
  match d with
  | Some (DArr l) => map (λ o, prop o "status") l
  | _ => []
  end.

(** A store with one pending order of user 7. *)
Definition stats_world : World :=
  world_of (<["orders" := DArr [order_A "pending"]]> (
            <["users" := DArr [user_U 10000]]> (
            <["deposits" := DArr []]> ∅))).

(** The user manager computes the user's statistics (it reads the orders
    through its own DatabaseManager), then the order manager approves the
    order. *)
Definition stats_then_approval : World :=
  (OrderManager.approveOrder (VStr "ORD-A") (VNum 1)
     (UserManager.getUserStats (VNum 7) stats_world).2).2.

(** *** Vocabulary of error handling *)









(** ** Vocabulary of the further properties *)

(** The record [insert] makes of [it] at clock [t], [id] being the id it
    keeps or draws. *)
Definition inserted (it : item) (id : value) (t : Z) : item :=
  <["updatedAt" := VTime t]> (
  <["createdAt" := js_or (prop (<["id" := id]> it) "createdAt") (VTime t)]> (
  <["id" := id]> it)).

(** The id [insert] gives the item [it] in the world [w]. *)
Definition insert_id (it : item) (w : World) : value :=
  if truthy (prop it "id") then prop it "id" else VStr (hd "" (entropy w)).

(** The orders file sealed under the key of another run of the process. *)
Definition orders_under_old_key : World :=
  {| config := secret_config;
     files := <["orders" := DStr (Sealed "00" "00" (JsonText (DArr [order_A "pending"])))]> ∅;
     caches := ∅; io_faults := []; now := 1000; entropy := []; gateway_up := true |}.

(** What one turn of the loop of [initDatabase] makes of the files, in
    the nominal environment with configuration [cfg] at clock [t]. *)
Definition init_step (cfg : Config) (t : Z) (σ : gmap string data) (name : string)
  : gmap string data :=
  match σ !! name with
  | Some _ => σ
  | None => <[name := stored cfg (default_data name t)]> σ
  end.

(** A store whose user manager holds an outdated copy of the orders. *)
Definition stale_cache_world : World :=
  {| config := plain_config;
     files := <["orders" := DArr [order_A "pending"]]> ∅;
     caches := <[(db_user, "orders") := DArr []]> ∅;
     io_faults := []; now := 1000; entropy := []; gateway_up := true |}.

(** One turn of the count of a sweep at clock [t]. *)
Definition count_step (t : Z) (cleanedCount : Z) (x : item) : Z :=
  if overdue t x then cleanedCount + 1 else cleanedCount.

(** What [updateBalance] makes of the balance; [None] when it refuses. *)
Definition new_balance (balance amount : value) (type : string) : option value :=
  if String.eqb type "add" then Some (js_add balance amount)
  else if String.eqb type "subtract"
       then if js_lt balance amount then None else Some (js_sub balance amount)
  else if String.eqb type "set" then Some amount
  else Some balance.

(** An overdue pending order and a fresh one, both of user 7. *)
Definition order_B (status : string) (expiresAt : Z) : item :=
  <["orderId" := VStr "ORD-B"]> (
  <["userId" := VNum 7]> (
  <["productId" := VStr "prod-1"]> (
  <["amount" := VNum 5000]> (
  <["status" := VStr status]> (
  <["paymentStatus" := VStr "unpaid"]> (
  <["expiresAt" := VTime expiresAt]> ∅)))))).

Definition two_orders_world : World :=
  world_of (<["orders" := DArr [order_B "pending" 500; order_A "pending"]]> (
            <["deposits" := DArr [deposit_D "pending" 500]]> ∅)).

(** The order [createOrder] builds from [orderData] at clock [t]. *)
Definition new_order (orderData : item) (orderId : value) (t : Z) : item :=
  <["orderId" := orderId]> (
  <["userId" := prop orderData "userId"]> (
  <["productId" := prop orderData "productId"]> (
  <["productName" := prop orderData "productName"]> (
  <["amount" := prop orderData "amount"]> (
  <["quantity" := js_or (prop orderData "quantity") (VNum 1)]> (
  <["paymentMethod" := prop orderData "paymentMethod"]> (
  <["status" := VStr "pending"]> (
  <["paymentStatus" := VStr "unpaid"]> (
  <["deliveryStatus" := VStr "pending"]> (
  <["notes" := js_or (prop orderData "notes") (VStr "")]> (
  <["metadata" := VObj (
      <["userInfo" := js_or (prop orderData "userInfo") (VObj ∅)]> (
      <["productInfo" := js_or (prop orderData "productInfo") (VObj ∅)]> (
      <["paymentInfo" := VObj ∅]> ∅)))]> (
  <["createdAt" := VTime t]> (
  <["updatedAt" := VTime t]> (
  <["expiresAt" := VTime (t + 3600000)]> ∅)))))))))))))).

(** The user [createUser] builds from [userData] at clock [t]. *)
Definition new_user (userData : item) (t : Z) : item :=
  <["userId" := prop userData "userId"]> (
  <["username" := js_or (prop userData "username") (VStr "Unknown")]> (
  <["firstName" := js_or (prop userData "firstName") (VStr "")]> (
  <["lastName" := js_or (prop userData "lastName") (VStr "")]> (
  <["role" := VStr "user"]> (
  <["balance" := VNum 0]> (
  <["totalSpent" := VNum 0]> (
  <["totalOrders" := VNum 0]> (
  <["status" := VStr "active"]> (
  <["isBlocked" := VBool false]> (
  <["isBanned" := VBool false]> (
  <["verificationLevel" := VNum 0]> (
  <["joinedAt" := VTime t]> (
  <["lastActivity" := VTime t]> (
  <["metadata" := VObj (
      <["phone" := VNull]> (
      <["email" := VNull]> (
      <["address" := VNull]> (
      <["preferences" := VObj ∅]> ∅))))]> (
  <["statistics" := VObj (
      <["totalDeposits" := VNum 0]> (
      <["totalOrders" := VNum 0]> (
      <["totalSpent" := VNum 0]> (
      <["completedOrders" := VNum 0]> (
      <["cancelledOrders" := VNum 0]> ∅)))))]> ∅))))))))))))))).

(** The object [createUser] answers with. *)
Definition user_reply (success : bool) (message : string) (user : item) : item :=
  <["success" := VBool success]> (
  <["message" := VStr message]> (
  <["user" := VObj user]> ∅)).

Definition error_reply (message : string) : item :=
  <["success" := VBool false]> (<["message" := VStr message]> ∅).

(** The [updates] objects of the user manager's counters and switches,
    as they reach [update]. *)
Definition order_count_update (totalOrders : value) (t : Z) : item :=
  <["lastActivity" := VTime t]> (<["statistics.totalOrders" := totalOrders]> ∅).

Definition deposit_history_update (totalDeposits : value) (t : Z) : item :=
  <["lastActivity" := VTime t]> (<["statistics.totalDeposits" := totalDeposits]> ∅).

Definition block_update (reason : value) (t : Z) : item :=
  <["lastActivity" := VTime t]> (
  <["isBlocked" := VBool true]> (
  <["blockReason" := reason]> (
  <["blockedAt" := VTime t]> ∅))).

Definition unblock_update (t : Z) : item :=
  <["lastActivity" := VTime t]> (
  <["isBlocked" := VBool false]> (
  <["blockReason" := VNull]> (
  <["blockedAt" := VNull]> ∅))).

(** [n] calls of [incrementOrderCount] in a row. *)
Definition count_orders (userId : value) (n : nat) (w : World) : World :=
  Nat.iter n (λ w', (UserManager.incrementOrderCount userId w').2) w.

(** What [getUser] makes of the answer of [getUser_answer]. *)
Definition found (a : DatabaseManager.answer) : option item :=
  match a with
  | DatabaseManager.Found o => Some o
  | _ => None
  end.

(** A user with [k] orders counted in the statistics. *)
Definition counted_user (k : Z) : item :=
  <["userId" := VNum 7]> (
  <["balance" := VNum 10000]> (
  <["statistics" := VObj (by_key "totalOrders" (VNum k))]> ∅)).

Definition counted_user_world : World :=
  world_of (<["users" := DArr [counted_user 4]]> ∅).

(** In the nominal environment, [w'] differs from [w] at most in the file
    of the collection [dbName] and in the cache entry the DatabaseManager
    [h] keeps for it. *)
Definition touches_only (h : handle) (dbName : string) (w w' : World) : Prop :=
  nominal w' = true ∧ config w' = config w ∧ now w' = now w
  ∧ entropy w' = entropy w ∧ gateway_up w' = gateway_up w
  ∧ (∀ k, k ≠ (h, dbName) → caches w' !! k = caches w !! k)
  ∧ (∀ n, n ≠ dbName → files w' !! n = files w !! n).

(** [n] sales of a product in a row. *)
Definition sell (scrub : string → string) (productId : value) (n : nat) (w : World)
  : World :=
  Nat.iter n (λ w', (ProductManager.incrementSalesCount scrub productId w').2) w.

(** A shop with one order that was never paid, in the given status. *)
Definition order_world (status : string) : World :=
  world_of (<["orders" := DArr [order_B status 5000000]]> (
            <["users" := DArr [user_U 10000]]> (
            <["products" := DArr [product_P 5000 4]]> ∅))).

(** The [updates] object of the proof upload, as it reaches [update]. *)
Definition proof_update (file_id : value) (t : Z) : item :=
  <["updatedAt" := VTime t]> (
  <["proofUrl" := file_id]> (
  <["status" := VStr "pending"]> ∅)).

(** A paid deposit that was made through the gateway, and its owner. *)
Definition gateway_deposit (status : string) : item :=
  <["depositId" := VStr "dep-2"]> (
  <["userId" := VNum 7]> (
  <["amount" := VNum 20000]> (
  <["method" := VStr "QRIS_AUTO"]> (
  <["status" := VStr status]> (
  <["externalId" := VStr "trx-9"]> ∅))))).

Definition deposit_world (status : string) : World :=
  world_of (<["deposits" := DArr [gateway_deposit status]]> (
            <["users" := DArr [user_U 10000]]> ∅)).

(** A gateway that reports every transaction as paid. *)
Definition paid_answer (externalId : value) : Res value :=
  Ok (VObj (<["status" := VBool true]> (
            <["data" := VObj (by_key "status" (VStr "success"))]> ∅))).

(** What the gateway's create URL has answered: anything but an answer
    whose [status] is [true] is a refusal. *)
Definition refused (answer : Res value) : bool :=
  match answer with
  | Throw _ => true
  | Ok response_data =>
      negb (truthy response_data && strict_eq (member response_data "status") (VBool true))
  end.

(** The deposit [createDeposit] builds from [depositData] at clock [t],
    before the gateway is asked. *)
Definition new_deposit (depositData : item) (depositId : value) (t : Z) : item :=
  <["depositId" := depositId]> (
  <["userId" := prop depositData "userId"]> (
  <["amount" := prop depositData "amount"]> (
  <["method" := prop depositData "method"]> (
  <["status" := VStr "pending"]> (
  <["qrUrl" := VNull]> (
  <["paymentUrl" := VNull]> (
  <["externalId" := VNull]> (
  <["metadata" := VObj ∅]> (
  <["createdAt" := VTime t]> (
  <["updatedAt" := VTime t]> (
  <["expiresAt" := VTime (t + 3600000)]> ∅))))))))))).

(** The same deposit with what the gateway has answered in [d]. *)
Definition gateway_fields (d : item) (deposit : item) : item :=
  <["metadata" := VObj d]> (
  <["externalId" := prop d "trxid"]> (
  <["paymentUrl" := prop d "checkout_url"]> (
  <["qrUrl" := prop d "qr_url"]> deposit))).

(** A gateway that accepts every payment under the transaction id
    "trx-9", and one that is down. *)
Definition accepting_gateway (amount depositId : value) : Res value :=
  Ok (VObj (<["status" := VBool true]> (
            <["data" := VObj (<["trxid" := VStr "trx-9"]> (
                              <["qr_url" := VStr "https://qr"]> ∅))]> ∅))).

Definition gateway_down (amount depositId : value) : Res value :=
  Throw "connect ECONNREFUSED".

Definition qris_request : item :=
  <["userId" := VNum 7]> (<["amount" := VNum 20000]> (<["method" := VStr "QRIS_AUTO"]> ∅)).

Definition no_deposits_world : World :=
  {| config := plain_config; files := <["deposits" := DArr []]> ∅; caches := ∅;
     io_faults := []; now := 1000; entropy := ["d1"; "k2"]; gateway_up := true |}.

(** One session, created at clock 0. *)
Definition one_session : gmap string SecurityManager.session :=
  (SecurityManager.createSession ∅ "s-1" (VNum 7) 0).1.

(** * Properties *)

Lemma strict_eq_eq a b : strict_eq a b = true → a = b.
Proof.
  destruct a, b; simpl; try discriminate; intros H; try reflexivity.
  - apply Bool.eqb_prop in H. by subst.
  - apply Z.eqb_eq in H. by subst.
  - apply String.eqb_eq in H. by subst.
  - apply Z.eqb_eq in H. by subst.
Qed.

Lemma strict_eq_sym a b : strict_eq a b = strict_eq b a.
Proof.
  destruct a, b; simpl; try reflexivity.
  - by destruct b, b0.
  - apply Z.eqb_sym.
  - apply String.eqb_sym.
  - apply Z.eqb_sym.
Qed.

Lemma strict_eq_str v s : strict_eq v (VStr s) = true ↔ v = VStr s.
Proof.
  split.
  - apply strict_eq_eq.
  - intros ->. simpl. apply String.eqb_refl.
Qed.

Lemma matches_by_key key v o : matches (by_key key v) o = strict_eq (prop o key) v.
Proof.
  unfold matches, by_key. rewrite insert_empty, map_to_list_singleton. simpl.
  apply andb_true_r.
Qed.

Lemma getDefaultData_run dbName w :
  DatabaseManager.getDefaultData dbName w = (Ok (default_data dbName (now w)), w).
Proof.
  unfold DatabaseManager.getDefaultData, default_data. cbn.
  destruct (String.eqb dbName "stats"); [done|].
  destruct (String.eqb dbName "__proto__"); [done|].
  by destruct (DatabaseManager.inherited dbName).
Qed.

(** A name of the store is no name that an object literal inherits. *)
Lemma known_not_inherited dbName :
  DatabaseManager.known dbName = true → DatabaseManager.inherited dbName = false.
Proof.
  unfold DatabaseManager.known, DatabaseManager.databases.
  intros H%bool_decide_eq_true.
  repeat (apply elem_of_cons in H as [->|H]; [by vm_compute|]).
  by apply elem_of_nil in H.
Qed.

Lemma default_data_known dbName t :
  DatabaseManager.known dbName = true →
  default_data dbName t
  = if String.eqb dbName "stats"
    then DObj (<["totalUsers" := VNum 0]> (<["totalProducts" := VNum 0]>
              (<["totalOrders" := VNum 0]> (<["totalRevenue" := VNum 0]>
              (<["lastUpdate" := VTime t]> ∅)))))
    else DArr [].
Proof.
  intros Hk. unfold default_data. destruct (String.eqb dbName "stats"); [done|].
  rewrite (known_not_inherited _ Hk).
  destruct (String.eqb_spec dbName "__proto__") as [->|]; [|done].
  by vm_compute in Hk.
Qed.

Lemma readData_hit h dbName d w :
  caches w !! (h, dbName) = Some d →
  DatabaseManager.readData h dbName w = (Ok d, w).
Proof.
  intros H. unfold DatabaseManager.readData, try_catch.
  unfold mbind, M_bind, bind, DatabaseManager.cache_get, get. by rewrite H.
Qed.

Lemma default_data_serializable dbName t :
  DatabaseManager.known dbName = true → serializable (default_data dbName t) = true.
Proof.
  intros Hk. rewrite default_data_known by done. by destruct (String.eqb dbName "stats").
Qed.

Ltac run_monad :=
  unfold mbind, M_bind, mret, M_ret, bind, try_catch, get, modify, ret, throw in *.

Lemma writeData_run h dbName d w :
  serializable d = true →
  DatabaseManager.writeData h dbName d w =
    if write_goes_through dbName w then (Ok true, commit h dbName d w)
    else (Ok false,
          if DatabaseManager.known dbName && cipher_ready (config w)
          then after_fs_call w else w).
Proof.
  intros Hs.
  unfold DatabaseManager.writeData, write_goes_through, commit, stored,
    cipher_ready, after_fs_call, SecurityManager.encrypt, fs_writeJson, fs_fault,
    DatabaseManager.cache_set.
  run_monad. rewrite Hs.
  destruct w as [cfg fl ca io t en gw]; simpl.
  destruct (DatabaseManager.known dbName); simpl;
    [|destruct (DatabaseManager.inherited dbName); simpl; [|done];
      destruct (ENCRYPTION cfg); simpl; [|done];
      by destruct (SecurityManager.key_ok cfg)].
  destruct (ENCRYPTION cfg); simpl.
  - destruct (SecurityManager.key_ok cfg); simpl; [|done].
    destruct io as [|[] io]; done.
  - rewrite Hs. simpl. destruct io as [|[] io]; done.
Qed.

(** A function cannot be written: it has no JSON text. *)
Lemma writeData_function h dbName d w :
  serializable d = false → DatabaseManager.writeData h dbName d w = (Ok false, w).
Proof.
  intros Hs.
  unfold DatabaseManager.writeData, SecurityManager.encrypt, fs_writeJson, fs_fault,
    DatabaseManager.cache_set.
  run_monad. rewrite Hs.
  destruct w as [cfg fl ca io t en gw]; simpl.
  destruct (DatabaseManager.known dbName), (DatabaseManager.inherited dbName);
    simpl; try done; destruct (ENCRYPTION cfg); simpl; rewrite ?Hs; done.
Qed.

Ltac read_done :=
  eexists _, _; (split; [reflexivity|]); simpl;
  first [ naive_solver
        | repeat (split; [by auto|]); right; split; [done|]; split; [done|];
          eexists; split; reflexivity ].

Lemma readData_inv h dbName w :
  ∃ d w', DatabaseManager.readData h dbName w = (Ok d, w')
    ∧ config w' = config w ∧ files w' = files w ∧ now w' = now w
    ∧ entropy w' = entropy w ∧ gateway_up w' = gateway_up w
    ∧ (io_faults w' = io_faults w ∨ io_faults w' = tail (io_faults w))
    ∧ ((caches w' = caches w
        ∧ (caches w !! (h, dbName) = Some d
           ∨ (caches w !! (h, dbName) = None ∧ d = default_data dbName (now w))))
       ∨ (caches w !! (h, dbName) = None
          ∧ caches w' = <[(h, dbName) := d]> (caches w)
          ∧ ∃ raw, files w !! dbName = Some raw ∧ decoded (config w) raw = Some d)).
Proof.
  destruct (caches w !! (h, dbName)) as [d|] eqn:Hc.
  { exists d, w. rewrite (readData_hit _ _ _ _ Hc). naive_solver. }
  unfold DatabaseManager.readData, DatabaseManager.cache_get, fs_pathExists,
    fs_readJson, fs_fault, SecurityManager.decrypt, JSON_parse,
    DatabaseManager.cache_set, decoded.
  run_monad. rewrite Hc.
  destruct w as [cfg fl ca io t en gw]; simpl in *.
  assert (∀ w0 : World, now w0 = t →
            DatabaseManager.getDefaultData dbName w0 = (Ok (default_data dbName t), w0))
    as Hdef by (intros w0 <-; apply getDefaultData_run).
  destruct (DatabaseManager.known dbName); simpl;
    [|destruct (DatabaseManager.inherited dbName); simpl;
      rewrite Hdef by done; read_done].
  destruct (fl !! dbName) as [raw|] eqn:Hf; simpl;
    [|rewrite Hdef by done; read_done].
  destruct io as [|[] io]; simpl; rewrite ?Hf, ?Hdef by done;
    try read_done;
    (destruct raw as [l|o|s|n]; simpl; rewrite ?Hdef by done;
     [read_done ..| |read_done]);
    (destruct (ENCRYPTION cfg); simpl; [|read_done]);
    (destruct (SecurityManager.key_ok cfg); simpl; rewrite ?Hdef by done; [|read_done]);
    (destruct s as [s|d'|k iv [s|d'|k' iv' p']]; simpl; rewrite ?Hdef by done;
     try read_done);
    (destruct (String.eqb k (ENCRYPTION_KEY cfg) && String.eqb iv (ENCRYPTION_IV cfg))
       eqn:Hkiv;
     simpl; rewrite ?Hdef by done; try read_done);
    (destruct (serializable d') eqn:Hser; simpl; rewrite ?Hdef by done; try read_done).
  all: eexists _, _; (split; [reflexivity|]); simpl.
  all: repeat (split; [by auto|]); right; split; [done|]; split; [done|].
  all: eexists; split; [reflexivity|]; simpl; by rewrite Hkiv, Hser.
Qed.

Lemma readData_never_throws h dbName : never_throws (DatabaseManager.readData h dbName).
Proof. intros w. destruct (readData_inv h dbName w) as (d & w' & H & _). eauto. Qed.

Lemma after_fs_call_fields w :
  config (after_fs_call w) = config w ∧ files (after_fs_call w) = files w
  ∧ caches (after_fs_call w) = caches w ∧ now (after_fs_call w) = now w
  ∧ entropy (after_fs_call w) = entropy w ∧ gateway_up (after_fs_call w) = gateway_up w
  ∧ io_faults (after_fs_call w) = tail (io_faults w).
Proof.
  unfold after_fs_call. destruct (io_faults w) eqn:E; simpl; by rewrite ?E.
Qed.

Lemma commit_fields h dbName d w :
  config (commit h dbName d w) = config w
  ∧ files (commit h dbName d w) = <[dbName := stored (config w) d]> (files w)
  ∧ caches (commit h dbName d w) = <[(h, dbName) := d]> (caches w)
  ∧ now (commit h dbName d w) = now w
  ∧ entropy (commit h dbName d w) = entropy w
  ∧ gateway_up (commit h dbName d w) = gateway_up w
  ∧ io_faults (commit h dbName d w) = tail (io_faults w).
Proof.
  destruct (after_fs_call_fields w) as (?&?&?&?&?&?&?).
  unfold commit; simpl. by repeat split.
Qed.

Lemma nominal_after_fs_call w : nominal w = true → after_fs_call w = w.
Proof.
  unfold nominal, after_fs_call. intros H%andb_true_iff. destruct H as [H _].
  apply bool_decide_eq_true in H. by rewrite H.
Qed.

Lemma nominal_write_goes_through dbName w :
  nominal w = true → DatabaseManager.known dbName = true →
  write_goes_through dbName w = true.
Proof.
  unfold nominal, write_goes_through. intros H%andb_true_iff Hk. destruct H as [H ->].
  apply bool_decide_eq_true in H. by rewrite H, Hk.
Qed.

Lemma nominal_commit h dbName d w : nominal w = true → nominal (commit h dbName d w) = true.
Proof.
  intros H. destruct (commit_fields h dbName d w) as (Hc&_&_&_&_&_&Hio).
  unfold nominal in *. rewrite Hc, Hio.
  apply andb_true_iff in H as [H ->]. apply bool_decide_eq_true in H. by rewrite H.
Qed.

Lemma warm_commit h dbName l w : warm h dbName l (commit h dbName (DArr l) w).
Proof.
  unfold warm. destruct (commit_fields h dbName (DArr l) w) as (_&_&->&_).
  apply lookup_insert_eq.
Qed.

(** A read that finds records leaves them in the cache. *)
Lemma readData_found_warm h dbName w l w' :
  DatabaseManager.readData h dbName w = (Ok (DArr l), w') → l ≠ [] →
  warm h dbName l w' ∧ config w' = config w ∧ now w' = now w ∧ files w' = files w
  ∧ (nominal w = true → nominal w' = true).
Proof.
  intros Hr Hl.
  destruct (readData_inv h dbName w) as (d & w1 & H & Hcfg & Hf & Hn & _ & _ & Hio & Hca).
  rewrite Hr in H. simplify_eq. repeat split; try done.
  - unfold warm. destruct Hca as [[-> [?|[_ Hd]]]|(_ & -> & _)].
    + done.
    + unfold default_data in Hd. by repeat case_match; simplify_eq.
    + apply lookup_insert_eq.
  - unfold nominal. rewrite Hcfg. intros [H1 ->]%andb_true_iff.
    apply bool_decide_eq_true in H1. rewrite H1 in Hio. simpl in Hio.
    assert (io_faults w1 = []) as -> by (by destruct Hio). done.
Qed.

Lemma patched_no_match (query : item) updates t l :
  existsb (matches query) l = false → patched query updates t l = l.
Proof.
  unfold patched. induction l as [|x l IH]; simpl; [done|].
  intros [-> H]%orb_false_iff. by rewrite IH.
Qed.

Lemma update_warm h dbName (query : item) updates l w :
  warm h dbName l w →
  DatabaseManager.update h dbName query updates w =
    (Ok (existsb (matches query) l),
     if existsb (matches query) l
     then (DatabaseManager.writeData h dbName
             (DArr (patched query updates (now w) l)) w).2
     else w).
Proof.
  intros Hw. unfold DatabaseManager.update. run_monad.
  rewrite (readData_hit _ _ _ _ Hw). fold (patched query updates (now w) l).
  destruct (existsb (matches query) l); [|done].
  rewrite writeData_run by done. by destruct (write_goes_through dbName w).
Qed.

Lemma findOne_warm h dbName (query : item) l w :
  warm h dbName l w →
  DatabaseManager.findOne h dbName query w = (Ok (List.find (matches query) l), w).
Proof.
  intros Hw. unfold DatabaseManager.findOne. run_monad.
  by rewrite (readData_hit _ _ _ _ Hw).
Qed.

(** In a nominal world an update of a cached, known collection always
    leaves the patched array in cache and file. *)
Lemma update_warm_nominal h dbName (query : item) updates l w :
  warm h dbName l w → nominal w = true → DatabaseManager.known dbName = true →
  ∃ w', DatabaseManager.update h dbName query updates w
          = (Ok (existsb (matches query) l), w')
    ∧ warm h dbName (patched query updates (now w) l) w'
    ∧ nominal w' = true ∧ config w' = config w ∧ now w' = now w
    ∧ gateway_up w' = gateway_up w
    ∧ (existsb (matches query) l = true →
       files w' !! dbName = Some (stored (config w) (DArr (patched query updates (now w) l))))
    ∧ (existsb (matches query) l = false → w' = w).
Proof.
  intros Hw Hn Hk. rewrite (update_warm _ _ _ _ _ _ Hw), writeData_run by done.
  rewrite (nominal_write_goes_through _ _ Hn Hk). simpl.
  destruct (existsb (matches query) l) eqn:He.
  - eexists; split; [done|].
    destruct (commit_fields h dbName (DArr (patched query updates (now w) l)) w)
      as (Hc&Hf&_&Ht&_&Hg&_).
    split; [apply warm_commit|]. split; [by apply nominal_commit|].
    repeat split; try done. intros _. rewrite Hf. apply lookup_insert_eq.
  - exists w. split; [done|]. rewrite patched_no_match by done. naive_solver.
Qed.

Lemma try_catch_ok {A} (m : M A) h w a w' :
  m w = (Ok a, w') → try_catch m h w = (Ok a, w').
Proof. intros H. unfold try_catch. by rewrite H. Qed.

Lemma try_catch_total {A} (m : M A) h :
  (∀ e, never_throws (h e)) → never_throws (try_catch m h).
Proof.
  intros Hh w. unfold try_catch. destruct (m w) as [[a|e] w']; [eauto|apply Hh].
Qed.

Lemma ret_never_throws {A} (a : A) : never_throws (ret a).
Proof. intros w. by eexists _, _. Qed.

Lemma bind_never_throws {A B} (m : M A) (k : A → M B) :
  never_throws m → (∀ a, never_throws (k a)) → never_throws (m ≫= k).
Proof.
  intros Hm Hk w. destruct (Hm w) as (a & w' & H). run_monad. rewrite H. apply Hk.
Qed.

Lemma findOne_never_throws h dbName (query : item) :
  never_throws (DatabaseManager.findOne h dbName query).
Proof.
  apply bind_never_throws; [apply readData_never_throws|].
  intros [l|o|s|n]; apply ret_never_throws.
Qed.

Lemma update_never_throws h dbName (query : item) updates :
  never_throws (DatabaseManager.update h dbName query updates).
Proof. apply try_catch_total. intros e. apply ret_never_throws. Qed.

(** A lookup that finds a record has read a non-empty array, which is in
    the cache from then on. *)
Lemma findOne_found h dbName (query : item) w o w1 :
  DatabaseManager.findOne h dbName query w = (Ok (Some o), w1) →
  ∃ l, warm h dbName l w1 ∧ List.find (matches query) l = Some o
    ∧ config w1 = config w ∧ now w1 = now w ∧ files w1 = files w
    ∧ (nominal w = true → nominal w1 = true).
Proof.
  unfold DatabaseManager.findOne. run_monad.
  destruct (DatabaseManager.readData h dbName w) as [[[l|?|?|?]|e] w'] eqn:Hr;
    intros H; simplify_eq.
  exists l. assert (l ≠ []) as Hl by (by intros ->).
  destruct (readData_found_warm _ _ _ _ _ Hr Hl) as (?&?&?&?&?). done.
Qed.

Lemma prop_patch_other t updates o key :
  key ≠ "updatedAt" → updates !! key = None →
  prop (DatabaseManager.patch t updates o) key = prop o key.
Proof.
  intros Hk Hu. unfold prop, DatabaseManager.patch.
  rewrite lookup_insert_ne by done. rewrite lookup_union_r; done.
Qed.

Lemma prop_patch_set t updates o key v :
  key ≠ "updatedAt" → updates !! key = Some v →
  prop (DatabaseManager.patch t updates o) key = v.
Proof.
  intros Hk Hu. unfold prop, DatabaseManager.patch.
  rewrite lookup_insert_ne by done. by rewrite (lookup_union_Some_l _ _ _ _ Hu).
Qed.

Lemma find_patched (query : item) updates t l o :
  List.find (matches query) l = Some o →
  matches query (DatabaseManager.patch t updates o) = true →
  List.find (matches query) (patched query updates t l)
    = Some (DatabaseManager.patch t updates o).
Proof.
  intros Hf Hm. induction l as [|x l IH]; simpl in *; [done|].
  destruct (matches query x) eqn:Hx.
  - simplify_eq. by rewrite Hm.
  - rewrite Hx. auto.
Qed.

Lemma find_existsb {A} (f : A → bool) l o :
  List.find f l = Some o → existsb f l = true.
Proof.
  intros H. apply existsb_exists. exists o.
  by destruct (find_some _ _ H).
Qed.

Lemma getOrder_run id w :
  OrderManager.getOrder id w
    = DatabaseManager.findOne db_order "orders" (by_key "orderId" id) w.
Proof.
  unfold OrderManager.getOrder.
  destruct (findOne_never_throws db_order "orders" (by_key "orderId" id) w) as (a & w' & H).
  rewrite H. by apply try_catch_ok.
Qed.

Lemma updateOrder_run id updates w :
  OrderManager.updateOrder id updates w
    = DatabaseManager.update db_order "orders" (by_key "orderId" id)
        (<["updatedAt" := VTime (now w)]> updates) w.
Proof.
  unfold OrderManager.updateOrder.
  destruct (update_never_throws db_order "orders" (by_key "orderId" id)
              (<["updatedAt" := VTime (now w)]> updates) w) as (a & w' & H).
  rewrite H. apply try_catch_ok. run_monad. exact H.
Qed.

Lemma approveOrder_run id approvedBy w o w1 :
  OrderManager.getOrder id w = (Ok (Some o), w1) →
  OrderManager.approveOrder id approvedBy w =
    if strict_eq (prop o "status") (VStr "pending")
    then (Ok (Success o),
          (DatabaseManager.update db_order "orders" (by_key "orderId" id)
             (approval approvedBy (now w1)) w1).2)
    else (Ok (Failure "Order cannot be approved"), w1).
Proof.
  intros Hg. unfold OrderManager.approveOrder. run_monad. rewrite Hg.
  destruct (strict_eq (prop o "status") (VStr "pending")); simpl; [|done].
  rewrite updateOrder_run.
  destruct (update_never_throws db_order "orders" (by_key "orderId" id)
              (approval approvedBy (now w1)) w1) as (b & w2 & Hu).
  rewrite Hu. unfold approval in Hu. by rewrite Hu.
Qed.

(** What a lookup by another key sees after an update: the record it
    found before, patched if the update's query matched it. *)
Lemma find_patched_cases (query' query : item) updates t l o :
  List.find (matches query') l = Some o →
  (∀ x, matches query' (DatabaseManager.patch t updates x) = matches query' x) →
  List.find (matches query') (patched query updates t l)
    = Some (if matches query o then DatabaseManager.patch t updates o else o).
Proof.
  intros Hf Hm. induction l as [|x l IH]; simpl in *; [done|].
  destruct (matches query' x) eqn:Hx.
  - simplify_eq. destruct (matches query o); by rewrite ?Hm, Hx.
  - destruct (matches query x); rewrite ?Hm, Hx; auto.
Qed.

Lemma matches_by_key_patch key id t updates x :
  key ≠ "updatedAt" → updates !! key = None →
  matches (by_key key id) (DatabaseManager.patch t updates x) = matches (by_key key id) x.
Proof. intros. by rewrite !matches_by_key, prop_patch_other. Qed.

(** An update of a cached collection, in any world: the cache holds the
    patched array if the write went through and the old one if not. *)
Lemma update_warm_post h dbName (query : item) updates l w :
  warm h dbName l w →
  ∃ w' l', DatabaseManager.update h dbName query updates w
             = (Ok (existsb (matches query) l), w')
    ∧ warm h dbName l' w'
    ∧ (l' = l ∨ l' = patched query updates (now w) l)
    ∧ config w' = config w ∧ now w' = now w
    ∧ (nominal w = true → DatabaseManager.known dbName = true →
       l' = patched query updates (now w) l ∧ nominal w' = true).
Proof.
  intros Hw. rewrite (update_warm _ _ _ _ _ _ Hw), writeData_run by done.
  destruct (existsb (matches query) l) eqn:He.
  - destruct (write_goes_through dbName w) eqn:Hg; simpl.
    + destruct (commit_fields h dbName (DArr (patched query updates (now w) l)) w)
        as (Hc&_&_&Ht&_).
      eexists _, _. split; [done|]. split; [apply warm_commit|].
      repeat split; auto. by apply nominal_commit.
    + exists (if DatabaseManager.known dbName && cipher_ready (config w)
              then after_fs_call w else w), l.
      destruct (after_fs_call_fields w) as (Hc&_&Hca&Ht&_).
      split; [done|].
      split; [unfold warm; by destruct (_ && _); rewrite ?Hca|].
      split; [by left|].
      split; [by destruct (_ && _)|].
      split; [by destruct (_ && _)|].
      intros Hn Hk. by rewrite (nominal_write_goes_through _ _ Hn Hk) in Hg.
  - exists w, l. rewrite patched_no_match by done. naive_solver.
Qed.

Lemma getUser_run id w :
  UserManager.getUser id w = DatabaseManager.findOne db_user "users" (by_key "userId" id) w.
Proof.
  unfold UserManager.getUser.
  destruct (findOne_never_throws db_user "users" (by_key "userId" id) w) as (a & w' & H).
  rewrite H. by apply try_catch_ok.
Qed.

Lemma updateUser_run id updates w :
  UserManager.updateUser id updates w
    = DatabaseManager.update db_user "users" (by_key "userId" id)
        (<["lastActivity" := VTime (now w)]> updates) w.
Proof.
  unfold UserManager.updateUser.
  destruct (update_never_throws db_user "users" (by_key "userId" id)
              (<["lastActivity" := VTime (now w)]> updates) w) as (a & w' & H).
  rewrite H. apply try_catch_ok. run_monad. exact H.
Qed.

Lemma subtract_run id a w u w1 :
  UserManager.getUser id w = (Ok (Some u), w1) →
  UserManager.updateBalance id a "subtract" w =
    if js_lt (prop u "balance") a
    then (Ok (Failure "Insufficient balance"), w1)
    else (Ok (Success (js_sub (prop u "balance") a)),
          (DatabaseManager.update db_user "users" (by_key "userId" id)
             (balance_update (js_sub (prop u "balance") a) (now w1)) w1).2).
Proof.
  intros Hg. unfold UserManager.updateBalance. run_monad. rewrite Hg. simpl.
  destruct (js_lt (prop u "balance") a); [done|].
  rewrite updateUser_run.
  destruct (update_never_throws db_user "users" (by_key "userId" id)
              (balance_update (js_sub (prop u "balance") a) (now w1)) w1) as (b & w2 & Hu).
  rewrite Hu. unfold balance_update in Hu. by rewrite Hu.
Qed.

(** An update by the key a record was found under, in any world. *)
Lemma update_found_post h dbName key id updates l o w :
  warm h dbName l w →
  List.find (matches (by_key key id)) l = Some o →
  key ≠ "updatedAt" → updates !! key = None →
  ∃ w' o', DatabaseManager.update h dbName (by_key key id) updates w = (Ok true, w')
    ∧ DatabaseManager.findOne h dbName (by_key key id) w' = (Ok (Some o'), w')
    ∧ (o' = DatabaseManager.patch (now w) updates o ∨ o' = o)
    ∧ (nominal w = true → DatabaseManager.known dbName = true →
       o' = DatabaseManager.patch (now w) updates o ∧ nominal w' = true)
    ∧ config w' = config w ∧ now w' = now w.
Proof.
  intros Hw Hf Hk Hu.
  destruct (update_warm_post h dbName (by_key key id) updates l w Hw)
    as (w' & l' & Hup & Hw' & Hl' & Hc & Ht & Hnom).
  rewrite (find_existsb _ _ _ Hf) in Hup.
  assert (matches (by_key key id) o = true) as Hm by (by destruct (find_some _ _ Hf)).
  assert (List.find (matches (by_key key id)) (patched (by_key key id) updates (now w) l)
          = Some (DatabaseManager.patch (now w) updates o)) as Hfp.
  { apply find_patched; [done|]. by rewrite matches_by_key_patch. }
  destruct Hl' as [->| ->].
  - exists w', o. rewrite (findOne_warm _ _ _ _ _ Hw'), Hf.
    repeat split; auto.
    + destruct (Hnom H H0) as [Hl _]. rewrite <- Hl in Hfp. congruence.
    + by destruct (Hnom H H0).
  - exists w', (DatabaseManager.patch (now w) updates o).
    rewrite (findOne_warm _ _ _ _ _ Hw'), Hfp.
    repeat split; auto. by destruct (Hnom H H0).
Qed.

(** C1. Let [o] be the order that the lookup by [orderId] finds. If its
    status is 'pending', [approveOrder] answers success with it, and the
    order found afterwards has status 'processing' and paymentStatus 'paid'
    (or is still [o], which happens only when the write to the file did
    not go through: never in the nominal environment, where the file holds
    the approved order too). If its status is not 'pending',
    [approveOrder] answers a failure object, and files and order are as
    they were. *)
Theorem approveOrder_pending_to_processing id approvedBy w o w1 :
  OrderManager.getOrder id w = (Ok (Some o), w1) →
  (prop o "status" = VStr "pending" →
     ∃ w2 o',
       OrderManager.approveOrder id approvedBy w = (Ok (Success o), w2)
       ∧ OrderManager.getOrder id w2 = (Ok (Some o'), w2)
       ∧ (o' = o
          ∨ (prop o' "status" = VStr "processing" ∧ prop o' "paymentStatus" = VStr "paid"))
       ∧ (nominal w = true →
          prop o' "status" = VStr "processing"
          ∧ prop o' "paymentStatus" = VStr "paid"
          ∧ ∃ l', files w2 !! "orders" = Some (stored (config w) (DArr l'))
              ∧ List.find (matches (by_key "orderId" id)) l' = Some o'))
  ∧ (prop o "status" ≠ VStr "pending" →
     ∃ message,
       OrderManager.approveOrder id approvedBy w = (Ok (Failure message), w1)
       ∧ files w1 = files w
       ∧ OrderManager.getOrder id w1 = (Ok (Some o), w1)).
Proof.
  intros Hg. rewrite (approveOrder_run _ approvedBy _ _ _ Hg).
  rewrite getOrder_run in Hg.
  destruct (findOne_found _ _ _ _ _ _ Hg) as (l & Hw & Hf & Hcfg & Ht & Hfl & Hn).
  split.
  - intros Hs. rewrite Hs. simpl.
    set (u := approval approvedBy (now w1)).
    destruct (update_found_post db_order "orders" "orderId" id u l o w1 Hw Hf)
      as (w2 & o' & Hu & Hfo & Ho' & Hnom & _); [done..|].
    rewrite Hu. simpl. exists w2, o'. split; [done|].
    split; [by rewrite getOrder_run|].
    split.
    { destruct Ho' as [->| ->]; [right|by left].
      split; by apply prop_patch_set. }
    intros Hno. destruct (Hnom (Hn Hno) eq_refl) as [-> _].
    split; [by apply prop_patch_set|]. split; [by apply prop_patch_set|].
    destruct (update_warm_nominal db_order "orders" (by_key "orderId" id) u l w1 Hw
                (Hn Hno) eq_refl) as (w2' & Hu' & _ & _ & _ & _ & _ & Hf2 & _).
    rewrite Hu in Hu'. rewrite (find_existsb _ _ _ Hf) in Hu', Hf2.
    injection Hu' as <-.
    exists (patched (by_key "orderId" id) u (now w1) l).
    split; [rewrite <- Hcfg; by apply Hf2|].
    apply find_patched; [done|].
    rewrite matches_by_key_patch by done. by destruct (find_some _ _ Hf).
  - intros Hs. destruct (strict_eq (prop o "status") (VStr "pending")) eqn:He.
    { by apply strict_eq_str in He. }
    eexists. split; [done|]. split; [done|].
    by rewrite getOrder_run, (findOne_warm _ _ _ _ _ Hw), Hf.
Qed.

(** C9. For an existing user with stored balance [b],
    [updateBalance(userId, a, 'subtract')] answers the failure object with
    message 'Insufficient balance' if and only if [b < a], and then files
    and user are as they were; otherwise it answers success with the new
    balance [b - a], which is not negative, and the stored balance is
    [b - a] (or the user is unchanged, which happens only when the write
    did not go through: never in the nominal environment). *)
Theorem updateBalance_subtract id w u w1 (b a : Z) :
  UserManager.getUser id w = (Ok (Some u), w1) →
  prop u "balance" = VNum b →
  ((UserManager.updateBalance id (VNum a) "subtract" w).1
     = Ok (Failure "Insufficient balance") ↔ b < a)
  ∧ (b < a →
     UserManager.updateBalance id (VNum a) "subtract" w
       = (Ok (Failure "Insufficient balance"), w1)
     ∧ files w1 = files w
     ∧ UserManager.getUser id w1 = (Ok (Some u), w1))
  ∧ (a ≤ b →
     ∃ w2 u',
       UserManager.updateBalance id (VNum a) "subtract" w
         = (Ok (Success (VNum (b - a))), w2)
       ∧ 0 ≤ b - a
       ∧ UserManager.getUser id w2 = (Ok (Some u'), w2)
       ∧ (prop u' "balance" = VNum (b - a) ∨ u' = u)
       ∧ (nominal w = true →
          prop u' "balance" = VNum (b - a)
          ∧ ∃ l', files w2 !! "users" = Some (stored (config w) (DArr l'))
              ∧ List.find (matches (by_key "userId" id)) l' = Some u')).
Proof.
  intros Hg Hb. rewrite (subtract_run _ (VNum a) _ _ _ Hg), Hb.
  rewrite getUser_run in Hg.
  destruct (findOne_found _ _ _ _ _ _ Hg) as (l & Hw & Hf & Hcfg & Ht & Hfl & Hn).
  unfold js_lt, js_sub; simpl.
  destruct (Z.ltb_spec b a) as [Hlt|Hge]; simpl.
  - split; [done|]. split; [|lia]. intros _. split; [done|]. split; [done|].
    by rewrite getUser_run, (findOne_warm _ _ _ _ _ Hw), Hf.
  - split; [split; [done|lia]|]. split; [lia|]. intros _.
    set (up := balance_update (VNum (b - a)) (now w1)).
    destruct (update_found_post db_user "users" "userId" id up l u w1 Hw Hf)
      as (w2 & u' & Hu & Hfo & Hu' & Hnom & _); [done..|].
    rewrite Hu. simpl. exists w2, u'. split; [done|]. split; [lia|].
    split; [by rewrite getUser_run|].
    split.
    { destruct Hu' as [->| ->]; [left|by right]. by apply prop_patch_set. }
    intros Hno. destruct (Hnom (Hn Hno) eq_refl) as [-> _].
    split; [by apply prop_patch_set|].
    destruct (update_warm_nominal db_user "users" (by_key "userId" id) up l w1 Hw
                (Hn Hno) eq_refl) as (w2' & Hup & _ & _ & _ & _ & _ & Hf2 & _).
    rewrite Hu in Hup. rewrite (find_existsb _ _ _ Hf) in Hup, Hf2.
    injection Hup as <-.
    exists (patched (by_key "userId" id) up (now w1) l).
    split; [rewrite <- Hcfg; by apply Hf2|].
    apply find_patched; [done|].
    rewrite matches_by_key_patch by done. by destruct (find_some _ _ Hf).
Qed.

Lemma getProduct_run id w :
  ProductManager.getProduct id w
    = DatabaseManager.findOne db_product "products" (by_key "productId" id) w.
Proof.
  unfold ProductManager.getProduct.
  destruct (findOne_never_throws db_product "products" (by_key "productId" id) w)
    as (a & w' & H).
  rewrite H. by apply try_catch_ok.
Qed.

Lemma updateProduct_run scrub id updates w :
  truthy (prop updates "name") = false →
  truthy (prop updates "description") = false →
  ProductManager.updateProduct scrub id updates w
    = DatabaseManager.update db_product "products" (by_key "productId" id)
        (<["updatedAt" := VTime (now w)]> updates) w.
Proof.
  intros H1 H2. unfold ProductManager.updateProduct. rewrite H1, H2.
  destruct (update_never_throws db_product "products" (by_key "productId" id)
              (<["updatedAt" := VTime (now w)]> updates) w) as (a & w' & H).
  rewrite H. apply try_catch_ok. run_monad. exact H.
Qed.

Lemma js_or_num0 s : js_or (VNum s) (VNum 0) = VNum s.
Proof.
  unfold js_or; simpl. destruct (Z.eqb_spec s 0) as [->|]; done.
Qed.

Lemma incrementSalesCount_run scrub id w p w1 :
  ProductManager.getProduct id w = (Ok (Some p), w1) →
  ProductManager.incrementSalesCount scrub id w =
    (Ok true,
     (DatabaseManager.update db_product "products" (by_key "productId" id)
        (sale_update (js_add (js_or (prop p "totalSales") (VNum 0)) (VNum 1))
           (Math_max0 (js_sub (js_or (prop p "stock") (VNum 0)) (VNum 1))) (now w1)) w1).2).
Proof.
  intros Hg. unfold ProductManager.incrementSalesCount. run_monad. rewrite Hg.
  rewrite updateProduct_run by done.
  destruct (update_never_throws db_product "products" (by_key "productId" id)
              (sale_update (js_add (js_or (prop p "totalSales") (VNum 0)) (VNum 1))
                 (Math_max0 (js_sub (js_or (prop p "stock") (VNum 0)) (VNum 1))) (now w1)) w1)
    as (b & w2 & Hu).
  rewrite Hu. unfold sale_update in Hu. by rewrite Hu.
Qed.

Lemma updateStock_subtract_run scrub id q w p w1 :
  ProductManager.getProduct id w = (Ok (Some p), w1) →
  ProductManager.updateStock scrub id q "subtract" w =
    (Ok (Success (Math_max0 (js_sub (js_or (prop p "stock") (VNum 0)) q))),
     (DatabaseManager.update db_product "products" (by_key "productId" id)
        (stock_update (Math_max0 (js_sub (js_or (prop p "stock") (VNum 0)) q)) (now w1)) w1).2).
Proof.
  intros Hg. unfold ProductManager.updateStock. run_monad. rewrite Hg. simpl.
  rewrite updateProduct_run by done.
  destruct (update_never_throws db_product "products" (by_key "productId" id)
              (stock_update (Math_max0 (js_sub (js_or (prop p "stock") (VNum 0)) q)) (now w1)) w1)
    as (b & w2 & Hu).
  rewrite Hu. unfold stock_update in Hu. by rewrite Hu.
Qed.

(** C10. For an existing product with stock [s], [incrementSalesCount]
    and [updateStock(productId, q, 'subtract')] set the stock to
    [max 0 (s - 1)] and [max 0 (s - q)] (or leave the product as it was
    when the write did not go through), so a stock that was not negative
    is not negative afterwards. *)
Theorem sale_keeps_stock_non_negative scrub id w p w1 (s : Z) :
  ProductManager.getProduct id w = (Ok (Some p), w1) →
  prop p "stock" = VNum s →
  (∃ w2 p' s',
     ProductManager.incrementSalesCount scrub id w = (Ok true, w2)
     ∧ ProductManager.getProduct id w2 = (Ok (Some p'), w2)
     ∧ prop p' "stock" = VNum s'
     ∧ (s' = Z.max 0 (s - 1) ∨ s' = s)
     ∧ (nominal w = true → s' = Z.max 0 (s - 1))
     ∧ (0 ≤ s → 0 ≤ s'))
  ∧ (∀ q : Z, ∃ w2 p' s',
     ProductManager.updateStock scrub id (VNum q) "subtract" w
       = (Ok (Success (VNum (Z.max 0 (s - q)))), w2)
     ∧ ProductManager.getProduct id w2 = (Ok (Some p'), w2)
     ∧ prop p' "stock" = VNum s'
     ∧ (s' = Z.max 0 (s - q) ∨ s' = s)
     ∧ (nominal w = true → s' = Z.max 0 (s - q))
     ∧ (0 ≤ s → 0 ≤ s')).
Proof.
  intros Hg Hs.
  pose proof Hg as Hg'. rewrite getProduct_run in Hg'.
  destruct (findOne_found _ _ _ _ _ _ Hg') as (l & Hw & Hf & Hcfg & Ht & Hfl & Hn).
  split; [|intros q].
  - rewrite (incrementSalesCount_run scrub _ _ _ _ Hg), Hs, js_or_num0.
    change (Math_max0 (js_sub (VNum s) (VNum 1))) with (VNum (Z.max 0 (s - 1))).
    set (u := sale_update _ _ _).
    destruct (update_found_post db_product "products" "productId" id u l p w1 Hw Hf)
      as (w2 & p' & Hu & Hfo & Hp & Hnom & _); [done..|].
    rewrite Hu; simpl. rewrite <- getProduct_run in Hfo.
    destruct Hp as [->| ->].
    + exists w2, (DatabaseManager.patch (now w1) u p), (Z.max 0 (s - 1)).
      split; [done|]. split; [done|].
      split; [by apply prop_patch_set|]. split; [by left|]. split; [done|]. lia.
    + exists w2, p, s. split; [done|]. split; [done|]. split; [done|].
      split; [by right|]. split; [|done].
      intros Hno. destruct (Hnom (Hn Hno) eq_refl) as [Hp _].
      rewrite Hp in Hs. rewrite prop_patch_set with (v := VNum (Z.max 0 (s - 1))) in Hs by done.
      congruence.
  - rewrite (updateStock_subtract_run scrub _ (VNum q) _ _ _ Hg), Hs, js_or_num0.
    change (Math_max0 (js_sub (VNum s) (VNum q))) with (VNum (Z.max 0 (s - q))).
    set (u := stock_update _ _).
    destruct (update_found_post db_product "products" "productId" id u l p w1 Hw Hf)
      as (w2 & p' & Hu & Hfo & Hp & Hnom & _); [done..|].
    rewrite Hu; simpl. rewrite <- getProduct_run in Hfo.
    destruct Hp as [->| ->].
    + exists w2, (DatabaseManager.patch (now w1) u p), (Z.max 0 (s - q)).
      split; [done|]. split; [done|].
      split; [by apply prop_patch_set|]. split; [by left|]. split; [done|]. lia.
    + exists w2, p, s. split; [done|]. split; [done|]. split; [done|].
      split; [by right|]. split; [|done].
      intros Hno. destruct (Hnom (Hn Hno) eq_refl) as [Hp _].
      rewrite Hp in Hs. rewrite prop_patch_set with (v := VNum (Z.max 0 (s - q))) in Hs by done.
      congruence.
Qed.

(** ** The order life cycle *)

Lemma findOne_found_read h dbName (query : item) w o w1 :
  DatabaseManager.findOne h dbName query w = (Ok (Some o), w1) →
  ∃ l, DatabaseManager.readData h dbName w = (Ok (DArr l), w1)
    ∧ warm h dbName l w1 ∧ List.find (matches query) l = Some o.
Proof.
  unfold DatabaseManager.findOne. run_monad.
  destruct (DatabaseManager.readData h dbName w) as [[[l|?|?|?]|e] w'] eqn:Hr;
    intros H; simplify_eq.
  exists l. assert (l ≠ []) as Hl by (by intros ->).
  by destruct (readData_found_warm _ _ _ _ _ Hr Hl) as (?&_).
Qed.








(** A loop whose body moves a ghost state [σ] by [step] moves it by the
    fold of [step]. *)
Lemma for_of_fold {A B S} (R : World → S → Prop) (step : S → A → S)
    (xs : list A) (body : A → B → M B) :
  (∀ x acc w σ, x ∈ xs → R w σ →
     ∃ acc' w', body x acc w = (Ok acc', w') ∧ R w' (step σ x)) →
  ∀ acc w σ, R w σ →
    ∃ acc' w', for_of xs body acc w = (Ok acc', w') ∧ R w' (fold_left step xs σ).
Proof.
  induction xs as [|x xs IH]; intros Hbody acc w σ HR; simpl.
  - by exists acc, w.
  - destruct (Hbody x acc w σ) as (acc' & w' & Hb & HR'); [by left|done|].
    run_monad. rewrite Hb. apply IH; [|done].
    intros y ? ? ? Hy. apply Hbody. by right.
Qed.



Lemma cancelOrder_never_throws id reason :
  never_throws (OrderManager.cancelOrder id reason).
Proof. apply try_catch_total. intros e. apply ret_never_throws. Qed.






(** ** The deposit life cycle *)

Lemma getDeposit_run id w :
  PaymentManager.getDeposit id w
    = DatabaseManager.findOne db_payment "deposits" (by_key "depositId" id) w.
Proof.
  unfold PaymentManager.getDeposit.
  destruct (findOne_never_throws db_payment "deposits" (by_key "depositId" id) w)
    as (a & w' & H).
  rewrite H. by apply try_catch_ok.
Qed.

Lemma updateDeposit_run id updates w :
  PaymentManager.updateDeposit id updates w
    = DatabaseManager.update db_payment "deposits" (by_key "depositId" id)
        (<["updatedAt" := VTime (now w)]> updates) w.
Proof.
  unfold PaymentManager.updateDeposit.
  destruct (update_never_throws db_payment "deposits" (by_key "depositId" id)
              (<["updatedAt" := VTime (now w)]> updates) w) as (a & w' & H).
  rewrite H. apply try_catch_ok. run_monad. exact H.
Qed.

(** The gateway call answers and leaves the world as it is. *)
Lemma cancelQRISPayment_run externalId w :
  ∃ r, PaymentManager.cancelQRISPayment externalId w = (Ok r, w).
Proof.
  unfold PaymentManager.cancelQRISPayment. run_monad.
  destruct (gateway_up w); eauto.
Qed.




Lemma updateDeposit_never_throws id updates :
  never_throws (PaymentManager.updateDeposit id updates).
Proof. apply try_catch_total. intros e. apply ret_never_throws. Qed.








(** ** The sweep of expired deposits in the nominal environment *)

Lemma sweep_body_nominal t x σ w (acc : Z) :
  warm db_payment "deposits" σ w → nominal w = true → now w = t →
  ∃ acc' w',
    (if strict_eq (prop x "status") (VStr "pending") && truthy (prop x "expiresAt")
     then
       if OrderManager.past t (prop x "expiresAt")
       then
         _ ← (if truthy (prop x "externalId")
              then _ ← PaymentManager.cancelQRISPayment (prop x "externalId"); ret tt
              else ret tt);
         t' ← get now;
         _ ← PaymentManager.updateDeposit (prop x "depositId")
               (<["status" := VStr "expired"]> (<["expiredAt" := VTime t']> ∅));
         ret (acc + 1)
       else ret acc
     else ret acc) w = (Ok acc', w')
    ∧ warm db_payment "deposits" (expire_step t σ x) w'
    ∧ nominal w' = true ∧ now w' = t ∧ config w' = config w
    ∧ (files w' !! "deposits" = Some (stored (config w) (DArr (expire_step t σ x)))
       ∨ (w' = w ∧ expire_step t σ x = σ)).
Proof.
  intros Hw Hn Ht. unfold expire_step, overdue.
  destruct (strict_eq (prop x "status") (VStr "pending") && truthy (prop x "expiresAt"));
    [|exists acc, w; simpl; by repeat split; auto].
  destruct (OrderManager.past t (prop x "expiresAt"));
    [|exists acc, w; simpl; by repeat split; auto].
  simpl.
  destruct (update_warm_nominal db_payment "deposits"
              (by_key "depositId" (prop x "depositId")) (expiry (now w)) σ w Hw Hn eq_refl)
    as (w' & Hu & Hw' & Hn' & Hc' & Ht' & _ & Hf' & Hsame).
  unfold expiry in Hu. rewrite Ht in *.
  assert (files w' !! "deposits"
            = Some (stored (config w)
                      (DArr (patched (by_key "depositId" (prop x "depositId")) (expiry t) t σ)))
          ∨ (w' = w ∧ patched (by_key "depositId" (prop x "depositId")) (expiry t) t σ = σ))
    as Hfile.
  { destruct (existsb (matches (by_key "depositId" (prop x "depositId"))) σ) eqn:He.
    - left. by apply Hf'.
    - right. split; [by apply Hsame|]. by apply patched_no_match. }
  run_monad.
  destruct (truthy (prop x "externalId"));
    [destruct (cancelQRISPayment_run (prop x "externalId") w) as [r Hr]; rewrite Hr|];
    rewrite updateDeposit_run, Ht, Hu; exists (acc + 1), w'; by repeat split.
Qed.

Lemma sweep_nominal l w :
  warm db_payment "deposits" l w → nominal w = true →
  ∃ n w', PaymentManager.cleanupExpiredDeposits w = (Ok n, w')
    ∧ warm db_payment "deposits" (fold_left (expire_step (now w)) l l) w'
    ∧ nominal w' = true ∧ now w' = now w ∧ config w' = config w
    ∧ (files w' !! "deposits"
         = Some (stored (config w) (DArr (fold_left (expire_step (now w)) l l)))
       ∨ (fold_left (expire_step (now w)) l l = l ∧ files w' = files w)).
Proof.
  intros Hw Hn. unfold PaymentManager.cleanupExpiredDeposits. run_monad.
  rewrite (readData_hit _ _ _ _ Hw).
  set (R := λ (w' : World) (σ : list item),
         warm db_payment "deposits" σ w' ∧ nominal w' = true ∧ now w' = now w
         ∧ config w' = config w
         ∧ (files w' !! "deposits" = Some (stored (config w) (DArr σ))
            ∨ (σ = l ∧ files w' = files w))).
  match goal with |- context [for_of l ?body 0 w] =>
    destruct (for_of_fold R (expire_step (now w)) l body) with (acc := 0) (w := w) (σ := l)
      as (n & w' & Hloop & Hw' & Hn' & Ht' & Hc' & Hf')
  end.
  - intros x acc w0 σ _ (Hw0 & Hn0 & Ht0 & Hc0 & Hf0).
    destruct (sweep_body_nominal (now w) x σ w0 acc Hw0 Hn0 Ht0)
      as (acc' & w' & Hb & Hw' & Hn' & Ht' & Hc' & Hf').
    exists acc', w'. split; [exact Hb|]. split; [done|]. split; [done|].
    split; [done|]. split; [congruence|].
    destruct Hf' as [Hf'|[-> ->]]; [left; by rewrite <- Hc0|done].
  - repeat split; auto.
  - rewrite Hloop. exists n, w'. by repeat split.
Qed.

Lemma In_patched (query : item) updates t σ y' :
  In y' (patched query updates t σ) →
  ∃ y, In y σ ∧ y' = if matches query y then DatabaseManager.patch t updates y else y.
Proof.
  unfold patched. intros (y & <- & Hy)%in_map_iff. by exists y.
Qed.

Lemma overdue_pending t x : overdue t x = true → prop x "status" = VStr "pending".
Proof.
  unfold overdue. intros [[H _]%andb_true_iff _]%andb_true_iff. by apply strict_eq_str.
Qed.

Lemma expire_step_find t id σ x o :
  List.find (matches (by_key "depositId" id)) σ = Some o →
  List.find (matches (by_key "depositId" id)) (expire_step t σ x)
    = Some (if overdue t x && matches (by_key "depositId" (prop x "depositId")) o
            then DatabaseManager.patch t (expiry t) o else o).
Proof.
  intros Hf. unfold expire_step. destruct (overdue t x); [|done]. simpl.
  apply find_patched_cases; [done|]. intros y. by apply matches_by_key_patch.
Qed.

Lemma fold_expire_find t id xs σ o :
  List.find (matches (by_key "depositId" id)) σ = Some o →
  ∃ o', List.find (matches (by_key "depositId" id)) (fold_left (expire_step t) xs σ)
        = Some o'.
Proof.
  revert σ o. induction xs as [|x xs IH]; intros σ o Hf; simpl; [eauto|].
  eapply IH. by apply expire_step_find.
Qed.

Lemma expire_step_all_expired t id σ x :
  all_expired id σ → all_expired id (expire_step t σ x).
Proof.
  intros HP. unfold expire_step. destruct (overdue t x); [|done].
  intros y' (y & Hy & ->)%In_patched Hm.
  destruct (matches (by_key "depositId" (prop x "depositId")) y).
  - by apply prop_patch_set.
  - by apply HP.
Qed.

Lemma fold_all_expired t id xs σ :
  all_expired id σ → all_expired id (fold_left (expire_step t) xs σ).
Proof.
  revert σ. induction xs as [|x xs IH]; intros σ HP; simpl; [done|].
  apply IH. by apply expire_step_all_expired.
Qed.

Lemma expire_step_trigger t id σ x :
  overdue t x = true → matches (by_key "depositId" id) x = true →
  all_expired id (expire_step t σ x).
Proof.
  intros Ho Hx. unfold expire_step. rewrite Ho.
  rewrite matches_by_key in Hx. rewrite (strict_eq_eq _ _ Hx).
  intros y' (y & Hy & ->)%In_patched Hm.
  destruct (matches (by_key "depositId" id) y) eqn:Hy'.
  - by apply prop_patch_set.
  - congruence.
Qed.

(** One sweep expires the deposit the lookup by [id] finds, if it is
    overdue. *)
Lemma sweep_expires t id l d :
  List.find (matches (by_key "depositId" id)) l = Some d →
  overdue t d = true →
  all_expired id (fold_left (expire_step t) l l)
  ∧ ∃ d1, List.find (matches (by_key "depositId" id)) (fold_left (expire_step t) l l)
          = Some d1
     ∧ prop d1 "status" = VStr "expired".
Proof.
  intros Hf Ho.
  destruct (find_some _ _ Hf) as [Hin Hm].
  assert (all_expired id (fold_left (expire_step t) l l)) as HP.
  { generalize l at 2 as σ. intros σ.
    destruct (in_split _ _ Hin) as (l1 & l2 & ->).
    rewrite fold_left_app. simpl.
    apply fold_all_expired. by apply expire_step_trigger. }
  split; [done|].
  destruct (fold_expire_find t id l l d Hf) as [d1 Hd1].
  exists d1. split; [done|].
  destruct (find_some _ _ Hd1) as [Hin1 Hm1]. by apply HP.
Qed.

(** A sweep over an array in which every deposit with [id] is expired
    leaves the deposit the lookup by [id] finds as it is. *)
Lemma sweep_keeps t id xs σ o :
  (∀ x, In x xs → overdue t x = true → matches (by_key "depositId" id) x = false) →
  List.find (matches (by_key "depositId" id)) σ = Some o →
  List.find (matches (by_key "depositId" id)) (fold_left (expire_step t) xs σ) = Some o.
Proof.
  revert σ. induction xs as [|x xs IH]; intros σ Hxs Hf; simpl; [done|].
  apply IH; [intros y Hy; apply Hxs; by right|].
  rewrite (expire_step_find t id σ x o Hf).
  destruct (overdue t x) eqn:Ho; [|done]. simpl.
  destruct (matches (by_key "depositId" (prop x "depositId")) o) eqn:Hm; [|done].
  exfalso. pose proof (Hxs x (or_introl eq_refl) Ho) as Hx.
  destruct (find_some _ _ Hf) as [_ Hmo].
  rewrite matches_by_key in Hm, Hmo, Hx.
  apply strict_eq_eq in Hm. rewrite Hm in Hmo. congruence.
Qed.

Lemma all_expired_not_overdue t id σ x :
  all_expired id σ → In x σ → overdue t x = true →
  matches (by_key "depositId" id) x = false.
Proof.
  intros HP Hin Ho. destruct (matches (by_key "depositId" id) x) eqn:Hm; [|done].
  pose proof (HP x Hin Hm) as Hs. rewrite (overdue_pending _ _ Ho) in Hs. discriminate Hs.
Qed.

Lemma settled_sweep_again id d1 cfg w t :
  settled id d1 cfg w → settled id d1 cfg (sweep_again w t).
Proof.
  intros (Hn & Hc & s & Hw & Hf & HP & Hfile). unfold sweep_again.
  destruct (sweep_nominal s (set_now t w)) as (n & w' & Hrun & Hw' & Hn' & _ & Hc' & Hf');
    [done..|].
  rewrite Hrun. simpl in *.
  assert (List.find (matches (by_key "depositId" id)) (fold_left (expire_step t) s s)
          = Some d1) as Hkeep.
  { apply sweep_keeps; [|done]. intros x Hx Ho. by eapply all_expired_not_overdue. }
  split; [done|]. split; [congruence|].
  exists (fold_left (expire_step t) s s). split; [done|]. split; [done|].
  split; [by apply fold_all_expired|].
  destruct Hf' as [Hf'|[Heq Hf']]; [by rewrite <- Hc|].
  by rewrite Heq, Hf'.
Qed.

Lemma settled_sweeps id d1 cfg ts w :
  settled id d1 cfg w → settled id d1 cfg (fold_left sweep_again ts w).
Proof.
  revert w. induction ts as [|t ts IH]; intros w Hs; simpl; [done|].
  apply IH. by apply settled_sweep_again.
Qed.

(** C2. In the nominal environment, a deposit that a lookup by its
    [depositId] finds, whose status is 'pending' and whose expiresAt lies
    strictly before the clock, is 'expired' after one run of
    [cleanupExpiredDeposits]; and after any number of further runs, at any
    clock times, the lookup finds that very record, in cache and file. *)
Theorem expired_deposit_marked_once id w d w0 (e : Z) :
  nominal w = true →
  PaymentManager.getDeposit id w = (Ok (Some d), w0) →
  prop d "status" = VStr "pending" →
  prop d "expiresAt" = VTime e →
  e < now w →
  ∃ n w1 d1,
    PaymentManager.cleanupExpiredDeposits w = (Ok n, w1)
    ∧ prop d1 "status" = VStr "expired"
    ∧ ∀ ts : list Z,
        let wn := fold_left sweep_again ts w1 in
        PaymentManager.getDeposit id wn = (Ok (Some d1), wn)
        ∧ ∃ s, files wn !! "deposits" = Some (stored (config w) (DArr s))
            ∧ List.find (matches (by_key "depositId" id)) s = Some d1.
Proof.
  intros Hn Hg Hs He Hlt. rewrite getDeposit_run in Hg.
  destruct (findOne_found_read _ _ _ _ _ _ Hg) as (l & Hr & Hw & Hf).
  destruct (findOne_found _ _ _ _ _ _ Hg) as (_ & _ & _ & Hc0 & Ht0 & _ & Hn0).
  assert (PaymentManager.cleanupExpiredDeposits w
          = PaymentManager.cleanupExpiredDeposits w0) as ->.
  { unfold PaymentManager.cleanupExpiredDeposits. run_monad.
    by rewrite Hr, (readData_hit _ _ _ _ Hw), Ht0. }
  destruct (sweep_nominal l w0 Hw (Hn0 Hn)) as (n & w1 & Hrun & Hw1 & Hn1 & _ & Hc1 & Hf1).
  assert (overdue (now w0) d = true) as Ho.
  { unfold overdue, OrderManager.past. rewrite Hs, He, Ht0. simpl.
    by apply Z.ltb_lt. }
  destruct (sweep_expires (now w0) id l d Hf Ho) as (HP & d1 & Hd1 & Hs1).
  exists n, w1, d1. split; [done|]. split; [done|].
  assert (settled id d1 (config w) w1) as Hset.
  { split; [done|]. split; [congruence|].
    exists (fold_left (expire_step (now w0)) l l). split; [done|]. split; [done|].
    split; [done|].
    destruct Hf1 as [Hf1|[Heq _]]; [by rewrite <- Hc0|].
    exfalso. rewrite Heq in Hd1. rewrite Hf in Hd1. simplify_eq.
    rewrite Hs in Hs1. discriminate Hs1. }
  intros ts wn.
  destruct (settled_sweeps id d1 (config w) ts w1 Hset) as (_ & _ & s & Hws & Hfs & _ & Hfile).
  fold wn in Hws, Hfile.
  split; [by rewrite getDeposit_run, (findOne_warm _ _ _ _ _ Hws), Hfs|].
  by exists s.
Qed.

(** ** The theorems at concrete stores *)

Lemma approveOrder_pending_to_processing_witness :
  nominal pending_order_world = true
  ∧ ∃ w2 o',
      OrderManager.approveOrder (VStr "ORD-A") (VNum 1) pending_order_world
        = (Ok (Success (order_A "pending")), w2)
      ∧ OrderManager.getOrder (VStr "ORD-A") w2 = (Ok (Some o'), w2)
      ∧ prop o' "status" = VStr "processing"
      ∧ prop o' "paymentStatus" = VStr "paid".
Proof.
  split; [reflexivity|].
  assert (OrderManager.getOrder (VStr "ORD-A") pending_order_world
          = (Ok (Some (order_A "pending")),
             (OrderManager.getOrder (VStr "ORD-A") pending_order_world).2)) as Hg
    by (vm_compute; reflexivity).
  destruct (approveOrder_pending_to_processing (VStr "ORD-A") (VNum 1)
              pending_order_world _ _ Hg) as [Hp _].
  destruct Hp as (w2 & o' & Ha & Hg' & _ & Hnom); [reflexivity|].
  destruct (Hnom eq_refl) as (Hs & Hpaid & _).
  exists w2, o'. exact (conj Ha (conj Hg' (conj Hs Hpaid))).
Defined.

Lemma expired_deposit_marked_once_witness :
  ∃ n w1 d1,
    PaymentManager.cleanupExpiredDeposits pending_deposit_world = (Ok n, w1)
    ∧ prop d1 "status" = VStr "expired"
    ∧ PaymentManager.getDeposit (VStr "dep-1") (sweep_again (sweep_again w1 2000) 3000)
      = (Ok (Some d1), sweep_again (sweep_again w1 2000) 3000).
Proof.
  assert (PaymentManager.getDeposit (VStr "dep-1") pending_deposit_world
          = (Ok (Some (deposit_D "pending" 500)),
             (PaymentManager.getDeposit (VStr "dep-1") pending_deposit_world).2)) as Hg
    by (vm_compute; reflexivity).
  destruct (expired_deposit_marked_once (VStr "dep-1") pending_deposit_world _ _ 500
              eq_refl Hg eq_refl eq_refl eq_refl) as (n & w1 & d1 & Hrun & Hs & Hall).
  exists n, w1, d1. split; [exact Hrun|]. split; [exact Hs|].
  exact (proj1 (Hall [2000; 3000])).
Defined.

Lemma updateBalance_subtract_witness :
  ∃ w2, UserManager.updateBalance (VNum 7) (VNum 3000) "subtract" user_world
          = (Ok (Success (VNum 7000)), w2).
Proof.
  assert (UserManager.getUser (VNum 7) user_world
          = (Ok (Some (user_U 10000)), (UserManager.getUser (VNum 7) user_world).2)) as Hg
    by (vm_compute; reflexivity).
  destruct (updateBalance_subtract (VNum 7) user_world _ _ 10000 3000 Hg eq_refl)
    as (_ & _ & Hok).
  destruct Hok as (w2 & u' & Hrun & _); [lia|].
  exists w2. exact Hrun.
Defined.

Lemma sale_keeps_stock_non_negative_witness :
  ∃ w2 p',
    ProductManager.incrementSalesCount (λ s, s) (VStr "prod-1") product_world = (Ok true, w2)
    ∧ ProductManager.getProduct (VStr "prod-1") w2 = (Ok (Some p'), w2)
    ∧ prop p' "stock" = VNum 0.
Proof.
  assert (ProductManager.getProduct (VStr "prod-1") product_world
          = (Ok (Some (product_P 5000 0)),
             (ProductManager.getProduct (VStr "prod-1") product_world).2)) as Hg
    by (vm_compute; reflexivity).
  destruct (sale_keeps_stock_non_negative (λ s, s) (VStr "prod-1") product_world _ _ 0
              Hg eq_refl) as [Hsale _].
  destruct Hsale as (w2 & p' & s' & Hrun & Hg' & Hs' & _ & Hnom & _).
  exists w2, p'. split; [exact Hrun|]. split; [exact Hg'|].
  rewrite Hs'. f_equal. exact (Hnom eq_refl).
Defined.

(** ** The purchase with balance *)

Lemma handlePaymentBalance_two_halves scrub userId productId w :
  Handlers.handlePaymentBalance scrub userId productId w
  = try_catch (ctx ← purchase_begin userId productId;
               purchase_finish scrub userId productId ctx)
      (λ _, Handlers.bot_send) w.
Proof.
  unfold Handlers.handlePaymentBalance, purchase_begin, purchase_finish.
  run_monad.
  destruct (ProductManager.getProduct productId w) as [[[p|]|e] w1]; try done;
    destruct (UserManager.getUser userId w1) as [[[u|]|e'] w2]; try done.
  destruct (js_lt (prop u "balance") (prop p "price")); [done|].
  destruct (OrderManager.createOrder _ w2) as [[[o|m]|e''] w3]; done.
Qed.

(** C5. In the purchase with balance, the creation of the order and the
    deduction of the balance are two steps with nothing to undo the first:
    there is a run (the write of the users file fails) after which the
    order is in the file, marked paid, while the balance is the old one in
    file and cache; and there is a run (the writes of the orders file
    fail) after which the balance is deducted and no order is in the
    file. *)
Theorem purchase_with_balance_is_not_atomic (scrub : string → string) :
  (∃ w,
     orders_on_disk w = [] ∧ balances_on_disk w = [VNum 10000]
     ∧ let w' := (Handlers.handlePaymentBalance scrub (VNum 7) (VStr "prod-1") w).2 in
       orders_on_disk w' = [(VNum 7, VNum 5000, VStr "paid")]
       ∧ balances_on_disk w' = [VNum 10000]
       ∧ balance_seen (VNum 7) w' = VNum 10000)
  ∧ (∃ w,
     orders_on_disk w = [] ∧ balances_on_disk w = [VNum 10000]
     ∧ let w' := (Handlers.handlePaymentBalance scrub (VNum 7) (VStr "prod-1") w).2 in
       orders_on_disk w' = []
       ∧ balances_on_disk w' = [VNum 5000]
       ∧ balance_seen (VNum 7) w' = VNum 5000).
Proof.
  split.
  - exists (shop_world 10000 [false; false; false; false; true]).
    vm_compute. done.
  - exists (shop_world 10000 [false; false; false; true; false; true]).
    vm_compute. done.
Qed.

(** Without any failure: two purchases of one user whose halves alternate
    leave two paid orders and one deduction. *)
Example two_purchases_one_deduction (scrub : string → string) :
  let w := shop_world 5000 [] in
  let w' := (two_purchases scrub (VNum 7) (VStr "prod-1") w).2 in
  balances_on_disk w = [VNum 5000]
  ∧ orders_on_disk w' = [(VNum 7, VNum 5000, VStr "paid"); (VNum 7, VNum 5000, VStr "paid")]
  ∧ balances_on_disk w' = [VNum 0].
Proof. vm_compute. done. Qed.

(** ** JSON texts *)

Lemma value_size_lookup (o : item) k v :
  o !! k = Some v → (value_size v < value_size (VObj o))%nat.
Proof.
  intros H. simpl. rewrite <- (insert_delete_id o k v H).
  rewrite map_fold_insert_L; [lia| |apply lookup_delete_eq].
  intros. lia.
Qed.

Lemma value_size_elem (l : list value) v :
  v ∈ l → (value_size v < value_size (VArr l))%nat.
Proof. simpl. induction 1; simpl; lia. Qed.

Lemma value_ind' (P : value → Prop) :
  P VUndef → P VNull → (∀ b, P (VBool b)) → (∀ n, P (VNum n)) → P VNaN →
  (∀ s, P (VStr s)) → (∀ t, P (VTime t)) →
  (∀ o, map_Forall (λ _, P) o → P (VObj o)) →
  (∀ l, Forall P l → P (VArr l)) →
  ∀ v, P v.
Proof.
  intros H1 H2 H3 H4 H5 H6 H7 Ho Hl v.
  induction (well_founded_ltof _ value_size v) as [v _ IH]. unfold ltof in IH.
  destruct v; auto.
  - apply Ho. intros k v Hk. apply IH. by eapply value_size_lookup.
  - apply Hl. apply Forall_forall. intros v Hv. apply IH. by apply value_size_elem.
Qed.

(** What has been text once is left as it is by another round. *)
Lemma json_value_idem v v' : json_value v = Some v' → json_value v' = Some v'.
Proof.
  revert v'. induction v as [| | | | | | |o IH|l IH] using value_ind'; intros v' H;
    simpl in H; simplify_eq; try done.
  - simpl. f_equal. f_equal. apply map_eq. intros k.
    rewrite !lookup_omap. destruct (o !! k) as [x|] eqn:Hx; simpl; [|done].
    destruct (json_value x) as [x'|] eqn:Hx'; simpl; [|done].
    by eapply IH.
  - simpl. f_equal. f_equal. rewrite map_map. apply map_ext_Forall.
    eapply Forall_impl; [exact IH|]. intros x Hx. simpl.
    destruct (json_value x) as [x'|] eqn:Hx'; simpl; [by rewrite (Hx _ Hx')|done].
Qed.

Lemma json_item_idem o : json_item (json_item o) = json_item o.
Proof.
  unfold json_item. apply map_eq. intros k. rewrite !lookup_omap.
  destruct (o !! k) as [x|]; simpl; [|done].
  destruct (json_value x) as [x'|] eqn:Hx'; simpl; [|done].
  by eapply json_value_idem.
Qed.

Lemma json_idem d : json (json d) = json d.
Proof.
  destruct d as [l|o|s|n]; simpl; try done.
  - f_equal. rewrite <- list_fmap_compose. apply list_fmap_ext.
    intros i x _. apply json_item_idem.
  - f_equal. apply json_item_idem.
Qed.

Lemma serializable_json d : serializable (json d) = serializable d.
Proof. by destruct d. Qed.

(** The amount NaN comes back as [null], and a property that is
    [undefined] does not come back. *)
Example json_of_a_record :
  json_item (<["amount" := VNaN]> (<["note" := VUndef]> (<["userId" := VNum 7]> ∅)))
  = <["amount" := VNull]> (<["userId" := VNum 7]> ∅).
Proof. vm_compute. reflexivity. Qed.

(** ** The encrypted store *)

Lemma decrypt_sealed d w :
  SecurityManager.key_ok (config w) = true →
  SecurityManager.decrypt (sealed (config w) d) w = (Ok (JSON_stringify d), w).
Proof.
  intros Hk. unfold SecurityManager.decrypt, sealed. run_monad.
  by rewrite Hk, !String.eqb_refl.
Qed.

Lemma encrypt_sealed d w :
  SecurityManager.key_ok (config w) = true →
  SecurityManager.encrypt (JSON_stringify d) w = (Ok (sealed (config w) d), w).
Proof.
  intros Hk. unfold SecurityManager.encrypt, sealed. run_monad. by rewrite Hk.
Qed.

(** A read that has to go to an encrypted file. *)
Lemma readData_cold_sealed h dbName d w :
  ENCRYPTION (config w) = true →
  SecurityManager.key_ok (config w) = true →
  DatabaseManager.known dbName = true →
  serializable d = true →
  files w !! dbName = Some (DStr (sealed (config w) d)) →
  caches w !! (h, dbName) = None →
  hd false (io_faults w) = false →
  DatabaseManager.readData h dbName w
    = (Ok (json d), set_caches (<[(h, dbName) := json d]> (caches w)) (after_fs_call w)).
Proof.
  intros He Hk Hkn Hs Hf Hc Hio.
  rewrite <- (json_idem d) at 1 2. rewrite <- serializable_json in Hs.
  unfold sealed, JSON_stringify in Hf. revert Hs Hf. generalize (json d). intros jd Hs Hf.
  unfold DatabaseManager.readData, DatabaseManager.cache_get, fs_pathExists,
    fs_readJson, fs_fault, SecurityManager.decrypt, JSON_parse,
    DatabaseManager.cache_set, after_fs_call in *.
  run_monad. rewrite Hc, Hkn. simpl.
  rewrite bool_decide_eq_true_2 by (by rewrite Hf). simpl.
  destruct w as [cfg fl ca io t en gw]; simpl in *.
  destruct io as [|[] io]; simpl in *; try done;
    rewrite Hf; simpl; rewrite He; simpl; rewrite Hk; simpl;
    rewrite !String.eqb_refl; simpl; by destruct jd.
Qed.

Lemma written_is_serializable h dbName d w w1 :
  DatabaseManager.writeData h dbName d w = (Ok true, w1) → serializable d = true.
Proof.
  intros Hwr. destruct (serializable d) eqn:Hs; [done|].
  by rewrite (writeData_function _ _ _ _ Hs) in Hwr.
Qed.

(** C6, as the code has it. With encryption enabled, a [writeData] that
    answers [true] has put in the file the one ciphertext of the JSON
    text of the whole collection under the configured key and IV, and
    [decrypt] gives that text back. A [readData] of the same
    DatabaseManager returns the data itself, from its cache; a
    [readData] that has to read and decrypt the file (another
    DatabaseManager, or a cleared cache, under the same configuration)
    returns what the text denotes, [JSON.parse(JSON.stringify(data))],
    which is the data exactly when the data is left as it is by JSON. *)
Theorem encrypted_read_after_write h dbName d w w1 :
  ENCRYPTION (config w) = true →
  DatabaseManager.writeData h dbName d w = (Ok true, w1) →
  SecurityManager.encrypt (JSON_stringify d) w = (Ok (sealed (config w) d), w)
  ∧ SecurityManager.decrypt (sealed (config w) d) w = (Ok (JSON_stringify d), w)
  ∧ files w1 !! dbName = Some (DStr (sealed (config w) d))
  ∧ DatabaseManager.readData h dbName w1 = (Ok d, w1)
  ∧ ∀ h' w',
      reads_the_file_of h' dbName w1 w' →
      (∃ w2, DatabaseManager.readData h' dbName w' = (Ok (json d), w2))
      ∧ ((DatabaseManager.readData h' dbName w').1 = Ok d ↔ json d = d).
Proof.
  intros He Hwr. pose proof (written_is_serializable _ _ _ _ _ Hwr) as Hs.
  rewrite writeData_run in Hwr by done.
  destruct (write_goes_through dbName w) eqn:Hg; [|discriminate Hwr].
  injection Hwr as <-.
  unfold write_goes_through, cipher_ready in Hg. rewrite He in Hg. simpl in Hg.
  apply andb_true_iff in Hg as [[Hkn Hk]%andb_true_iff _].
  destruct (commit_fields h dbName d w) as (Hc & Hf & Hca & _).
  assert (files (commit h dbName d w) !! dbName = Some (DStr (sealed (config w) d))) as Hfile.
  { rewrite Hf, lookup_insert_eq. unfold stored, sealed. by rewrite He. }
  split; [by apply encrypt_sealed|]. split; [by apply decrypt_sealed|].
  split; [done|].
  split; [apply readData_hit; rewrite Hca; apply lookup_insert_eq|].
  intros h' w' (Hc' & Hf' & Hca' & Hio').
  assert (DatabaseManager.readData h' dbName w'
          = (Ok (json d),
             set_caches (<[(h', dbName) := json d]> (caches w')) (after_fs_call w')))
    as Hread.
  { apply readData_cold_sealed; rewrite ?Hc', ?Hc; try done. by rewrite Hf', Hfile. }
  split; [by eexists|]. rewrite Hread. simpl. split; [by intros [= ?]|by intros ->].
Qed.

Lemma encrypted_read_after_write_witness :
  ∃ w1, DatabaseManager.writeData db_order "orders" (DArr [order_A "pending"]) secret_world
          = (Ok true, w1)
    ∧ DatabaseManager.readData db_order "orders" w1 = (Ok (DArr [order_A "pending"]), w1)
    ∧ (DatabaseManager.readData db_main "orders" w1).1 = Ok (DArr [order_A "pending"]).
Proof.
  assert (DatabaseManager.writeData db_order "orders" (DArr [order_A "pending"]) secret_world
          = (Ok true,
             (DatabaseManager.writeData db_order "orders" (DArr [order_A "pending"])
                secret_world).2)) as Hw by (vm_compute; reflexivity).
  destruct (encrypted_read_after_write db_order "orders" (DArr [order_A "pending"])
              secret_world _ eq_refl Hw) as (_ & _ & _ & Hsame & Hother).
  eexists. split; [exact Hw|]. split; [exact Hsame|].
  apply (Hother db_main); [|vm_compute; reflexivity].
  repeat split; vm_compute; reflexivity.
Defined.

(** A deposit whose amount is NaN is written with the amount [null]: the
    DatabaseManager that wrote it goes on with NaN from its cache, every
    other reader gets [null] from the file. *)
Example nan_is_written_as_null :
  let d := DArr [deposit_without_amount] in
  let r := DatabaseManager.writeData db_payment "deposits" d secret_world in
  r.1 = Ok true
  ∧ (DatabaseManager.readData db_payment "deposits" r.2).1 = Ok d
  ∧ (DatabaseManager.readData db_main "deposits" r.2).1
    = Ok (DArr [<["amount" := VNull]> deposit_without_amount]).
Proof. vm_compute. done. Qed.

(** C6, as the claim states it, fails: what a reader gets from the file
    is not the data for every collection value. *)
Lemma written_nan_reads_as_null : ¬ reading_returns_what_was_written.
Proof.
  intros H. destruct nan_is_written_as_null as (Hw & _ & Hr).
  set (d := DArr [deposit_without_amount]) in *.
  set (r := DatabaseManager.writeData db_payment "deposits" d secret_world) in *.
  assert (r = (Ok true, r.2)) as Hrun by (destruct r as [? ?]; simpl in *; by subst).
  specialize (H db_payment db_main "deposits" d secret_world r.2 r.2 eq_refl Hrun).
  rewrite H in Hr.
  - clear -Hr. subst d.
    assert (∀ a b : item, @Ok data (DArr [a]) = Ok (DArr [b]) →
                          prop a "amount" = prop b "amount") as Hinj
      by (by intros a b [= ->]).
    apply Hinj in Hr. vm_compute in Hr. discriminate Hr.
  - repeat split; vm_compute; reflexivity.
Qed.

(** ** The cache *)

Lemma decoded_stored cfg d :
  cipher_ready cfg = true → serializable d = true →
  decoded cfg (stored cfg d) = Some (json d).
Proof.
  unfold cipher_ready, decoded, stored, JSON_stringify.
  destruct (ENCRYPTION cfg) eqn:He; simpl.
  - intros -> Hs. by rewrite !String.eqb_refl, serializable_json, Hs, json_idem.
  - intros _ Hs. destruct d; simpl in *; rewrite ?He; try done;
      f_equal; f_equal.
    + rewrite <- list_fmap_compose. apply list_fmap_ext. intros i x _. apply json_item_idem.
    + apply json_item_idem.
Qed.

(** Without a filter [getAllOrders] leaves the cached array sorted; the
    file is not written. *)
Lemma getAllOrders_sorts_the_cache (sort : list item → list item) l w :
  warm db_order "orders" l w →
  OrderManager.getAllOrders sort ∅ w
  = (Ok (sort l),
     set_caches (<[(db_order, "orders") := DArr (sort l)]> (caches w)) w).
Proof.
  intros Hw. unfold OrderManager.getAllOrders, DatabaseManager.push_shared,
    DatabaseManager.cache_get, DatabaseManager.cache_set.
  run_monad. rewrite (readData_hit _ _ _ _ Hw). unfold warm in Hw.
  unfold prop. rewrite !lookup_empty. simpl. by rewrite Hw.
Qed.

(** C8, as the code has it. The cache is that of one DatabaseManager
    object: [readData] returns an entry of its cache as it is, without
    touching the file system; after a [writeData] that answers [true] the
    entry is the data written and a [readData] returns it, the entries of
    the other DatabaseManager objects stay as they were, and the file
    holds the JSON text of the data, which reads back as
    [JSON.parse(JSON.stringify(data))]: as the entry only when JSON
    leaves the data as it is. An entry also parts from its file when
    [getAllOrders] sorts the cached array in place. *)
Theorem cache_of_one_manager h dbName w :
  (∀ d, caches w !! (h, dbName) = Some d →
        DatabaseManager.readData h dbName w = (Ok d, w))
  ∧ (∀ d w1, DatabaseManager.writeData h dbName d w = (Ok true, w1) →
       caches w1 !! (h, dbName) = Some d
       ∧ DatabaseManager.readData h dbName w1 = (Ok d, w1)
       ∧ files w1 !! dbName = Some (stored (config w1) d)
       ∧ decoded (config w1) (stored (config w1) d) = Some (json d)
       ∧ ∀ k, k ≠ (h, dbName) → caches w1 !! k = caches w !! k)
  ∧ (∀ sort l, warm db_order "orders" l w →
       ∃ w1, OrderManager.getAllOrders sort ∅ w = (Ok (sort l), w1)
         ∧ caches w1 !! (db_order, "orders") = Some (DArr (sort l))
         ∧ files w1 = files w).
Proof.
  split; [intros d; apply readData_hit|]. split.
  - intros d w1 Hwr. pose proof (written_is_serializable _ _ _ _ _ Hwr) as Hs.
    rewrite writeData_run in Hwr by done.
    destruct (write_goes_through dbName w) eqn:Hg; [|discriminate Hwr].
    injection Hwr as <-.
    destruct (commit_fields h dbName d w) as (Hc & Hf & Hca & _).
    assert (caches (commit h dbName d w) !! (h, dbName) = Some d) as Hhit
      by (rewrite Hca; apply lookup_insert_eq).
    split; [done|]. split; [by apply readData_hit|].
    split; [by rewrite Hf, Hc, lookup_insert_eq|]. split.
    + rewrite Hc. apply decoded_stored; [|done]. unfold write_goes_through in Hg.
      by apply andb_true_iff in Hg as [[_ ?]%andb_true_iff _].
    + intros k Hk. rewrite Hca. by apply lookup_insert_ne.
  - intros sort l Hw. rewrite (getAllOrders_sorts_the_cache sort l w Hw).
    eexists. split; [done|]. split; [apply lookup_insert_eq|done].
Qed.

Example stale_orders_of_the_user_manager :
  caches stats_then_approval !! (db_user, "orders") = Some (DArr [order_A "pending"])
  ∧ statuses (caches stats_then_approval !! (db_user, "orders")) = [VStr "pending"]
  ∧ statuses (files stats_then_approval !! "orders") = [VStr "processing"]
  ∧ (DatabaseManager.readData db_user "orders" stats_then_approval).1
    = Ok (DArr [order_A "pending"]).
Proof. vm_compute. done. Qed.

(** C8, as the claim states it, fails: after the order manager's write the
    user manager's cache still holds the orders it read before. *)
Lemma cache_of_another_manager_is_stale : ¬ cache_coherent stats_then_approval.
Proof.
  intros H. destruct stale_orders_of_the_user_manager as (Hc & _ & Hf & _).
  destruct (H db_user "orders" _ Hc) as (raw & Hraw & Hdec).
  rewrite Hraw in Hf.
  assert (config stats_then_approval = plain_config) as Hcfg by (vm_compute; reflexivity).
  rewrite Hcfg in Hdec. clear Hcfg Hc Hraw H.
  generalize dependent stats_then_approval. intros _.
  destruct raw as [l|o|s|n]; simpl in Hdec, Hf; try discriminate.
  injection Hdec as Hdec.
  destruct l as [|o [|o' l]]; simpl in Hdec, Hf; try discriminate.
  injection Hdec as Hdec. injection Hf as Hf.
  apply (f_equal (λ x : item, x !! "status")) in Hdec.
  unfold json_item in Hdec. rewrite lookup_omap in Hdec. unfold prop in Hf.
  destruct (o !! "status") as [v|]; simpl in Hdec, Hf; [|discriminate Hf].
  subst v. vm_compute in Hdec. discriminate Hdec.
Qed.

(** Within one DatabaseManager too an entry parts from its file: a
    record written with the amount NaN is in the file with the amount
    [null], and the orders that [getAllOrders] has sorted are in the
    cache newest first and in the file as they were. *)
Example entry_and_file_of_one_manager :
  let d := DArr [deposit_without_amount] in
  let w1 := (DatabaseManager.writeData db_payment "deposits" d stats_world).2 in
  let w2 := (OrderManager.getAllOrders newest_first ∅ two_orders_read).2 in
  caches w1 !! (db_payment, "deposits") = Some d
  ∧ files w1 !! "deposits" = Some (DArr [<["amount" := VNull]> deposit_without_amount])
  ∧ order_ids (caches two_orders_read !! (db_order, "orders")) = [VStr "ORD-1"; VStr "ORD-2"]
  ∧ order_ids (caches w2 !! (db_order, "orders")) = [VStr "ORD-2"; VStr "ORD-1"]
  ∧ order_ids (files w2 !! "orders") = [VStr "ORD-1"; VStr "ORD-2"].
Proof. vm_compute. done. Qed.

Lemma cache_of_one_manager_witness :
  ∃ w1, DatabaseManager.writeData db_order "orders" (DArr [order_A "pending"]) stats_world
          = (Ok true, w1)
    ∧ DatabaseManager.readData db_order "orders" w1 = (Ok (DArr [order_A "pending"]), w1).
Proof.
  assert (DatabaseManager.writeData db_order "orders" (DArr [order_A "pending"]) stats_world
          = (Ok true,
             (DatabaseManager.writeData db_order "orders" (DArr [order_A "pending"])
                stats_world).2)) as Hw by (vm_compute; reflexivity).
  destruct (cache_of_one_manager db_order "orders" stats_world) as (_ & Hwrite & _).
  destruct (Hwrite _ _ Hw) as (_ & Hread & _).
  eexists. split; [exact Hw|exact Hread].
Defined.

(** ** When a file-system call throws *)

(** [writeData] catches the error and answers [false]; [update] answers
    whether a record matched, and the managers drop that answer: the
    approval and the deduction report success while cache and file keep
    the old record. *)
Example approveOrder_when_the_write_fails :
  let w := set_io_faults [false; true] pending_order_world in
  let r := OrderManager.approveOrder (VStr "ORD-A") (VNum 1) w in
  r.1 = Ok (Success (order_A "pending"))
  ∧ status_seen (OrderManager.getOrder (VStr "ORD-A") r.2) = VStr "pending"
  ∧ statuses (files r.2 !! "orders") = [VStr "pending"].
Proof. vm_compute. done. Qed.

Example updateBalance_when_the_write_fails :
  let w := set_io_faults [false; true] user_world in
  let r := UserManager.updateBalance (VNum 7) (VNum 3000) "subtract" w in
  r.1 = Ok (Success (VNum 7000))
  ∧ balance_seen (VNum 7) r.2 = VNum 10000
  ∧ balances_on_disk r.2 = [VNum 10000].
Proof. vm_compute. done. Qed.

(** [insert] pushes onto the cached array before it writes: when the write
    fails the new record is in the cache and not in the file. *)
Example insert_when_the_write_fails :
  let w := set_io_faults [false; true] pending_order_world in
  let r := DatabaseManager.insert db_order "orders" (order_A "completed") w in
  statuses (caches r.2 !! (db_order, "orders")) = [VStr "pending"; VStr "completed"]
  ∧ statuses (files r.2 !! "orders") = [VStr "pending"].
Proof. vm_compute. done. Qed.

(** A read that fails answers the default data of the collection and
    leaves the cache as it is. *)
Lemma readData_failed_read h dbName raw w :
  DatabaseManager.known dbName = true → caches w !! (h, dbName) = None →
  files w !! dbName = Some raw →
  (hd false (io_faults w) = true
   ∨ (hd false (io_faults w) = false ∧ decoded (config w) raw = None)) →
  DatabaseManager.readData h dbName w
    = (Ok (default_data dbName (now w)), after_fs_call w).
Proof.
  intros Hk Hc Hf Hbad.
  unfold DatabaseManager.readData, DatabaseManager.cache_get, fs_pathExists,
    fs_readJson, fs_fault, SecurityManager.decrypt, JSON_parse,
    DatabaseManager.cache_set, decoded, after_fs_call in *.
  run_monad. rewrite Hc, Hk.
  destruct w as [cfg fl ca io t en gw]; simpl in *.
  assert (∀ w0 : World, now w0 = t →
            DatabaseManager.getDefaultData dbName w0 = (Ok (default_data dbName t), w0))
    as Hdef by (intros w0 <-; apply getDefaultData_run).
  rewrite Hf. simpl.
  destruct io as [|[] io]; simpl in *; rewrite ?Hf, ?Hdef by done;
    try done; try (by destruct Hbad as [?|[? ?]]).
  all: destruct Hbad as [?|[_ Hdec]]; [done|].
  all: destruct raw as [l|o|s|n]; simpl in *; rewrite ?Hdef by done; try done.
  all: destruct (ENCRYPTION cfg); simpl; [|done].
  all: destruct (SecurityManager.key_ok cfg); simpl; rewrite ?Hdef by done; [|done].
  all: destruct s as [s|d'|k iv [s|d'|k' iv' p']]; simpl; rewrite ?Hdef by done;
       try done.
  all: destruct (String.eqb k (ENCRYPTION_KEY cfg) && String.eqb iv (ENCRYPTION_IV cfg))
         eqn:Hkiv; simpl; rewrite ?Hdef by done; try done.
  all: destruct (serializable d'); simpl; rewrite ?Hdef by done; done.
Qed.

(** ** Error handling *)





(** What the operations answer when something inside them throws. *)








(** The operations that let the exception out. *)





(** A search with [null] for a query, and one without a query, over the
    one order of the store. *)
Example findMany_of_null :
  (DatabaseManager.findMany db_order "orders" GivenNull pending_order_world).1
    = Throw "Cannot convert undefined or null to object"
  ∧ (DatabaseManager.findOne db_order "orders" NotGiven pending_order_world).1
    = Throw "Cannot convert undefined or null to object".
Proof. vm_compute. done. Qed.



(** * Further properties of the store, the managers and the handlers *)

(** ** Worlds and reads in the nominal environment *)

Ltac world_simpl :=
  cbn [config files caches io_faults now entropy gateway_up
       set_files set_caches set_io_faults set_now set_entropy] in *.

Lemma World_ext w w' :
  config w = config w' → files w = files w' → caches w = caches w' →
  io_faults w = io_faults w' → now w = now w' → entropy w = entropy w' →
  gateway_up w = gateway_up w' → w = w'.
Proof. destruct w, w'; simpl; intros; by subst. Qed.

Lemma nominal_inv w :
  nominal w = true → io_faults w = [] ∧ cipher_ready (config w) = true.
Proof.
  unfold nominal. intros [H1 H2]%andb_true_iff.
  by apply bool_decide_eq_true in H1.
Qed.

Lemma nominal_intro w : io_faults w = [] → cipher_ready (config w) = true → nominal w = true.
Proof. unfold nominal. intros -> ->. done. Qed.

Lemma nominal_transfer w w' :
  nominal w = true → config w' = config w → io_faults w' = io_faults w →
  nominal w' = true.
Proof.
  intros [H1 H2]%nominal_inv Hc Hio. apply nominal_intro; congruence.
Qed.

(** What a read in the nominal environment leaves behind. *)
Lemma readData_nominal h dbName w d w0 :
  nominal w = true →
  DatabaseManager.readData h dbName w = (Ok d, w0) →
  nominal w0 = true ∧ config w0 = config w ∧ files w0 = files w ∧ now w0 = now w
  ∧ entropy w0 = entropy w ∧ gateway_up w0 = gateway_up w
  ∧ (∀ k, k ≠ (h, dbName) → caches w0 !! k = caches w !! k)
  ∧ DatabaseManager.readData h dbName w0 = (Ok d, w0)
  ∧ (w0 = w ∨ caches w0 !! (h, dbName) = Some d).
Proof.
  intros Hn Hr.
  destruct (readData_inv h dbName w) as (d' & w' & H & Hcfg & Hf & Ht & He & Hg & Hio & Hca).
  rewrite Hr in H. simplify_eq.
  destruct (nominal_inv _ Hn) as [Hio0 Hcr].
  assert (io_faults w' = io_faults w) as Hio'.
  { rewrite Hio0 in *. by destruct Hio. }
  split; [by apply (nominal_transfer w)|].
  do 5 (split; [done|]).
  destruct Hca as [[Hsame Hd]|(Hnone & Hins & _)].
  - assert (w' = w) as -> by (by apply World_ext).
    split; [done|]. split; [done|]. by left.
  - split; [intros k Hk; rewrite Hins; by apply lookup_insert_ne|].
    assert (caches w' !! (h, dbName) = Some d') as Hhit
      by (rewrite Hins; apply lookup_insert_eq).
    split; [by apply readData_hit|]. by right.
Qed.

(** ** DatabaseManager: insert *)

Lemma insert_run_gen h dbName it l w w0 :
  DatabaseManager.readData h dbName w = (Ok (DArr l), w0) →
  cipher_ready (config w0) = true → hd false (io_faults w0) = false →
  DatabaseManager.known dbName = true →
  ∃ w1,
    DatabaseManager.insert h dbName it w
      = (Ok (Some (inserted it (insert_id it w0) (now w0))), w1)
    ∧ warm h dbName (l ++ [inserted it (insert_id it w0) (now w0)]) w1
    ∧ files w1 = <[dbName := stored (config w0)
                     (DArr (l ++ [inserted it (insert_id it w0) (now w0)]))]> (files w0)
    ∧ io_faults w1 = tail (io_faults w0) ∧ config w1 = config w0 ∧ now w1 = now w0
    ∧ entropy w1 = (if truthy (prop it "id") then entropy w0 else tail (entropy w0))
    ∧ gateway_up w1 = gateway_up w0
    ∧ ∀ k, k ≠ (h, dbName) → caches w1 !! k = caches w0 !! k.
Proof.
  intros Hr Hcr Hio Hk.
  unfold DatabaseManager.insert, inserted, insert_id. run_monad. rewrite Hr.
  unfold DatabaseManager.generateId, draw, DatabaseManager.push_shared,
    DatabaseManager.cache_get, DatabaseManager.cache_set. run_monad.
  destruct (truthy (prop it "id")) eqn:Hid;
    [|destruct (entropy w0) as [|r rest] eqn:Hen];
    cbn [caches set_entropy];
    (destruct (caches w0 !! (h, dbName)) eqn:Hca).
  all: rewrite writeData_run by done.
  all: match goal with
       | |- context [write_goes_through ?n ?W] =>
           assert (write_goes_through n W = true) as ->
             by (unfold write_goes_through; simpl; by rewrite Hk, Hcr, Hio)
       end.
  all: eexists; split; [reflexivity|].
  all: match goal with
       | |- context [commit ?h' ?n ?d ?W] =>
           destruct (commit_fields h' n d W)
             as (Hcc & Hcf & Hcca & Hct & Hce & Hcg & Hcio)
       end.
  all: split; [apply warm_commit|].
  all: rewrite Hcc, Hcf, Hct, Hce, Hcg, Hcio.
  all: do 6 (split; [done|]).
  all: intros k Hne; rewrite Hcca; world_simpl; by rewrite !lookup_insert_ne.
Qed.

Lemma insert_run h dbName it l w w0 :
  DatabaseManager.readData h dbName w = (Ok (DArr l), w0) →
  nominal w0 = true → DatabaseManager.known dbName = true →
  ∃ w1,
    DatabaseManager.insert h dbName it w
      = (Ok (Some (inserted it (insert_id it w0) (now w0))), w1)
    ∧ warm h dbName (l ++ [inserted it (insert_id it w0) (now w0)]) w1
    ∧ files w1 = <[dbName := stored (config w0)
                     (DArr (l ++ [inserted it (insert_id it w0) (now w0)]))]> (files w0)
    ∧ nominal w1 = true ∧ config w1 = config w0 ∧ now w1 = now w0
    ∧ entropy w1 = (if truthy (prop it "id") then entropy w0 else tail (entropy w0))
    ∧ gateway_up w1 = gateway_up w0
    ∧ ∀ k, k ≠ (h, dbName) → caches w1 !! k = caches w0 !! k.
Proof.
  intros Hr Hn Hk. destruct (nominal_inv _ Hn) as [Hio Hcr].
  destruct (insert_run_gen h dbName it l w w0 Hr Hcr) as (w1 & H1 & H2 & H3 & H4 & H5 & H6);
    [by rewrite Hio|done|].
  exists w1. do 3 (split; [done|]).
  split; [apply nominal_intro; [by rewrite H4, Hio|by rewrite H5]|]. done.
Qed.

Lemma prop_insert_eq (o : item) key v : prop (<[key := v]> o) key = v.
Proof. unfold prop. by rewrite lookup_insert_eq. Qed.

Lemma prop_insert_ne (o : item) key key' v :
  key ≠ key' → prop (<[key := v]> o) key' = prop o key'.
Proof. intros. unfold prop. by rewrite lookup_insert_ne. Qed.

Lemma prop_inserted_other it id t key :
  key ≠ "id" → key ≠ "createdAt" → key ≠ "updatedAt" →
  prop (inserted it id t) key = prop it key.
Proof. intros. unfold inserted. by rewrite !prop_insert_ne by done. Qed.

(** X1. In the nominal environment [insert] appends one record to the
    array it read: the record keeps every field of the item it was given
    but [id], [createdAt] and [updatedAt] (a truthy [id] or [createdAt] is
    kept too), file and cache then hold the longer array, and a [findOne]
    afterwards searches that array: it finds the new record whenever the
    query matches it and no older record. *)
Theorem insert_then_findOne h dbName it w l w0 :
  nominal w = true → DatabaseManager.known dbName = true →
  DatabaseManager.readData h dbName w = (Ok (DArr l), w0) →
  ∃ it' w1,
    DatabaseManager.insert h dbName it w = (Ok (Some it'), w1)
    ∧ (∀ key, key ≠ "id" → key ≠ "createdAt" → key ≠ "updatedAt" →
         prop it' key = prop it key)
    ∧ (truthy (prop it "id") = true → prop it' "id" = prop it "id")
    ∧ (truthy (prop it "createdAt") = true → prop it' "createdAt" = prop it "createdAt")
    ∧ prop it' "updatedAt" = VTime (now w)
    ∧ files w1 !! dbName = Some (stored (config w) (DArr (l ++ [it'])))
    ∧ DatabaseManager.readData h dbName w1 = (Ok (DArr (l ++ [it'])), w1)
    ∧ ∀ query : item,
        DatabaseManager.findOne h dbName query w1
          = (Ok (List.find (matches query) (l ++ [it'])), w1).
Proof.
  intros Hn Hk Hr.
  destruct (readData_nominal _ _ _ _ _ Hn Hr) as (Hn0 & Hc0 & Hf0 & Ht0 & _).
  destruct (insert_run h dbName it l w w0 Hr Hn0 Hk)
    as (w1 & Hins & Hw1 & Hf1 & _).
  exists (inserted it (insert_id it w0) (now w0)), w1.
  split; [done|]. split; [by intros; apply prop_inserted_other|].
  split.
  { intros Hid. unfold inserted, insert_id. rewrite Hid.
    rewrite !prop_insert_ne by done. apply prop_insert_eq. }
  split.
  { intros Hca. unfold inserted.
    rewrite prop_insert_ne, prop_insert_eq, prop_insert_ne by done.
    unfold js_or. by rewrite Hca. }
  split; [unfold inserted; by rewrite prop_insert_eq, Ht0|].
  split; [by rewrite Hf1, lookup_insert_eq, Hc0|].
  split; [by apply readData_hit|].
  intros query. by apply findOne_warm.
Qed.

Example order_A_is_not_ORD_B :
  matches (by_key "orderId" (VStr "ORD-B")) (order_A "pending") = false.
Proof. vm_compute. done. Qed.

Lemma insert_then_findOne_witness :
  ∃ it' w1,
    DatabaseManager.insert db_order "orders" (by_key "orderId" (VStr "ORD-B"))
      pending_order_world = (Ok (Some it'), w1)
    ∧ DatabaseManager.findOne db_order "orders" (by_key "orderId" (VStr "ORD-B")) w1
      = (Ok (Some it'), w1).
Proof.
  assert (DatabaseManager.readData db_order "orders" pending_order_world
          = (Ok (DArr [order_A "pending"]),
             (DatabaseManager.readData db_order "orders" pending_order_world).2)) as Hr
    by (vm_compute; reflexivity).
  destruct (insert_then_findOne db_order "orders" (by_key "orderId" (VStr "ORD-B"))
              pending_order_world _ _ eq_refl eq_refl Hr)
    as (it' & w1 & Hins & Hother & _ & _ & _ & _ & _ & Hfind).
  exists it', w1. split; [exact Hins|].
  rewrite Hfind. cbn [app List.find]. rewrite order_A_is_not_ORD_B.
  rewrite matches_by_key, Hother by done. reflexivity.
Defined.

(** ** DatabaseManager: collections it does not know, or that are no arrays *)

Lemma unknown_not_stats dbName :
  DatabaseManager.known dbName = false → String.eqb dbName "stats" = false.
Proof.
  intros Hk. destruct (String.eqb_spec dbName "stats") as [->|]; [|done].
  by vm_compute in Hk.
Qed.

Lemma readData_unknown h dbName w :
  DatabaseManager.known dbName = false → DatabaseManager.inherited dbName = false →
  caches w !! (h, dbName) = None →
  DatabaseManager.readData h dbName w = (Ok (DArr []), w).
Proof.
  intros Hk Hi Hc. unfold DatabaseManager.readData, DatabaseManager.cache_get.
  run_monad. rewrite Hc, Hk, Hi. simpl. rewrite getDefaultData_run.
  unfold default_data. rewrite unknown_not_stats, Hi by done.
  destruct (String.eqb_spec dbName "__proto__") as [->|]; [|done].
  by vm_compute in Hi.
Qed.

(** What a lookup by an inherited name finds is truthy and no path: the
    read answers what [defaults] inherits under that name, a function or
    the prototype object, and caches nothing. *)
Lemma readData_inherited h dbName w :
  DatabaseManager.inherited dbName = true → caches w !! (h, dbName) = None →
  DatabaseManager.readData h dbName w = (Ok (default_data dbName (now w)), w)
  ∧ ∀ l, default_data dbName (now w) ≠ DArr l.
Proof.
  intros Hi Hc.
  assert (DatabaseManager.known dbName = false) as Hk.
  { destruct (DatabaseManager.known dbName) eqn:Hk; [|done].
    by rewrite (known_not_inherited _ Hk) in Hi. }
  unfold DatabaseManager.readData, DatabaseManager.cache_get.
  run_monad. rewrite Hc, Hk, Hi. simpl. rewrite getDefaultData_run.
  split; [done|]. unfold default_data.
  rewrite unknown_not_stats, Hi by done.
  by destruct (String.eqb dbName "__proto__").
Qed.

(** X2. A collection name that is not one of the eight of the store and
    that an object literal does not inherit from [Object.prototype]:
    [insert] answers with the item, as it does when it has stored it,
    although file and cache stay as they are; a search afterwards finds
    nothing. Under an inherited name ('constructor', 'toString',
    '__proto__', ...) the read answers a built-in that is no array, and
    [insert] answers [null]. *)
Theorem insert_unknown_collection h dbName it w :
  DatabaseManager.known dbName = false → caches w !! (h, dbName) = None →
  if DatabaseManager.inherited dbName
  then DatabaseManager.insert h dbName it w = (Ok None, w)
  else
    ∃ it' w1,
      DatabaseManager.insert h dbName it w = (Ok (Some it'), w1)
      ∧ files w1 = files w ∧ caches w1 = caches w
      ∧ ∀ query : item, DatabaseManager.findOne h dbName query w1 = (Ok None, w1).
Proof.
  intros Hk Hc. destruct (DatabaseManager.inherited dbName) eqn:Hi.
  { destruct (readData_inherited h dbName w Hi Hc) as (Hr & Hd).
    unfold DatabaseManager.insert. run_monad. rewrite Hr.
    destruct (default_data dbName (now w)) as [l| | |]; [by destruct (Hd l)|done..]. }
  unfold DatabaseManager.insert. run_monad. rewrite readData_unknown by done.
  unfold DatabaseManager.generateId, draw, DatabaseManager.push_shared,
    DatabaseManager.cache_get, DatabaseManager.cache_set. run_monad.
  destruct (truthy (prop it "id")) eqn:Hid;
    [|destruct (entropy w) as [|r rest] eqn:Hen];
    cbn [caches set_entropy]; rewrite Hc.
  all: rewrite writeData_run by done.
  all: match goal with
       | |- context [write_goes_through ?n ?W] =>
           assert (write_goes_through n W = false) as ->
             by (unfold write_goes_through; by rewrite Hk)
       end.
  all: rewrite Hk; cbn [andb].
  all: eexists _, _; split; [reflexivity|]; world_simpl.
  all: do 2 (split; [done|]).
  all: intros query; unfold DatabaseManager.findOne; run_monad.
  all: by rewrite readData_unknown.
Qed.

Lemma insert_unknown_collection_witness :
  (∃ it' w1,
     DatabaseManager.insert db_main "invoices" (by_key "invoiceId" (VNum 1))
       pending_order_world = (Ok (Some it'), w1)
     ∧ files w1 = files pending_order_world
     ∧ DatabaseManager.findOne db_main "invoices" (by_key "invoiceId" (VNum 1)) w1
       = (Ok None, w1))
  ∧ DatabaseManager.insert db_main "constructor" (by_key "invoiceId" (VNum 1))
      pending_order_world = (Ok None, pending_order_world).
Proof.
  split.
  - destruct (insert_unknown_collection db_main "invoices" (by_key "invoiceId" (VNum 1))
                pending_order_world eq_refl eq_refl)
      as (it' & w1 & Hins & Hf & _ & Hfind).
    exists it', w1. exact (conj Hins (conj Hf (Hfind _))).
  - exact (insert_unknown_collection db_main "constructor" (by_key "invoiceId" (VNum 1))
             pending_order_world eq_refl eq_refl).
Defined.

(** X3. A collection whose value is not an array (the [stats] object, or
    a file that holds something else): [insert] answers [null], [update]
    and [delete] answer [false], the searches find nothing, and nothing
    is written. *)
Theorem not_an_array h dbName it (query : item) updates w d w0 :
  DatabaseManager.readData h dbName w = (Ok d, w0) →
  (∀ l, d ≠ DArr l) →
  DatabaseManager.insert h dbName it w = (Ok None, w0)
  ∧ DatabaseManager.update h dbName query updates w = (Ok false, w0)
  ∧ DatabaseManager.delete h dbName query w = (Ok false, w0)
  ∧ DatabaseManager.findOne h dbName query w = (Ok None, w0)
  ∧ DatabaseManager.findMany h dbName query w = (Ok [], w0)
  ∧ files w0 = files w.
Proof.
  intros Hr Hd.
  unfold DatabaseManager.insert, DatabaseManager.update, DatabaseManager.delete,
    DatabaseManager.findOne, DatabaseManager.findMany.
  run_monad. rewrite Hr.
  destruct (readData_inv h dbName w) as (d' & w' & H & _ & Hf & _).
  rewrite Hr in H. simplify_eq.
  destruct d' as [l| | |]; [by destruct (Hd l)|done..].
Qed.

Lemma not_an_array_witness :
  ∃ w0,
    DatabaseManager.insert db_main "stats" (by_key "totalUsers" (VNum 5))
      pending_order_world = (Ok None, w0)
    ∧ files w0 = files pending_order_world.
Proof.
  assert (DatabaseManager.readData db_main "stats" pending_order_world
          = (Ok (default_data "stats" 1000),
             (DatabaseManager.readData db_main "stats" pending_order_world).2)) as Hr
    by (vm_compute; reflexivity).
  destruct (not_an_array db_main "stats" (by_key "totalUsers" (VNum 5)) ∅ ∅
              pending_order_world _ _ Hr) as (Hins & _ & _ & _ & _ & Hf).
  { intros l. discriminate. }
  eexists. exact (conj Hins Hf).
Defined.

(** ** DatabaseManager: delete *)

Lemma length_filter_le {A} (f : A → bool) l :
  (length (List.filter f l) ≤ length l)%nat.
Proof. induction l as [|x l IH]; simpl; [done|]. destruct (f x); simpl; lia. Qed.

Lemma deleted_iff_match {A} (f : A → bool) l :
  negb (Nat.eqb (length l) (length (List.filter (λ x, negb (f x)) l))) = existsb f l.
Proof.
  induction l as [|x l IH]; [done|].
  cbn [List.filter existsb length]. destruct (f x) eqn:Hx; cbn [negb orb length].
  - pose proof (length_filter_le (λ x, negb (f x)) l) as Hle.
    apply Bool.negb_true_iff, Nat.eqb_neq. lia.
  - exact IH.
Qed.

Lemma filter_no_match {A} (f : A → bool) l :
  existsb f l = false → List.filter (λ x, negb (f x)) l = l.
Proof.
  induction l as [|x l IH]; simpl; [done|].
  intros [-> H]%orb_false_iff. simpl. by rewrite IH.
Qed.

Lemma find_no_match {A} (f : A → bool) l :
  existsb f l = false → List.find f l = None.
Proof.
  induction l as [|x l IH]; simpl; [done|].
  intros [-> H]%orb_false_iff. by apply IH.
Qed.

Lemma find_filter_negb {A} (f : A → bool) l :
  List.find f (List.filter (λ x, negb (f x)) l) = None.
Proof.
  induction l as [|x l IH]; simpl; [done|].
  destruct (f x) eqn:Hx; simpl; [done|]. by rewrite Hx.
Qed.

(** X4. In the nominal environment [delete] answers whether some record
    of the array matched; afterwards the array is the old one without
    the matching records, the others in their order, and a search with
    the same query finds nothing. Only when something matched is the file
    written. *)
Theorem delete_removes_matches h dbName (query : item) w l w0 :
  nominal w = true → DatabaseManager.known dbName = true →
  DatabaseManager.readData h dbName w = (Ok (DArr l), w0) →
  ∃ w1,
    DatabaseManager.delete h dbName query w = (Ok (existsb (matches query) l), w1)
    ∧ DatabaseManager.readData h dbName w1
      = (Ok (DArr (List.filter (λ it, negb (matches query it)) l)), w1)
    ∧ DatabaseManager.findOne h dbName query w1 = (Ok None, w1)
    ∧ (existsb (matches query) l = true →
       files w1 !! dbName
         = Some (stored (config w)
                   (DArr (List.filter (λ it, negb (matches query it)) l))))
    ∧ (existsb (matches query) l = false → files w1 = files w).
Proof.
  intros Hn Hk Hr.
  destruct (readData_nominal _ _ _ _ _ Hn Hr) as (Hn0 & Hc0 & Hf0 & Ht0 & _ & _ & _ & Hr0 & _).
  unfold DatabaseManager.delete. run_monad. rewrite Hr.
  rewrite deleted_iff_match.
  destruct (existsb (matches query) l) eqn:He.
  - rewrite writeData_run, nominal_write_goes_through by done.
    eexists. split; [reflexivity|].
    pose proof (warm_commit h dbName (List.filter (λ it, negb (matches query it)) l) w0)
      as Hw.
    split; [by apply readData_hit|].
    split; [rewrite (findOne_warm _ _ _ _ _ Hw); by rewrite find_filter_negb|].
    split; [|done]. intros _.
    destruct (commit_fields h dbName
                (DArr (List.filter (λ it, negb (matches query it)) l)) w0)
      as (_ & -> & _).
    by rewrite lookup_insert_eq, Hc0.
  - exists w0. split; [done|].
    rewrite filter_no_match by done.
    split; [done|].
    split; [|done].
    unfold DatabaseManager.findOne. run_monad. rewrite Hr0.
    by rewrite find_no_match.
Qed.

Lemma delete_removes_matches_witness :
  ∃ w1,
    DatabaseManager.delete db_order "orders" (by_key "orderId" (VStr "ORD-A"))
      pending_order_world = (Ok true, w1)
    ∧ DatabaseManager.readData db_order "orders" w1 = (Ok (DArr []), w1)
    ∧ files w1 !! "orders" = Some (DArr []).
Proof.
  assert (DatabaseManager.readData db_order "orders" pending_order_world
          = (Ok (DArr [order_A "pending"]),
             (DatabaseManager.readData db_order "orders" pending_order_world).2)) as Hr
    by (vm_compute; reflexivity).
  destruct (delete_removes_matches db_order "orders" (by_key "orderId" (VStr "ORD-A"))
              pending_order_world _ _ eq_refl eq_refl Hr)
    as (w1 & Hdel & Hread & _ & Hfile & _).
  exists w1. split; [exact Hdel|]. split; [exact Hread|]. exact (Hfile eq_refl).
Defined.

(** ** DatabaseManager: a read that fails *)

(** X5. When the file of a collection is there but cannot be read (the
    file system fails, or the content does not open under the configured
    key), [readData] answers with the empty default; an [insert] that
    follows then writes the new record alone over whatever the file held. *)
Theorem insert_after_failed_read h dbName it raw w :
  DatabaseManager.known dbName = true → dbName ≠ "stats" →
  caches w !! (h, dbName) = None → files w !! dbName = Some raw →
  cipher_ready (config w) = true →
  (hd false (io_faults w) = true
   ∨ (hd false (io_faults w) = false ∧ decoded (config w) raw = None)) →
  hd false (tail (io_faults w)) = false →
  ∃ it' w1,
    DatabaseManager.readData h dbName w = (Ok (DArr []), after_fs_call w)
    ∧ DatabaseManager.insert h dbName it w = (Ok (Some it'), w1)
    ∧ files w1 !! dbName = Some (stored (config w) (DArr [it']))
    ∧ DatabaseManager.readData h dbName w1 = (Ok (DArr [it']), w1).
Proof.
  intros Hk Hns Hc Hf Hcr Hbad Hnext.
  pose proof (readData_failed_read h dbName raw w Hk Hc Hf Hbad) as Hr.
  assert (default_data dbName (now w) = DArr []) as Hdef.
  { rewrite default_data_known by done. destruct (String.eqb_spec dbName "stats"); done. }
  rewrite Hdef in Hr.
  destruct (after_fs_call_fields w) as (Hac & Haf & Haca & Hat & Hae & Hag & Haio).
  destruct (insert_run_gen h dbName it [] w _ Hr) as (w1 & Hins & Hw1 & Hf1 & _ & Hc1 & _);
    [by rewrite Hac|by rewrite Haio|done|].
  eexists _, w1. split; [done|]. split; [exact Hins|].
  split; [by rewrite Hf1, lookup_insert_eq, Hac|].
  by apply readData_hit.
Qed.


Lemma insert_after_failed_read_witness :
  ∃ it' w1,
    DatabaseManager.insert db_order "orders" (by_key "orderId" (VStr "ORD-B"))
      orders_under_old_key = (Ok (Some it'), w1)
    ∧ files w1 !! "orders" = Some (stored secret_config (DArr [it'])).
Proof.
  destruct (insert_after_failed_read db_order "orders" (by_key "orderId" (VStr "ORD-B"))
              (DStr (Sealed "00" "00" (JsonText (DArr [order_A "pending"]))))
              orders_under_old_key eq_refl)
    as (it' & w1 & _ & Hins & Hf & _);
    [discriminate|reflexivity|reflexivity|reflexivity
    |right; split; reflexivity|reflexivity|].
  exists it', w1. exact (conj Hins Hf).
Defined.

(** ** DatabaseManager: the two searches *)





(** ** DatabaseManager: clearCache *)

Lemma readData_cold h dbName raw d w :
  DatabaseManager.known dbName = true → caches w !! (h, dbName) = None →
  files w !! dbName = Some raw → decoded (config w) raw = Some d →
  hd false (io_faults w) = false →
  DatabaseManager.readData h dbName w
    = (Ok d, set_caches (<[(h, dbName) := d]> (caches w)) (after_fs_call w)).
Proof.
  intros Hk Hc Hf Hdec Hio.
  unfold DatabaseManager.readData, DatabaseManager.cache_get, fs_pathExists,
    fs_readJson, fs_fault, SecurityManager.decrypt, JSON_parse,
    DatabaseManager.cache_set, decoded, after_fs_call in *.
  run_monad. rewrite Hc, Hk.
  destruct w as [cfg fl ca io t en gw]; simpl in *.
  rewrite Hf. simpl.
  destruct io as [|[] io]; simpl in *; rewrite ?Hf; try done.
  all: destruct raw as [l|o|s|n]; simpl in *; try (by simplify_eq).
  all: destruct (ENCRYPTION cfg); simpl; [|by simplify_eq].
  all: destruct (SecurityManager.key_ok cfg); simpl; [|done].
  all: destruct s as [s|d'|k iv [s|d'|k' iv' p']]; simpl; try done.
  all: destruct (String.eqb k (ENCRYPTION_KEY cfg) && String.eqb iv (ENCRYPTION_IV cfg))
         eqn:Hkiv; simpl; try done.
  all: destruct (serializable d'); simpl; try done.
  all: by simplify_eq.
Qed.

(** X7. After [clearCache], with or without the name of the collection,
    the next read of a collection answers with what its file holds now,
    whatever the cache held before. *)
Theorem clearCache_then_read h dbName raw d w :
  nominal w = true → DatabaseManager.known dbName = true →
  files w !! dbName = Some raw → decoded (config w) raw = Some d →
  (DatabaseManager.readData h dbName (DatabaseManager.clearCache h None w).2).1 = Ok d
  ∧ (DatabaseManager.readData h dbName
       (DatabaseManager.clearCache h (Some dbName) w).2).1 = Ok d.
Proof.
  intros Hn Hk Hf Hdec. destruct (nominal_inv _ Hn) as [Hio _].
  unfold DatabaseManager.clearCache, modify. cbn [snd].
  split.
  - erewrite readData_cold; world_simpl; try done.
    + apply map_lookup_filter_None. right. intros x _ Hx. by apply Hx.
    + by rewrite Hio.
  - erewrite readData_cold; world_simpl; try done.
    + apply lookup_delete_eq.
    + by rewrite Hio.
Qed.

(** ** DatabaseManager: update *)

Lemma update_run h dbName (query : item) updates l w w0 :
  DatabaseManager.readData h dbName w = (Ok (DArr l), w0) →
  nominal w0 = true → DatabaseManager.known dbName = true →
  DatabaseManager.update h dbName query updates w =
    (Ok (existsb (matches query) l),
     if existsb (matches query) l
     then commit h dbName (DArr (patched query updates (now w0) l)) w0
     else w0).
Proof.
  intros Hr Hn Hk. unfold DatabaseManager.update. run_monad. rewrite Hr.
  fold (patched query updates (now w0) l).
  destruct (existsb (matches query) l); [|done].
  by rewrite writeData_run, nominal_write_goes_through by done.
Qed.

Lemma update_exact h dbName (query : item) updates l w :
  warm h dbName l w → nominal w = true → DatabaseManager.known dbName = true →
  DatabaseManager.update h dbName query updates w =
    (Ok (existsb (matches query) l),
     if existsb (matches query) l
     then commit h dbName (DArr (patched query updates (now w) l)) w
     else w).
Proof. intros Hw. apply update_run. by apply readData_hit. Qed.

(** X8. In the nominal environment [update] answers whether some record
    matched, and rewrites every record that matches the query, not the
    first one only: afterwards the array has the same length, each
    matching record is the old one overlaid with [updates] and stamped,
    and each other record is as it was. Nothing is written when nothing
    matched. *)
Theorem update_rewrites_every_match h dbName (query : item) updates w l w0 :
  nominal w = true → DatabaseManager.known dbName = true →
  DatabaseManager.readData h dbName w = (Ok (DArr l), w0) →
  ∃ w1 l',
    DatabaseManager.update h dbName query updates w
      = (Ok (existsb (matches query) l), w1)
    ∧ DatabaseManager.readData h dbName w1 = (Ok (DArr l'), w1)
    ∧ length l' = length l
    ∧ (∀ (i : nat) o, l !! i = Some o →
         l' !! i = Some (if matches query o
                         then DatabaseManager.patch (now w) updates o else o))
    ∧ (existsb (matches query) l = true →
       files w1 !! dbName = Some (stored (config w) (DArr l')))
    ∧ (existsb (matches query) l = false → files w1 = files w).
Proof.
  intros Hn Hk Hr.
  destruct (readData_nominal _ _ _ _ _ Hn Hr) as (Hn0 & Hc0 & Hf0 & Ht0 & _ & _ & _ & Hr0 & _).
  rewrite (update_run _ _ _ _ _ _ _ Hr Hn0 Hk). rewrite Ht0.
  eexists _, (patched query updates (now w) l). split; [reflexivity|].
  assert (∀ (i : nat) o, l !! i = Some o →
            patched query updates (now w) l !! i
            = Some (if matches query o
                    then DatabaseManager.patch (now w) updates o else o)) as Hlook.
  { intros i o Hi. unfold patched. by rewrite list_lookup_fmap, Hi. }
  destruct (existsb (matches query) l) eqn:He.
  - split; [apply readData_hit, warm_commit|].
    split; [unfold patched; apply length_map|].
    split; [done|]. split; [|done]. intros _.
    destruct (commit_fields h dbName (DArr (patched query updates (now w) l)) w0)
      as (_ & -> & _).
    by rewrite lookup_insert_eq, Hc0.
  - rewrite patched_no_match by done. split; [done|]. split; [done|].
    split; [|done]. intros i o Hi. specialize (Hlook i o Hi).
    by rewrite patched_no_match in Hlook.
Qed.

(** ** DatabaseManager: initDatabase *)

Lemma known_elem dbName :
  dbName ∈ DatabaseManager.databases → DatabaseManager.known dbName = true.
Proof. intros H. unfold DatabaseManager.known. by apply bool_decide_eq_true. Qed.

Lemma init_fold_lookup cfg t names (σ : gmap string data) n :
  fold_left (init_step cfg t) names σ !! n
  = match σ !! n with
    | Some raw => Some raw
    | None => if bool_decide (n ∈ names)
              then Some (stored cfg (default_data n t)) else None
    end.
Proof.
  revert σ. induction names as [|x names IH]; intros σ; simpl.
  { by destruct (σ !! n). }
  rewrite IH. unfold init_step.
  destruct (decide (x = n)) as [->|Hne].
  - destruct (σ !! n) eqn:Hn; [by rewrite Hn|].
    rewrite lookup_insert_eq. rewrite bool_decide_eq_true_2; [done|]. by left.
  - assert ((match σ !! x with
             | Some _ => σ
             | None => <[x := stored cfg (default_data x t)]> σ
             end) !! n = σ !! n) as ->.
    { destruct (σ !! x); [done|]. by apply lookup_insert_ne. }
    destruct (σ !! n); [done|].
    destruct (decide (n ∈ names)) as [Hin|Hnin].
    + rewrite !bool_decide_eq_true_2; [done|by right|done].
    + rewrite !bool_decide_eq_false_2; [done| |done].
      intros [?|?]%elem_of_cons; by simplify_eq.
Qed.

Lemma fs_ensureDir_nominal w : io_faults w = [] → fs_ensureDir w = (Ok tt, w).
Proof. intros H. unfold fs_ensureDir, fs_fault. run_monad. by rewrite H. Qed.

Lemma initDatabase_run h w :
  nominal w = true →
  ∃ w', DatabaseManager.initDatabase h w = (Ok tt, w')
    ∧ nominal w' = true ∧ config w' = config w ∧ now w' = now w
    ∧ files w'
      = fold_left (init_step (config w) (now w)) DatabaseManager.databases (files w).
Proof.
  intros Hn. destruct (nominal_inv _ Hn) as [Hio Hcr].
  unfold DatabaseManager.initDatabase. run_monad.
  do 3 (rewrite fs_ensureDir_nominal by done; cbv beta iota).
  match goal with |- context [for_of ?l ?body tt w] =>
    destruct (for_of_fold
                (λ w' σ, nominal w' = true ∧ config w' = config w ∧ now w' = now w
                         ∧ files w' = σ)
                (init_step (config w) (now w)) l body)
      with (acc := tt) (w := w) (σ := files w)
      as (acc' & w' & Hrun & Hn' & Hc' & Ht' & Hf')
  end.
  - intros x acc w1 σ Hx (Hn1 & Hc1 & Ht1 & Hf1).
    unfold fs_pathExists. run_monad. unfold init_step. rewrite <- Hf1.
    destruct (files w1 !! x) as [raw|] eqn:Hfx.
    + rewrite bool_decide_eq_true_2 by done. simpl. by eexists _, _.
    + rewrite bool_decide_eq_false_2 by (by intros [? ?]). simpl.
      rewrite getDefaultData_run, writeData_run,
        nominal_write_goes_through
        by (done || (by apply known_elem)
            || (apply default_data_serializable; by apply known_elem)).
      eexists _, _. split; [reflexivity|].
      destruct (commit_fields h x (default_data x (now w1)) w1)
        as (Hcc & Hcf & _ & Hct & _).
      split; [by apply nominal_commit|]. rewrite Hcc, Hct, Hcf.
      by rewrite Hc1, Ht1.
  - done.
  - rewrite Hrun. destruct acc'. by exists w'.
Qed.

(** X9. In the nominal environment [initDatabase] returns normally and
    gives every collection of the store a file: a file that is there
    stays as it is, a missing one is created with the default content;
    files of other names are not touched. Running it again changes no
    file. *)
Theorem initDatabase_creates_missing_files h w :
  nominal w = true →
  ∃ w',
    DatabaseManager.initDatabase h w = (Ok tt, w')
    ∧ (∀ dbName,
         files w' !! dbName
         = match files w !! dbName with
           | Some raw => Some raw
           | None => if DatabaseManager.known dbName
                     then Some (stored (config w) (default_data dbName (now w)))
                     else None
           end)
    ∧ files (DatabaseManager.initDatabase h w').2 = files w'.
Proof.
  intros Hn.
  destruct (initDatabase_run h w Hn) as (w' & Hrun & Hn' & Hc' & Ht' & Hf').
  exists w'. split; [done|].
  assert (∀ dbName,
            files w' !! dbName
            = match files w !! dbName with
              | Some raw => Some raw
              | None => if DatabaseManager.known dbName
                        then Some (stored (config w) (default_data dbName (now w)))
                        else None
              end) as Hlook.
  { intros dbName. rewrite Hf'. apply init_fold_lookup. }
  split; [done|].
  destruct (initDatabase_run h w' Hn') as (w'' & Hrun' & _ & _ & _ & Hf'').
  rewrite Hrun'. cbn [snd]. rewrite Hf''.
  apply map_eq. intros n. rewrite init_fold_lookup.
  destruct (files w' !! n) eqn:Hn1; [done|].
  rewrite Hlook in Hn1. unfold DatabaseManager.known in Hn1.
  destruct (files w !! n); [done|].
  by destruct (bool_decide (n ∈ DatabaseManager.databases)).
Qed.

Lemma initDatabase_creates_missing_files_witness :
  ∃ w',
    DatabaseManager.initDatabase db_main pending_order_world = (Ok tt, w')
    ∧ files w' !! "orders" = Some (DArr [order_A "pending"])
    ∧ files w' !! "users" = Some (DArr []).
Proof.
  destruct (initDatabase_creates_missing_files db_main pending_order_world eq_refl)
    as (w' & Hrun & Hlook & _).
  exists w'. split; [exact Hrun|].
  split; [exact (Hlook "orders")|exact (Hlook "users")].
Defined.

Lemma clearCache_then_read_witness :
  (DatabaseManager.readData db_user "orders" stale_cache_world).1 = Ok (DArr [])
  ∧ (DatabaseManager.readData db_user "orders"
       (DatabaseManager.clearCache db_user None stale_cache_world).2).1
    = Ok (DArr [order_A "pending"]).
Proof.
  split; [reflexivity|].
  exact (proj1 (clearCache_then_read db_user "orders" (DArr [order_A "pending"])
                  (DArr [order_A "pending"]) stale_cache_world
                  eq_refl eq_refl eq_refl eq_refl)).
Defined.

Lemma update_rewrites_every_match_witness :
  ∃ w1 l',
    DatabaseManager.update db_order "orders" (by_key "userId" (VNum 7))
      (by_key "status" (VStr "cancelled")) two_orders_world = (Ok true, w1)
    ∧ DatabaseManager.readData db_order "orders" w1 = (Ok (DArr l'), w1)
    ∧ length l' = 2%nat.
Proof.
  assert (DatabaseManager.readData db_order "orders" two_orders_world
          = (Ok (DArr [order_B "pending" 500; order_A "pending"]),
             (DatabaseManager.readData db_order "orders" two_orders_world).2)) as Hr
    by (vm_compute; reflexivity).
  destruct (update_rewrites_every_match db_order "orders" (by_key "userId" (VNum 7))
              (by_key "status" (VStr "cancelled")) two_orders_world _ _
              eq_refl eq_refl Hr)
    as (w1 & l' & Hup & Hread & Hlen & _).
  exists w1, l'. split; [exact Hup|]. split; [exact Hread|]. exact Hlen.
Defined.

(** ** Lookups and updates by key, in the nominal environment *)

Lemma commit_facts h dbName d w :
  nominal w = true →
  nominal (commit h dbName d w) = true
  ∧ config (commit h dbName d w) = config w
  ∧ now (commit h dbName d w) = now w
  ∧ entropy (commit h dbName d w) = entropy w
  ∧ gateway_up (commit h dbName d w) = gateway_up w
  ∧ caches (commit h dbName d w) !! (h, dbName) = Some d
  ∧ (∀ k, k ≠ (h, dbName) → caches (commit h dbName d w) !! k = caches w !! k)
  ∧ files (commit h dbName d w) !! dbName = Some (stored (config w) d)
  ∧ (∀ n, n ≠ dbName → files (commit h dbName d w) !! n = files w !! n).
Proof.
  intros Hn.
  destruct (commit_fields h dbName d w) as (Hc & Hf & Hca & Ht & He & Hg & Hio).
  split; [by apply nominal_commit|]. do 4 (split; [done|]).
  rewrite Hca, Hf.
  split; [apply lookup_insert_eq|].
  split; [intros k Hk; by apply lookup_insert_ne|].
  split; [apply lookup_insert_eq|].
  intros n Hne. by apply lookup_insert_ne.
Qed.

Lemma warm_commit_other h dbName d h' dbName' l w :
  (h', dbName') ≠ (h, dbName) → warm h' dbName' l w →
  warm h' dbName' l (commit h dbName d w).
Proof.
  intros Hne Hw. unfold warm.
  destruct (commit_fields h dbName d w) as (_ & _ & -> & _).
  by rewrite lookup_insert_ne.
Qed.

Lemma findOne_found_nominal h dbName (query : item) w o w1 :
  nominal w = true →
  DatabaseManager.findOne h dbName query w = (Ok (Some o), w1) →
  ∃ l, warm h dbName l w1 ∧ List.find (matches query) l = Some o
    ∧ nominal w1 = true ∧ config w1 = config w ∧ now w1 = now w
    ∧ files w1 = files w ∧ entropy w1 = entropy w ∧ gateway_up w1 = gateway_up w
    ∧ ∀ k, k ≠ (h, dbName) → caches w1 !! k = caches w !! k.
Proof.
  intros Hn. unfold DatabaseManager.findOne. run_monad.
  destruct (DatabaseManager.readData h dbName w) as [[[l|?|?|?]|e] w'] eqn:Hr;
    intros H; simplify_eq.
  exists l. assert (l ≠ []) as Hl by (by intros ->).
  destruct (readData_found_warm _ _ _ _ _ Hr Hl) as (Hw & _).
  destruct (readData_nominal _ _ _ _ _ Hn Hr) as (?&?&?&?&?&?&?&_).
  done.
Qed.

Lemma findOne_files h dbName (query : item) w r w1 :
  DatabaseManager.findOne h dbName query w = (r, w1) → files w1 = files w.
Proof.
  unfold DatabaseManager.findOne. run_monad.
  destruct (readData_inv h dbName w) as (d & w' & -> & _ & Hf & _).
  destruct d; intros; by simplify_eq.
Qed.

Lemma find_matches {A} (f : A → bool) l o : List.find f l = Some o → f o = true.
Proof. intros H. by destruct (find_some _ _ H). Qed.

Lemma update_found_exact h dbName key id updates l o w :
  warm h dbName l w → nominal w = true → DatabaseManager.known dbName = true →
  List.find (matches (by_key key id)) l = Some o →
  key ≠ "updatedAt" → updates !! key = None →
  DatabaseManager.update h dbName (by_key key id) updates w
    = (Ok true,
       commit h dbName (DArr (patched (by_key key id) updates (now w) l)) w)
  ∧ List.find (matches (by_key key id)) (patched (by_key key id) updates (now w) l)
    = Some (DatabaseManager.patch (now w) updates o).
Proof.
  intros Hw Hn Hk Hfind Hkey Hup.
  rewrite (update_exact _ _ _ _ _ _ Hw Hn Hk).
  rewrite (find_existsb _ _ _ Hfind). split; [done|].
  apply find_patched; [done|].
  rewrite matches_by_key_patch by done. by apply (find_matches _ l).
Qed.

(** ** Operations on an id that no record carries *)

(** X10. When no record carries the id, the operations of the four
    managers that start with a lookup fail and write nothing: the order
    operations answer 'Order not found', [updateBalance] 'User not
    found', [updateStock] 'Product not found', the deposit operations
    'Deposit not found', and the counters answer [false]. *)
Theorem unknown_id_fails_without_writing scrub orderId userId productId depositId
    who reason amount type quantity operation w wo wu wp wd :
  OrderManager.getOrder orderId w = (Ok None, wo) →
  UserManager.getUser userId w = (Ok None, wu) →
  ProductManager.getProduct productId w = (Ok None, wp) →
  PaymentManager.getDeposit depositId w = (Ok None, wd) →
  (OrderManager.approveOrder orderId who w = (Ok (Failure "Order not found"), wo)
   ∧ OrderManager.rejectOrder orderId reason who w = (Ok (Failure "Order not found"), wo)
   ∧ OrderManager.completeOrder orderId w = (Ok (Failure "Order not found"), wo)
   ∧ OrderManager.cancelOrder orderId reason w = (Ok (Failure "Order not found"), wo)
   ∧ files wo = files w)
  ∧ (UserManager.updateBalance userId amount type w
       = (Ok (Failure "User not found"), wu)
     ∧ UserManager.incrementOrderCount userId w = (Ok false, wu)
     ∧ UserManager.addDepositHistory userId amount w = (Ok false, wu)
     ∧ UserManager.getUserStats userId w = (Ok None, wu)
     ∧ files wu = files w)
  ∧ (ProductManager.updateStock scrub productId quantity operation w
       = (Ok (Failure "Product not found"), wp)
     ∧ ProductManager.checkStock productId quantity w = (Ok false, wp)
     ∧ ProductManager.incrementSalesCount scrub productId w = (Ok false, wp)
     ∧ ProductManager.incrementViewCount scrub productId w = (Ok false, wp)
     ∧ files wp = files w)
  ∧ (PaymentManager.approveDeposit depositId who w
       = (Ok (Failure "Deposit not found"), wd)
     ∧ PaymentManager.rejectDeposit depositId reason who w
       = (Ok (Failure "Deposit not found"), wd)
     ∧ files wd = files w).
Proof.
  intros Ho Hu Hp Hd.
  unfold OrderManager.approveOrder, OrderManager.rejectOrder,
    OrderManager.completeOrder, OrderManager.cancelOrder,
    UserManager.updateBalance, UserManager.incrementOrderCount,
    UserManager.addDepositHistory, UserManager.getUserStats,
    ProductManager.updateStock, ProductManager.checkStock,
    ProductManager.incrementSalesCount, ProductManager.incrementViewCount,
    PaymentManager.approveDeposit, PaymentManager.rejectDeposit.
  run_monad. rewrite Ho, Hu, Hp, Hd.
  rewrite getOrder_run in Ho. rewrite getUser_run in Hu.
  rewrite getProduct_run in Hp. rewrite getDeposit_run in Hd.
  apply findOne_files in Ho, Hu, Hp, Hd.
  done.
Qed.

Lemma unknown_id_fails_without_writing_witness :
  (OrderManager.cancelOrder (VStr "ORD-Z") (VStr "late") two_orders_world).1
    = Ok (Failure "Order not found")
  ∧ (UserManager.updateBalance (VNum 8) (VNum 100) "add" two_orders_world).1
    = Ok (Failure "User not found").
Proof.
  assert (OrderManager.getOrder (VStr "ORD-Z") two_orders_world
          = (Ok None, (OrderManager.getOrder (VStr "ORD-Z") two_orders_world).2)) as Ho
    by (vm_compute; reflexivity).
  assert (UserManager.getUser (VNum 8) two_orders_world
          = (Ok None, (UserManager.getUser (VNum 8) two_orders_world).2)) as Hu
    by (vm_compute; reflexivity).
  assert (ProductManager.getProduct (VStr "p") two_orders_world
          = (Ok None, (ProductManager.getProduct (VStr "p") two_orders_world).2)) as Hp
    by (vm_compute; reflexivity).
  assert (PaymentManager.getDeposit (VStr "d") two_orders_world
          = (Ok None, (PaymentManager.getDeposit (VStr "d") two_orders_world).2)) as Hd
    by (vm_compute; reflexivity).
  destruct (unknown_id_fails_without_writing (λ s, s) (VStr "ORD-Z") (VNum 8) (VStr "p")
              (VStr "d") (VNum 1) (VStr "late") (VNum 100) "add" (VNum 1) "set"
              two_orders_world _ _ _ _ Ho Hu Hp Hd)
    as ((_ & _ & _ & Hc & _) & (Hb & _) & _).
  split; [by rewrite Hc|by rewrite Hb].
Defined.

(** ** The counts of the two sweeps *)

Lemma for_of_count {A} (step : Z → A → Z) (xs : list A) (body : A → Z → M Z) :
  (∀ x acc w, x ∈ xs → ∃ w', body x acc w = (Ok (step acc x), w')) →
  ∀ acc w, ∃ w', for_of xs body acc w = (Ok (fold_left step xs acc), w').
Proof.
  induction xs as [|x xs IH]; intros Hbody acc w; simpl.
  { by eexists. }
  destruct (Hbody x acc w) as (w' & Hb); [by left|].
  run_monad. rewrite Hb.
  apply IH. intros y acc' w'' Hy. apply Hbody. by right.
Qed.

Lemma count_fold t l acc :
  fold_left (count_step t) l acc
  = acc + Z.of_nat (length (List.filter (overdue t) l)).
Proof.
  revert acc. induction l as [|x l IH]; intros acc; simpl; [lia|].
  rewrite IH. unfold count_step. destruct (overdue t x); simpl; lia.
Qed.

Lemma readData_now h dbName w d w0 :
  DatabaseManager.readData h dbName w = (Ok d, w0) → now w0 = now w.
Proof.
  intros Hr. destruct (readData_inv h dbName w) as (d' & w' & H & _ & _ & Ht & _).
  rewrite Hr in H. by simplify_eq.
Qed.

(** X11. Each of the two sweeps answers with the number of records of
    the array it read that are pending and past their expiry at the
    clock of the sweep; it counts a record whether or not the
    cancellation or the update that it starts for it changes anything. *)
Theorem sweeps_count_the_overdue w lo wo ld wd :
  DatabaseManager.readData db_order "orders" w = (Ok (DArr lo), wo) →
  DatabaseManager.readData db_payment "deposits" w = (Ok (DArr ld), wd) →
  (OrderManager.cleanupExpiredOrders w).1
    = Ok (Z.of_nat (length (List.filter (overdue (now w)) lo)))
  ∧ (PaymentManager.cleanupExpiredDeposits w).1
    = Ok (Z.of_nat (length (List.filter (overdue (now w)) ld))).
Proof.
  intros Ho Hd. split.
  - unfold OrderManager.cleanupExpiredOrders. run_monad. rewrite Ho.
    rewrite (readData_now _ _ _ _ _ Ho).
    match goal with |- context [for_of lo ?body 0 wo] =>
      destruct (for_of_count (count_step (now w)) lo body) with (acc := 0) (w := wo)
        as (w' & ->)
    end.
    + intros x acc w1 _. unfold count_step, overdue.
      destruct (strict_eq (prop x "status") (VStr "pending")
                && truthy (prop x "expiresAt")); simpl; [|by eexists].
      destruct (OrderManager.past (now w) (prop x "expiresAt")); [|by eexists].
      destruct (cancelOrder_never_throws (prop x "orderId") (VStr "Order expired") w1)
        as (r & w' & ->).
      by eexists.
    + simpl. by rewrite count_fold.
  - unfold PaymentManager.cleanupExpiredDeposits. run_monad. rewrite Hd.
    rewrite (readData_now _ _ _ _ _ Hd).
    match goal with |- context [for_of ld ?body 0 wd] =>
      destruct (for_of_count (count_step (now w)) ld body) with (acc := 0) (w := wd)
        as (w' & ->)
    end.
    + intros x acc w1 _. unfold count_step, overdue.
      destruct (strict_eq (prop x "status") (VStr "pending")
                && truthy (prop x "expiresAt")); simpl; [|by eexists].
      destruct (OrderManager.past (now w) (prop x "expiresAt")); [|by eexists].
      destruct (truthy (prop x "externalId"));
        [destruct (cancelQRISPayment_run (prop x "externalId") w1) as [r Hr]; rewrite Hr|];
        (match goal with
         | |- context [PaymentManager.updateDeposit ?i ?u ?W] =>
             destruct (updateDeposit_never_throws i u W) as (r' & w' & ->)
         end);
        by eexists.
    + simpl. by rewrite count_fold.
Qed.

Lemma sweeps_count_the_overdue_witness :
  (OrderManager.cleanupExpiredOrders two_orders_world).1 = Ok 1
  ∧ (PaymentManager.cleanupExpiredDeposits two_orders_world).1 = Ok 1.
Proof.
  assert (DatabaseManager.readData db_order "orders" two_orders_world
          = (Ok (DArr [order_B "pending" 500; order_A "pending"]),
             (DatabaseManager.readData db_order "orders" two_orders_world).2)) as Ho
    by (vm_compute; reflexivity).
  assert (DatabaseManager.readData db_payment "deposits" two_orders_world
          = (Ok (DArr [deposit_D "pending" 500]),
             (DatabaseManager.readData db_payment "deposits" two_orders_world).2)) as Hd
    by (vm_compute; reflexivity).
  exact (sweeps_count_the_overdue two_orders_world _ _ _ _ Ho Hd).
Defined.

(** ** createOrder *)

Ltac prop_lookup :=
  unfold prop;
  repeat first [ rewrite lookup_insert_eq
               | rewrite lookup_insert_ne by done
               | rewrite lookup_empty ];
  try reflexivity.

Lemma draw_run w :
  draw w = (Ok (hd "" (entropy w)), set_entropy (tail (entropy w)) w).
Proof. unfold draw. destruct w as [cfg fl ca io t en gw]. by destruct en. Qed.

Lemma readData_set_entropy h dbName e w :
  DatabaseManager.readData h dbName (set_entropy e w)
  = ((DatabaseManager.readData h dbName w).1,
     set_entropy e (DatabaseManager.readData h dbName w).2).
Proof.
  destruct (caches w !! (h, dbName)) as [d|] eqn:Hc.
  { rewrite (readData_hit _ _ d w) by done. by rewrite (readData_hit _ _ d). }
  unfold DatabaseManager.readData, DatabaseManager.cache_get, fs_pathExists,
    fs_readJson, fs_fault, SecurityManager.decrypt, JSON_parse,
    DatabaseManager.cache_set.
  run_monad. world_simpl. rewrite Hc.
  destruct w as [cfg fl ca io t en gw]; simpl in *.
  assert (∀ w0 : World, now w0 = t →
            DatabaseManager.getDefaultData dbName w0 = (Ok (default_data dbName t), w0))
    as Hdef by (intros w0 <-; apply getDefaultData_run).
  destruct (DatabaseManager.known dbName); simpl;
    [|destruct (DatabaseManager.inherited dbName); simpl; by rewrite !Hdef].
  destruct (fl !! dbName) as [raw|] eqn:Hf; simpl; [|by rewrite !Hdef].
  destruct io as [|[] io]; simpl; rewrite ?Hf, ?Hdef by done; try done;
    (destruct raw as [l|o|s|n]; simpl; rewrite ?Hdef by done; try done);
    (destruct (ENCRYPTION cfg); simpl; [|done]);
    (destruct (SecurityManager.key_ok cfg); simpl; rewrite ?Hdef by done; [|done]);
    (destruct s as [s|d'|k iv [s|d'|k' iv' p']]; simpl; rewrite ?Hdef by done;
     try done);
    (destruct (String.eqb k (ENCRYPTION_KEY cfg) && String.eqb iv (ENCRYPTION_IV cfg));
     simpl; rewrite ?Hdef by done; try done);
    (destruct (serializable d'); simpl; rewrite ?Hdef by done; done).
Qed.

Lemma find_app_last {A} (f : A → bool) l x :
  List.find f l = None → f x = true → List.find f (l ++ [x]) = Some x.
Proof.
  induction l as [|y l IH]; simpl; intros Hl Hx; [by rewrite Hx|].
  destruct (f y); [done|]. by apply IH.
Qed.

Lemma strict_eq_refl_str s : strict_eq (VStr s) (VStr s) = true.
Proof. apply String.eqb_refl. Qed.

Lemma createOrder_run orderData w l w0 :
  nominal w = true →
  DatabaseManager.readData db_order "orders" w = (Ok (DArr l), w0) →
  ∃ w1,
    let order := inserted (new_order orderData (VStr ("ORD-" +:+ hd "" (entropy w))) (now w))
                   (VStr (hd "" (tail (entropy w)))) (now w) in
    OrderManager.createOrder orderData w = (Ok (Success order), w1)
    ∧ warm db_order "orders" (l ++ [order]) w1
    ∧ files w1 = <["orders" := stored (config w) (DArr (l ++ [order]))]> (files w)
    ∧ nominal w1 = true ∧ config w1 = config w ∧ now w1 = now w
    ∧ entropy w1 = tail (tail (entropy w))
    ∧ gateway_up w1 = gateway_up w
    ∧ ∀ k, k ≠ (db_order, "orders") → caches w1 !! k = caches w !! k.
Proof.
  intros Hn Hr.
  destruct (readData_nominal _ _ _ _ _ Hn Hr) as (Hn0 & Hc0 & Hf0 & Ht0 & He0 & Hg0 & Hca0 & _).
  unfold OrderManager.createOrder, SecurityManager.generateOrderId. run_monad.
  rewrite draw_run. world_simpl.
  fold (new_order orderData (VStr ("ORD-" +:+ hd "" (entropy w))) (now w)).
  set (order := new_order _ _ _).
  assert (DatabaseManager.readData db_order "orders" (set_entropy (tail (entropy w)) w)
          = (Ok (DArr l), set_entropy (tail (entropy w)) w0)) as Hr'
    by (by rewrite readData_set_entropy, Hr).
  destruct (insert_run db_order "orders" order l _ _ Hr')
    as (w1 & Hins & Hw1 & Hf1 & Hn1 & Hc1 & Ht1 & He1 & Hg1 & Hca1);
    [by apply (nominal_transfer w0)|done|].
  assert (truthy (prop order "id") = false) as Hid by (subst order; unfold new_order; prop_lookup).
  unfold insert_id in *. rewrite Hid in *. world_simpl.
  rewrite Ht0 in *. rewrite Hins. cbn [default].
  exists w1. split; [done|]. split; [done|].
  split; [by rewrite Hf1, Hf0, Hc0|].
  split; [done|]. split; [by rewrite Hc1|]. split; [done|]. split; [done|].
  split; [by rewrite Hg1|].
  intros k Hk. rewrite Hca1 by done. by apply Hca0.
Qed.

(** X12. In the nominal environment [createOrder] stores a pending,
    unpaid order that expires one hour after the clock, with the user,
    product and amount it was given, under the id it drew; when no older
    order carries that id, [getOrder] with the id finds exactly the order
    that was answered. *)
Theorem createOrder_then_getOrder orderData w l w0 :
  nominal w = true →
  DatabaseManager.readData db_order "orders" w = (Ok (DArr l), w0) →
  List.find (matches (by_key "orderId" (VStr ("ORD-" +:+ hd "" (entropy w))))) l = None →
  ∃ order w1,
    OrderManager.createOrder orderData w = (Ok (Success order), w1)
    ∧ prop order "orderId" = VStr ("ORD-" +:+ hd "" (entropy w))
    ∧ prop order "status" = VStr "pending"
    ∧ prop order "paymentStatus" = VStr "unpaid"
    ∧ prop order "userId" = prop orderData "userId"
    ∧ prop order "productId" = prop orderData "productId"
    ∧ prop order "amount" = prop orderData "amount"
    ∧ prop order "expiresAt" = VTime (now w + 3600000)
    ∧ OrderManager.getOrder (prop order "orderId") w1 = (Ok (Some order), w1)
    ∧ files w1 !! "orders" = Some (stored (config w) (DArr (l ++ [order]))).
Proof.
  intros Hn Hr Hfresh.
  destruct (createOrder_run orderData w l w0 Hn Hr) as (w1 & Hrun & Hw1 & Hf1 & _).
  cbn zeta in Hrun, Hw1, Hf1.
  set (order := inserted _ _ _) in *.
  assert (∀ key, key ≠ "id" → key ≠ "createdAt" → key ≠ "updatedAt" →
            prop order key
            = prop (new_order orderData (VStr ("ORD-" +:+ hd "" (entropy w))) (now w)) key)
    as Hprop by (intros; by apply prop_inserted_other).
  assert (prop order "orderId" = VStr ("ORD-" +:+ hd "" (entropy w))) as Hoid
    by (rewrite Hprop by done; unfold new_order; prop_lookup).
  exists order, w1. split; [done|]. split; [done|].
  do 6 (split; [rewrite Hprop by done; unfold new_order; prop_lookup|]).
  split.
  - rewrite getOrder_run, (findOne_warm _ _ _ _ _ Hw1), Hoid.
    rewrite find_app_last; [done|done|].
    rewrite matches_by_key, Hoid. apply strict_eq_refl_str.
  - rewrite Hf1. apply lookup_insert_eq.
Qed.

Lemma createOrder_then_getOrder_witness :
  ∃ order w1,
    OrderManager.createOrder (by_key "userId" (VNum 7)) (shop_world 10000 [])
      = (Ok (Success order), w1)
    ∧ prop order "orderId" = VStr "ORD-k1"
    ∧ OrderManager.getOrder (VStr "ORD-k1") w1 = (Ok (Some order), w1).
Proof.
  assert (DatabaseManager.readData db_order "orders" (shop_world 10000 [])
          = (Ok (DArr []),
             (DatabaseManager.readData db_order "orders" (shop_world 10000 [])).2)) as Hr
    by (vm_compute; reflexivity).
  destruct (createOrder_then_getOrder (by_key "userId" (VNum 7)) (shop_world 10000 [])
              _ _ eq_refl Hr eq_refl)
    as (order & w1 & Hrun & Hid & _ & _ & _ & _ & _ & _ & Hget & _).
  exists order, w1. split; [exact Hrun|]. split; [exact Hid|].
  rewrite Hid in Hget. exact Hget.
Defined.

(** ** createUser *)

Lemma findOne_read h dbName (query : item) l w w0 :
  DatabaseManager.readData h dbName w = (Ok (DArr l), w0) →
  DatabaseManager.findOne h dbName query w = (Ok (List.find (matches query) l), w0).
Proof. intros Hr. unfold DatabaseManager.findOne. run_monad. by rewrite Hr. Qed.

Lemma createUser_run userData (n : Z) w l w0 :
  nominal w = true → prop userData "userId" = VNum n → 0 < n →
  DatabaseManager.readData db_user "users" w = (Ok (DArr l), w0) →
  List.find (matches (by_key "userId" (VNum n))) l = None →
  ∃ w1,
    let user := inserted (new_user userData (now w)) (VStr (hd "" (entropy w))) (now w) in
    UserManager.createUser userData w = (Ok (user_reply true "User created" user), w1)
    ∧ warm db_user "users" (l ++ [user]) w1
    ∧ files w1 = <["users" := stored (config w) (DArr (l ++ [user]))]> (files w)
    ∧ nominal w1 = true ∧ config w1 = config w ∧ now w1 = now w.
Proof.
  intros Hn Hid Hpos Hr Hfresh.
  destruct (readData_nominal _ _ _ _ _ Hn Hr)
    as (Hn0 & Hc0 & Hf0 & Ht0 & He0 & Hg0 & Hca0 & Hr0 & _).
  unfold UserManager.createUser. run_monad.
  rewrite Hid. cbn [Validator.isValidUserId].
  assert ((0 <? n) = true) as -> by (by apply Z.ltb_lt). cbn [negb].
  fold (by_key "userId" (VNum n)).
  rewrite (findOne_read _ _ _ _ _ _ Hr), Hfresh.
  rewrite <- Hid. fold (new_user userData (now w0)).
  set (user := new_user userData (now w0)).
  destruct (insert_run db_user "users" user l _ _ Hr0 Hn0 eq_refl)
    as (w1 & Hins & Hw1 & Hf1 & Hn1 & Hc1 & Ht1 & _).
  assert (truthy (prop user "id") = false) as Hnoid
    by (subst user; unfold new_user; prop_lookup).
  unfold insert_id in *. rewrite Hnoid in *.
  rewrite Hins. cbn [default]. subst user. rewrite Ht0, He0 in *.
  exists w1. split; [done|]. split; [done|].
  split; [by rewrite Hf1, Hf0, Hc0|]. split; [done|].
  split; [by rewrite Hc1|done].
Qed.

(** X13. In the nominal environment [createUser] with a positive
    integer id that no stored user carries stores a new user with balance
    0, role 'user' and status 'active'; [getUser] then finds that user,
    and a second [createUser] with the same id answers 'User already
    exists' with that user and writes nothing. *)
Theorem createUser_then_getUser userData (n : Z) w l w0 :
  nominal w = true → prop userData "userId" = VNum n → 0 < n →
  DatabaseManager.readData db_user "users" w = (Ok (DArr l), w0) →
  List.find (matches (by_key "userId" (VNum n))) l = None →
  ∃ user w1,
    UserManager.createUser userData w = (Ok (user_reply true "User created" user), w1)
    ∧ prop user "userId" = VNum n
    ∧ prop user "balance" = VNum 0
    ∧ prop user "role" = VStr "user"
    ∧ prop user "status" = VStr "active"
    ∧ prop user "isBlocked" = VBool false
    ∧ files w1 !! "users" = Some (stored (config w) (DArr (l ++ [user])))
    ∧ UserManager.getUser (VNum n) w1 = (Ok (Some user), w1)
    ∧ UserManager.createUser userData w1
      = (Ok (user_reply false "User already exists" user), w1).
Proof.
  intros Hn Hid Hpos Hr Hfresh.
  destruct (createUser_run userData n w l w0 Hn Hid Hpos Hr Hfresh)
    as (w1 & Hrun & Hw1 & Hf1 & Hn1 & Hc1 & Ht1).
  cbn zeta in Hrun, Hw1, Hf1. set (user := inserted _ _ _) in *.
  assert (∀ key, key ≠ "id" → key ≠ "createdAt" → key ≠ "updatedAt" →
            prop user key = prop (new_user userData (now w)) key)
    as Hprop by (intros; by apply prop_inserted_other).
  assert (prop user "userId" = VNum n) as Huid
    by (rewrite Hprop by done; unfold new_user; by rewrite prop_insert_eq).
  assert (List.find (matches (by_key "userId" (VNum n))) (l ++ [user]) = Some user)
    as Hfind.
  { apply find_app_last; [done|]. rewrite matches_by_key, Huid. apply Z.eqb_refl. }
  exists user, w1. split; [done|]. split; [done|].
  do 4 (split; [rewrite Hprop by done; unfold new_user; prop_lookup|]).
  split; [rewrite Hf1; apply lookup_insert_eq|].
  split; [by rewrite getUser_run, (findOne_warm _ _ _ _ _ Hw1), Hfind|].
  unfold UserManager.createUser. run_monad.
  rewrite Hid. cbn [Validator.isValidUserId].
  assert ((0 <? n) = true) as -> by (by apply Z.ltb_lt). cbn [negb].
  fold (by_key "userId" (VNum n)).
  by rewrite (findOne_warm _ _ _ _ _ Hw1), Hfind.
Qed.

Lemma createUser_then_getUser_witness :
  ∃ user w1,
    UserManager.createUser (by_key "userId" (VNum 8)) user_world
      = (Ok (user_reply true "User created" user), w1)
    ∧ prop user "balance" = VNum 0
    ∧ UserManager.getUser (VNum 8) w1 = (Ok (Some user), w1).
Proof.
  assert (DatabaseManager.readData db_user "users" user_world
          = (Ok (DArr [user_U 10000]),
             (DatabaseManager.readData db_user "users" user_world).2)) as Hr
    by (vm_compute; reflexivity).
  destruct (createUser_then_getUser (by_key "userId" (VNum 8)) 8 user_world _ _
              eq_refl eq_refl eq_refl Hr eq_refl)
    as (user & w1 & Hrun & _ & Hb & _ & _ & _ & _ & Hget & _).
  exists user, w1. exact (conj Hrun (conj Hb Hget)).
Defined.

(** X14. [createUser] refuses, in every world: an id that is not a
    positive integer (0, a negative number, a string of digits) is
    answered with 'Invalid user ID' before anything is read; an id that
    a stored user carries is answered with 'User already exists' and that
    user, and no file changes. *)
Theorem createUser_refuses userData w u w1 :
  (Validator.isValidUserId (prop userData "userId") = false →
   UserManager.createUser userData w = (Ok (error_reply "Invalid user ID"), w))
  ∧ (Validator.isValidUserId (prop userData "userId") = true →
     UserManager.getUser (prop userData "userId") w = (Ok (Some u), w1) →
     UserManager.createUser userData w
       = (Ok (user_reply false "User already exists" u), w1)
     ∧ files w1 = files w).
Proof.
  split.
  - intros Hv. unfold UserManager.createUser. run_monad. by rewrite Hv.
  - intros Hv Hg. unfold UserManager.createUser. run_monad. rewrite Hv. cbn [negb].
    rewrite getUser_run in Hg. unfold by_key in Hg. rewrite Hg.
    split; [done|]. by apply findOne_files in Hg.
Qed.

Lemma createUser_refuses_witness :
  UserManager.createUser (by_key "userId" (VStr "7")) user_world
    = (Ok (error_reply "Invalid user ID"), user_world)
  ∧ (UserManager.createUser (by_key "userId" (VNum 7)) user_world).1
    = Ok (user_reply false "User already exists" (user_U 10000)).
Proof.
  assert (UserManager.getUser (VNum 7) user_world
          = (Ok (Some (user_U 10000)), (UserManager.getUser (VNum 7) user_world).2)) as Hg
    by (vm_compute; reflexivity).
  split.
  - exact (proj1 (createUser_refuses (by_key "userId" (VStr "7")) user_world ∅ user_world)
             eq_refl).
  - destruct (proj2 (createUser_refuses (by_key "userId" (VNum 7)) user_world _ _)
                eq_refl Hg) as [Hrun _].
    by rewrite Hrun.
Defined.

(** ** Lookup, then update by the same key *)

Lemma touches_only_refl h dbName w : nominal w = true → touches_only h dbName w w.
Proof. intros Hn. by repeat split. Qed.

Lemma touches_only_trans h dbName w1 w2 w3 :
  touches_only h dbName w1 w2 → touches_only h dbName w2 w3 →
  touches_only h dbName w1 w3.
Proof.
  intros (_ & Hc & Ht & He & Hg & Hca & Hf) (Hn' & Hc' & Ht' & He' & Hg' & Hca' & Hf').
  split; [done|]. split; [congruence|]. split; [congruence|]. split; [congruence|].
  split; [congruence|].
  split; [intros k Hk; by rewrite Hca', Hca|intros n Hne; by rewrite Hf', Hf].
Qed.

Lemma touches_only_commit h dbName d w :
  nominal w = true → touches_only h dbName w (commit h dbName d w).
Proof.
  intros Hn. destruct (commit_facts h dbName d w Hn) as (?&?&?&?&?&_&?&_&?).
  by repeat split.
Qed.

Lemma touches_only_read h dbName w d w0 :
  nominal w = true → DatabaseManager.readData h dbName w = (Ok d, w0) →
  touches_only h dbName w w0.
Proof.
  intros Hn Hr.
  destruct (readData_nominal _ _ _ _ _ Hn Hr) as (?&?&Hf&?&?&?&?&_).
  repeat split; try done. intros n _. by rewrite Hf.
Qed.

Lemma touches_only_warm h dbName h' dbName' l w w' :
  touches_only h dbName w w' → (h', dbName') ≠ (h, dbName) →
  warm h' dbName' l w → warm h' dbName' l w'.
Proof. intros (_&_&_&_&_&Hca&_) Hne Hw. unfold warm. by rewrite Hca. Qed.

Lemma touches_only_nominal h dbName w w' : touches_only h dbName w w' → nominal w' = true.
Proof. by intros (?&_). Qed.

Lemma update_after_lookup h dbName key id updates w o w1 :
  nominal w = true → DatabaseManager.known dbName = true →
  DatabaseManager.findOne h dbName (by_key key id) w = (Ok (Some o), w1) →
  key ≠ "updatedAt" → updates !! key = None →
  ∃ l w2,
    warm h dbName l w1
    ∧ List.find (matches (by_key key id)) l = Some o
    ∧ DatabaseManager.update h dbName (by_key key id) updates w1 = (Ok true, w2)
    ∧ warm h dbName (patched (by_key key id) updates (now w) l) w2
    ∧ DatabaseManager.findOne h dbName (by_key key id) w2
      = (Ok (Some (DatabaseManager.patch (now w) updates o)), w2)
    ∧ files w2 !! dbName
      = Some (stored (config w) (DArr (patched (by_key key id) updates (now w) l)))
    ∧ touches_only h dbName w w1
    ∧ touches_only h dbName w w2.
Proof.
  intros Hn Hk Hfind Hkey Hup.
  destruct (findOne_found_nominal _ _ _ _ _ _ Hn Hfind)
    as (l & Hw1 & Hf & Hn1 & Hc1 & Ht1 & Hf1 & He1 & Hg1 & Hca1).
  destruct (update_found_exact h dbName key id updates l o w1 Hw1 Hn1 Hk Hf Hkey Hup)
    as [Hu Hf'].
  rewrite Ht1 in *.
  assert (touches_only h dbName w w1) as Htouch1.
  { repeat split; try done. intros n _. by rewrite Hf1. }
  exists l, (commit h dbName (DArr (patched (by_key key id) updates (now w) l)) w1).
  split; [done|]. split; [done|]. split; [done|].
  split; [apply warm_commit|].
  split; [rewrite (findOne_warm _ _ _ _ _ (warm_commit _ _ _ _)); by rewrite Hf'|].
  destruct (commit_facts h dbName (DArr (patched (by_key key id) updates (now w) l)) w1 Hn1)
    as (_&_&_&_&_&_&_&Hfile&_).
  split; [by rewrite Hfile, Hc1|].
  split; [done|].
  apply (touches_only_trans _ _ _ w1); [done|]. by apply touches_only_commit.
Qed.

(** ** updateBalance *)

Lemma updateBalance_run id a ty w u w1 :
  UserManager.getUser id w = (Ok (Some u), w1) →
  UserManager.updateBalance id a ty w =
    match new_balance (prop u "balance") a ty with
    | None => (Ok (Failure "Insufficient balance"), w1)
    | Some nb =>
        (Ok (Success nb),
         (DatabaseManager.update db_user "users" (by_key "userId" id)
            (balance_update nb (now w1)) w1).2)
    end.
Proof.
  intros Hg. unfold UserManager.updateBalance, new_balance. run_monad. rewrite Hg.
  assert (∀ nb, ∃ b w2,
            DatabaseManager.update db_user "users" (by_key "userId" id)
              (<["lastActivity" := VTime (now w1)]> (<["balance" := nb]> ∅)) w1
            = (Ok b, w2)) as Hup
    by (intros nb; apply update_never_throws).
  destruct (String.eqb ty "add"); simpl;
    [rewrite updateUser_run; destruct (Hup (js_add (prop u "balance") a)) as (b & w2 & Hu);
     unfold balance_update; by rewrite Hu|].
  destruct (String.eqb ty "subtract"); simpl.
  { destruct (js_lt (prop u "balance") a); simpl; [done|].
    rewrite updateUser_run; destruct (Hup (js_sub (prop u "balance") a)) as (b & w2 & Hu);
      unfold balance_update; by rewrite Hu. }
  destruct (String.eqb ty "set"); simpl.
  - rewrite updateUser_run; destruct (Hup a) as (b & w2 & Hu);
      unfold balance_update; by rewrite Hu.
  - rewrite updateUser_run; destruct (Hup (prop u "balance")) as (b & w2 & Hu);
      unfold balance_update; by rewrite Hu.
Qed.

Lemma updateBalance_nominal id a ty w u w1 nb :
  nominal w = true →
  UserManager.getUser id w = (Ok (Some u), w1) →
  new_balance (prop u "balance") a ty = Some nb →
  ∃ w2 u',
    UserManager.updateBalance id a ty w = (Ok (Success nb), w2)
    ∧ UserManager.getUser id w2 = (Ok (Some u'), w2)
    ∧ prop u' "balance" = nb
    ∧ (∀ key, key ≠ "balance" → key ≠ "lastActivity" → key ≠ "updatedAt" →
         prop u' key = prop u key)
    ∧ touches_only db_user "users" w w2.
Proof.
  intros Hn Hg Hnb. rewrite (updateBalance_run _ _ _ _ _ _ Hg), Hnb.
  rewrite getUser_run in Hg.
  destruct (update_after_lookup db_user "users" "userId" id
              (balance_update nb (now w)) w u w1 Hn eq_refl Hg)
    as (l & w2 & Hw1 & Hf & Hu & Hw2 & Hfind2 & Hfile & Ht1 & Ht2); [done..|].
  destruct Ht1 as (_ & _ & Hnow1 & _). rewrite Hnow1, Hu. cbn [snd].
  eexists _, _. split; [reflexivity|].
  split; [by rewrite getUser_run|].
  split; [apply prop_patch_set; [done|unfold balance_update; prop_lookup]|].
  split; [|done].
  intros key H1 H2 H3. apply prop_patch_other; [done|].
  unfold balance_update. by rewrite !lookup_insert_ne.
Qed.

(** X15. In the nominal environment, crediting an amount and then
    debiting the same amount gives a user whose balance is not negative
    the balance back: both calls succeed and the stored balance is the
    one before. *)
Theorem add_then_subtract_restores id w u w1 (b a : Z) :
  nominal w = true →
  UserManager.getUser id w = (Ok (Some u), w1) →
  prop u "balance" = VNum b → 0 ≤ b →
  ∃ w2 w3 u',
    UserManager.updateBalance id (VNum a) "add" w = (Ok (Success (VNum (b + a))), w2)
    ∧ UserManager.updateBalance id (VNum a) "subtract" w2 = (Ok (Success (VNum b)), w3)
    ∧ UserManager.getUser id w3 = (Ok (Some u'), w3)
    ∧ prop u' "balance" = VNum b.
Proof.
  intros Hn Hg Hb Hpos.
  destruct (updateBalance_nominal id (VNum a) "add" w u w1 (VNum (b + a)) Hn Hg)
    as (w2 & u2 & Hadd & Hg2 & Hb2 & _ & Ht2).
  { unfold new_balance. by rewrite Hb. }
  destruct (updateBalance_nominal id (VNum a) "subtract" w2 u2 w2 (VNum b)
              (touches_only_nominal _ _ _ _ Ht2) Hg2)
    as (w3 & u3 & Hsub & Hg3 & Hb3 & _).
  { unfold new_balance. rewrite Hb2. unfold js_lt, js_sub. simpl.
    destruct (Z.ltb_spec (b + a) a); [lia|]. do 2 f_equal. lia. }
  by exists w2, w3, u3.
Qed.

Lemma add_then_subtract_restores_witness :
  ∃ w2 w3 u',
    UserManager.updateBalance (VNum 7) (VNum 2500) "add" user_world
      = (Ok (Success (VNum 12500)), w2)
    ∧ UserManager.updateBalance (VNum 7) (VNum 2500) "subtract" w2
      = (Ok (Success (VNum 10000)), w3)
    ∧ UserManager.getUser (VNum 7) w3 = (Ok (Some u'), w3)
    ∧ prop u' "balance" = VNum 10000.
Proof.
  assert (UserManager.getUser (VNum 7) user_world
          = (Ok (Some (user_U 10000)), (UserManager.getUser (VNum 7) user_world).2)) as Hg
    by (vm_compute; reflexivity).
  assert (0 ≤ 10000) as Hpos by lia.
  exact (add_then_subtract_restores (VNum 7) user_world _ _ 10000 2500
           eq_refl Hg eq_refl Hpos).
Defined.

(** X16. Only 'subtract' looks at the balance. In the nominal
    environment 'add' stores balance + amount for every integer amount,
    a negative one too, so that the balance can fall below zero; 'set'
    stores the amount as it is; and any other type name is answered with
    success and the balance it found. *)
Theorem updateBalance_unguarded_types id w u w1 (b a : Z) type :
  nominal w = true →
  UserManager.getUser id w = (Ok (Some u), w1) →
  prop u "balance" = VNum b →
  type ≠ "subtract" →
  ∃ w2 u',
    UserManager.updateBalance id (VNum a) type w
      = (Ok (Success (VNum (if String.eqb type "add" then b + a
                            else if String.eqb type "set" then a else b))), w2)
    ∧ UserManager.getUser id w2 = (Ok (Some u'), w2)
    ∧ prop u' "balance"
      = VNum (if String.eqb type "add" then b + a
              else if String.eqb type "set" then a else b).
Proof.
  intros Hn Hg Hb Hty.
  destruct (updateBalance_nominal id (VNum a) type w u w1
              (VNum (if String.eqb type "add" then b + a
                     else if String.eqb type "set" then a else b)) Hn Hg)
    as (w2 & u2 & Hrun & Hg2 & Hb2 & _).
  { unfold new_balance. rewrite Hb.
    destruct (String.eqb type "add"); [done|].
    destruct (String.eqb_spec type "subtract"); [done|].
    by destruct (String.eqb type "set"). }
  by exists w2, u2.
Qed.

Lemma updateBalance_unguarded_types_witness :
  ∃ w2 u',
    UserManager.updateBalance (VNum 7) (VNum (-25000)) "add" user_world
      = (Ok (Success (VNum (-15000))), w2)
    ∧ UserManager.getUser (VNum 7) w2 = (Ok (Some u'), w2)
    ∧ prop u' "balance" = VNum (-15000).
Proof.
  assert (UserManager.getUser (VNum 7) user_world
          = (Ok (Some (user_U 10000)), (UserManager.getUser (VNum 7) user_world).2)) as Hg
    by (vm_compute; reflexivity).
  assert ("add" ≠ "subtract") as Hty by discriminate.
  exact (updateBalance_unguarded_types (VNum 7) user_world _ _ 10000 (-25000) "add"
           eq_refl Hg eq_refl Hty).
Defined.


(** ** incrementOrderCount *)

Lemma update_cold h dbName (query : item) updates w o w1 :
  DatabaseManager.findOne h dbName query w = (Ok (Some o), w1) →
  DatabaseManager.update h dbName query updates w
  = DatabaseManager.update h dbName query updates w1.
Proof.
  intros Hf. destruct (findOne_found_read _ _ _ _ _ _ Hf) as (l & Hr & Hw & _).
  unfold DatabaseManager.update. run_monad.
  by rewrite Hr, (readData_hit _ _ _ _ Hw).
Qed.

Lemma incrementOrderCount_run id w u w1 :
  UserManager.getUser id w = (Ok (Some u), w1) →
  UserManager.incrementOrderCount id w =
    (Ok true,
     (DatabaseManager.update db_user "users" (by_key "userId" id)
        (order_count_update
           (js_add (js_or (UserManager.statistic u "totalOrders") (VNum 0)) (VNum 1))
           (now w1)) w1).2).
Proof.
  intros Hg. unfold UserManager.incrementOrderCount. run_monad. rewrite Hg.
  rewrite updateUser_run.
  destruct (update_never_throws db_user "users" (by_key "userId" id)
              (order_count_update
                 (js_add (js_or (UserManager.statistic u "totalOrders") (VNum 0)) (VNum 1))
                 (now w1)) w1) as (b & w2 & Hu).
  rewrite Hu. unfold order_count_update in Hu. by rewrite Hu.
Qed.

Lemma incrementOrderCount_step id w u w1 s (k : Z) :
  nominal w = true →
  UserManager.getUser id w = (Ok (Some u), w1) →
  prop u "statistics" = VObj s → prop s "totalOrders" = VNum k →
  nominal (UserManager.incrementOrderCount id w).2 = true
  ∧ ∃ u',
      UserManager.getUser id (UserManager.incrementOrderCount id w).2
        = (Ok (Some u'), (UserManager.incrementOrderCount id w).2)
      ∧ prop u' "statistics" = VObj s
      ∧ prop u' "statistics.totalOrders" = VNum (k + 1).
Proof.
  intros Hn Hg Hs Hk. rewrite (incrementOrderCount_run _ _ _ _ Hg).
  assert (js_add (js_or (UserManager.statistic u "totalOrders") (VNum 0)) (VNum 1)
          = VNum (k + 1)) as ->.
  { unfold UserManager.statistic. by rewrite Hs, Hk, js_or_num0. }
  rewrite getUser_run in Hg.
  destruct (update_after_lookup db_user "users" "userId" id
              (order_count_update (VNum (k + 1)) (now w)) w u w1 Hn eq_refl Hg)
    as (l & w2 & Hw1 & Hf & Hu & Hw2 & Hfind2 & Hfile & Ht1 & Ht2); [done..|].
  destruct Ht1 as (_ & _ & Hnow1 & _). rewrite Hnow1, Hu. cbn [snd].
  split; [by apply (touches_only_nominal db_user "users" w)|].
  eexists. split; [by rewrite getUser_run|].
  split.
  - rewrite prop_patch_other; [done|done|]. unfold order_count_update.
    by rewrite !lookup_insert_ne.
  - apply prop_patch_set; [done|]. unfold order_count_update. prop_lookup.
Qed.

(** X17. [incrementOrderCount] does not count. It writes the property
    named 'statistics.totalOrders' at the top of the user record and
    leaves the [statistics] object as it is, so that in the nominal
    environment any number of calls in a row leaves
    [statistics.totalOrders] at its old value and the top-level property
    at that value plus one. *)
Theorem incrementOrderCount_never_advances id w u w1 s (k : Z) (n : nat) :
  nominal w = true →
  UserManager.getUser id w = (Ok (Some u), w1) →
  prop u "statistics" = VObj s → prop s "totalOrders" = VNum k →
  ∃ u',
    UserManager.getUser id (count_orders id (S n) w)
      = (Ok (Some u'), count_orders id (S n) w)
    ∧ UserManager.statistic u' "totalOrders" = VNum k
    ∧ prop u' "statistics.totalOrders" = VNum (k + 1).
Proof.
  intros Hn Hg Hs Hk.
  assert (nominal (count_orders id (S n) w) = true
          ∧ ∃ u',
              UserManager.getUser id (count_orders id (S n) w)
                = (Ok (Some u'), count_orders id (S n) w)
              ∧ prop u' "statistics" = VObj s
              ∧ prop u' "statistics.totalOrders" = VNum (k + 1)) as (_ & u' & H1 & H2 & H3).
  { induction n as [|n IH].
    - by apply (incrementOrderCount_step id w u w1 s k).
    - destruct IH as (Hn' & u' & Hg' & Hs' & _).
      change (count_orders id (S (S n)) w)
        with ((UserManager.incrementOrderCount id (count_orders id (S n) w)).2).
      by apply (incrementOrderCount_step id (count_orders id (S n) w) u'
                  (count_orders id (S n) w) s k). }
  exists u'. split; [done|]. split; [|done].
  unfold UserManager.statistic. by rewrite H2.
Qed.

Lemma incrementOrderCount_never_advances_witness :
  ∃ u',
    UserManager.getUser (VNum 7) (count_orders (VNum 7) 3 counted_user_world)
      = (Ok (Some u'), count_orders (VNum 7) 3 counted_user_world)
    ∧ UserManager.statistic u' "totalOrders" = VNum 4
    ∧ prop u' "statistics.totalOrders" = VNum 5.
Proof.
  assert (UserManager.getUser (VNum 7) counted_user_world
          = (Ok (Some (counted_user 4)),
             (UserManager.getUser (VNum 7) counted_user_world).2)) as Hg
    by (vm_compute; reflexivity).
  exact (incrementOrderCount_never_advances (VNum 7) counted_user_world _ _
           (by_key "totalOrders" (VNum 4)) 4 2 eq_refl Hg eq_refl eq_refl).
Defined.

(** ** userExists *)

Lemma findOne_answer_found h dbName (query : item) w :
  DatabaseManager.findOne h dbName query w
  = (match (DatabaseManager.findOne_answer h dbName query w).1 with
     | Ok a => Ok (found a)
     | Throw e => Throw e
     end,
     (DatabaseManager.findOne_answer h dbName query w).2).
Proof.
  unfold DatabaseManager.findOne, DatabaseManager.findOne_answer. run_monad.
  destruct (readData_never_throws h dbName w) as (d & w' & ->).
  destruct d as [l| | |]; [|done..].
  by destruct (List.find (matches query) l).
Qed.

Lemma getUser_answer_run id w :
  UserManager.getUser_answer id w
  = DatabaseManager.findOne_answer db_user "users" (by_key "userId" id) w.
Proof.
  unfold UserManager.getUser_answer, DatabaseManager.findOne_answer. run_monad.
  destruct (readData_never_throws db_user "users" w) as (d & w' & ->).
  by destruct d.
Qed.

(** X18. [userExists] answers [true] for every id, also for one that no
    stored user carries, as long as the users collection is an array:
    [getUser] then answers [undefined], which is not [null]. *)
Theorem userExists_for_every_id id w l w0 :
  DatabaseManager.readData db_user "users" w = (Ok (DArr l), w0) →
  UserManager.userExists id w = (Ok true, w0)
  ∧ UserManager.getUser id w
    = (Ok (List.find (matches (by_key "userId" id)) l), w0).
Proof.
  intros Hr. split.
  - unfold UserManager.userExists. run_monad. rewrite getUser_answer_run.
    unfold DatabaseManager.findOne_answer. run_monad. rewrite Hr.
    by destruct (List.find _ l).
  - rewrite getUser_run. by apply findOne_read.
Qed.

Lemma userExists_for_every_id_witness :
  UserManager.userExists (VNum 99) user_world
    = (Ok true, (DatabaseManager.readData db_user "users" user_world).2)
  ∧ (UserManager.getUser (VNum 99) user_world).1 = Ok None.
Proof.
  assert (DatabaseManager.readData db_user "users" user_world
          = (Ok (DArr [user_U 10000]),
             (DatabaseManager.readData db_user "users" user_world).2)) as Hr
    by (vm_compute; reflexivity).
  destruct (userExists_for_every_id (VNum 99) user_world _ _ Hr) as [He Hg].
  split; [exact He|]. rewrite Hg. reflexivity.
Defined.

(** ** Sales in a row *)

Lemma incrementSalesCount_step scrub id w p w1 (s k : Z) :
  nominal w = true →
  ProductManager.getProduct id w = (Ok (Some p), w1) →
  prop p "stock" = VNum s → prop p "totalSales" = VNum k →
  nominal (ProductManager.incrementSalesCount scrub id w).2 = true
  ∧ ∃ p',
      ProductManager.getProduct id (ProductManager.incrementSalesCount scrub id w).2
        = (Ok (Some p'), (ProductManager.incrementSalesCount scrub id w).2)
      ∧ prop p' "stock" = VNum (Z.max 0 (s - 1))
      ∧ prop p' "totalSales" = VNum (k + 1).
Proof.
  intros Hn Hg Hs Hk. rewrite (incrementSalesCount_run _ _ _ _ _ Hg).
  rewrite Hs, Hk, !js_or_num0.
  change (js_add (VNum k) (VNum 1)) with (VNum (k + 1)).
  change (Math_max0 (js_sub (VNum s) (VNum 1))) with (VNum (Z.max 0 (s - 1))).
  rewrite getProduct_run in Hg.
  destruct (update_after_lookup db_product "products" "productId" id
              (sale_update (VNum (k + 1)) (VNum (Z.max 0 (s - 1))) (now w)) w p w1
              Hn eq_refl Hg)
    as (l & w2 & Hw1 & Hf & Hu & Hw2 & Hfind2 & Hfile & Ht1 & Ht2); [done..|].
  destruct Ht1 as (_ & _ & Hnow1 & _). rewrite Hnow1, Hu. cbn [snd].
  split; [by apply (touches_only_nominal db_product "products" w)|].
  eexists. split; [by rewrite getProduct_run|].
  split; apply prop_patch_set; try done; unfold sale_update; prop_lookup.
Qed.

(** X19. In the nominal environment [n + 1] sales in a row of a product
    with stock [s] and [k] sales counted leave the stock at
    [max 0 (s - (n + 1))] and the count at [k + n + 1]: the stock stops
    at 0, the sales are counted on. *)
Theorem sales_run_the_stock_down scrub id w p w1 (s k : Z) (n : nat) :
  nominal w = true →
  ProductManager.getProduct id w = (Ok (Some p), w1) →
  prop p "stock" = VNum s → prop p "totalSales" = VNum k →
  ∃ p',
    ProductManager.getProduct id (sell scrub id (S n) w)
      = (Ok (Some p'), sell scrub id (S n) w)
    ∧ prop p' "stock" = VNum (Z.max 0 (s - Z.of_nat (S n)))
    ∧ prop p' "totalSales" = VNum (k + Z.of_nat (S n)).
Proof.
  intros Hn Hg Hs Hk.
  assert (nominal (sell scrub id (S n) w) = true
          ∧ ∃ p',
              ProductManager.getProduct id (sell scrub id (S n) w)
                = (Ok (Some p'), sell scrub id (S n) w)
              ∧ prop p' "stock" = VNum (Z.max 0 (s - Z.of_nat (S n)))
              ∧ prop p' "totalSales" = VNum (k + Z.of_nat (S n))) as (_ & H);
    [|exact H].
  induction n as [|n IH].
  - by apply (incrementSalesCount_step scrub id w p w1 s k).
  - destruct IH as (Hn' & p' & Hg' & Hs' & Hk').
    change (sell scrub id (S (S n)) w)
      with ((ProductManager.incrementSalesCount scrub id (sell scrub id (S n) w)).2).
    destruct (incrementSalesCount_step scrub id (sell scrub id (S n) w) p'
                (sell scrub id (S n) w) _ _ Hn' Hg' Hs' Hk') as (Hn2 & p2 & Hg2 & Hs2 & Hk2).
    split; [done|]. exists p2. split; [done|].
    rewrite Hs2, Hk2. split; f_equal; lia.
Qed.

Lemma sales_run_the_stock_down_witness :
  ∃ p',
    ProductManager.getProduct (VStr "prod-1") (sell (λ s, s) (VStr "prod-1") 6 (shop_world 0 []))
      = (Ok (Some p'), sell (λ s, s) (VStr "prod-1") 6 (shop_world 0 []))
    ∧ prop p' "stock" = VNum 0
    ∧ prop p' "totalSales" = VNum 9.
Proof.
  assert (ProductManager.getProduct (VStr "prod-1") (shop_world 0 [])
          = (Ok (Some (product_P 5000 4)),
             (ProductManager.getProduct (VStr "prod-1") (shop_world 0 [])).2)) as Hg
    by (vm_compute; reflexivity).
  exact (sales_run_the_stock_down (λ s, s) (VStr "prod-1") (shop_world 0 []) _ _ 4 3 5
           eq_refl Hg eq_refl eq_refl).
Defined.

(** ** blockUser, unblockUser and checkUserAccess *)

Lemma blockUser_run blocked id reason w :
  UserManager.blockUser blocked id reason w
  = (Ok (true, SecurityManager.blockUser blocked id),
     (DatabaseManager.update db_user "users" (by_key "userId" id)
        (block_update reason (now w)) w).2).
Proof.
  unfold UserManager.blockUser. run_monad. rewrite updateUser_run.
  destruct (update_never_throws db_user "users" (by_key "userId" id)
              (block_update reason (now w)) w) as (b & w2 & Hu).
  rewrite Hu. unfold block_update in Hu. by rewrite Hu.
Qed.

Lemma unblockUser_run blocked id w :
  UserManager.unblockUser blocked id w
  = (Ok (true, blocked),
     (DatabaseManager.update db_user "users" (by_key "userId" id)
        (unblock_update (now w)) w).2).
Proof.
  unfold UserManager.unblockUser. run_monad. rewrite updateUser_run.
  destruct (update_never_throws db_user "users" (by_key "userId" id)
              (unblock_update (now w)) w) as (b & w2 & Hu).
  rewrite Hu. unfold unblock_update in Hu. by rewrite Hu.
Qed.

Lemma isBlocked_after_blockUser blocked id :
  strict_eq id id = true →
  SecurityManager.isBlocked (SecurityManager.blockUser blocked id) id = true.
Proof.
  intros Hid. unfold SecurityManager.blockUser.
  destruct (SecurityManager.isBlocked blocked id) eqn:Hb; [done|].
  unfold SecurityManager.isBlocked. rewrite existsb_app. simpl.
  assert (same_value_zero id id = true) as -> by (by destruct id).
  by rewrite orb_true_r.
Qed.

(** X20. [unblockUser] does not give access back. In the nominal
    environment, after [blockUser] the access check answers 'User is
    blocked'; after [unblockUser] the stored user has [isBlocked] false
    again, but the id is still in the set of the security helper, which
    [unblockUser] does not touch, and the access check answers
    'Temporarily blocked'. *)
Theorem unblockUser_keeps_the_block blocked id reason w u w1 :
  nominal w = true →
  UserManager.getUser id w = (Ok (Some u), w1) →
  truthy (prop u "isBanned") = false →
  ∃ w2 w3 u',
    UserManager.blockUser blocked id reason w
      = (Ok (true, SecurityManager.blockUser blocked id), w2)
    ∧ UserManager.checkUserAccess (SecurityManager.blockUser blocked id) id w2
      = (Ok (UserManager.Denied "User is blocked"), w2)
    ∧ UserManager.unblockUser (SecurityManager.blockUser blocked id) id w2
      = (Ok (true, SecurityManager.blockUser blocked id), w3)
    ∧ UserManager.getUser id w3 = (Ok (Some u'), w3)
    ∧ prop u' "isBlocked" = VBool false
    ∧ UserManager.checkUserAccess (SecurityManager.blockUser blocked id) id w3
      = (Ok (UserManager.Denied "Temporarily blocked"), w3).
Proof.
  intros Hn Hg Hban. rewrite getUser_run in Hg.
  assert (strict_eq id id = true) as Hid.
  { destruct (findOne_found _ _ _ _ _ _ Hg) as (l & _ & Hf & _).
    apply find_matches in Hf. rewrite matches_by_key in Hf.
    by rewrite <- (strict_eq_eq _ _ Hf) at 1. }
  destruct (update_after_lookup db_user "users" "userId" id
              (block_update reason (now w)) w u w1 Hn eq_refl Hg)
    as (l & w2 & Hw1 & Hf & Hu & Hw2 & Hfind2 & _ & Ht1 & Ht2); [done..|].
  set (u2 := DatabaseManager.patch (now w) (block_update reason (now w)) u) in *.
  assert (nominal w2 = true) as Hn2 by (by apply (touches_only_nominal db_user "users" w)).
  assert (now w2 = now w) as Hnow2 by (by destruct Ht2 as (_ & _ & ? & _)).
  destruct (update_after_lookup db_user "users" "userId" id
              (unblock_update (now w)) w2 u2 w2 Hn2 eq_refl Hfind2)
    as (l2 & w3 & _ & _ & Hu3 & _ & Hfind3 & _ & _ & _); [done..|].
  rewrite Hnow2 in Hfind3.
  set (u3 := DatabaseManager.patch (now w) (unblock_update (now w)) u2) in *.
  exists w2, w3, u3.
  split.
  { by rewrite blockUser_run, (update_cold _ _ _ _ _ _ _ Hg), Hu. }
  split.
  { unfold UserManager.checkUserAccess. run_monad. rewrite getUser_run, Hfind2.
    assert (prop u2 "isBlocked" = VBool true) as ->; [|done].
    apply prop_patch_set; [done|]. unfold block_update. prop_lookup. }
  split; [by rewrite unblockUser_run, Hnow2, Hu3|].
  split; [by rewrite getUser_run|].
  assert (prop u3 "isBlocked" = VBool false) as Hb3.
  { apply prop_patch_set; [done|]. unfold unblock_update. prop_lookup. }
  split; [done|].
  unfold UserManager.checkUserAccess. run_monad. rewrite getUser_run, Hfind3, Hb3.
  assert (prop u3 "isBanned" = prop u "isBanned") as ->.
  { subst u3 u2. rewrite !prop_patch_other; try done.
    all: unfold block_update, unblock_update; by rewrite !lookup_insert_ne. }
  rewrite Hban. cbn [truthy]. by rewrite isBlocked_after_blockUser.
Qed.

Lemma unblockUser_keeps_the_block_witness :
  ∃ w2 w3,
    UserManager.blockUser [] (VNum 7) (VStr "spam") user_world = (Ok (true, [VNum 7]), w2)
    ∧ UserManager.unblockUser [VNum 7] (VNum 7) w2 = (Ok (true, [VNum 7]), w3)
    ∧ UserManager.checkUserAccess [VNum 7] (VNum 7) w3
      = (Ok (UserManager.Denied "Temporarily blocked"), w3).
Proof.
  assert (UserManager.getUser (VNum 7) user_world
          = (Ok (Some (user_U 10000)), (UserManager.getUser (VNum 7) user_world).2)) as Hg
    by (vm_compute; reflexivity).
  destruct (unblockUser_keeps_the_block [] (VNum 7) (VStr "spam") user_world _ _
              eq_refl Hg eq_refl)
    as (w2 & w3 & u' & Hb & _ & Hu & _ & _ & Hc).
  exists w2, w3. exact (conj Hb (conj Hu Hc)).
Defined.

(** ** Reads of one collection after writes to another *)

Lemma readData_missing h dbName w :
  DatabaseManager.known dbName = true → caches w !! (h, dbName) = None →
  files w !! dbName = None →
  DatabaseManager.readData h dbName w = (Ok (default_data dbName (now w)), w).
Proof.
  intros Hk Hc Hf.
  unfold DatabaseManager.readData, DatabaseManager.cache_get, fs_pathExists.
  run_monad. rewrite Hc, Hk. cbv beta. cbn [negb orb]. cbv beta iota. rewrite Hf.
  rewrite bool_decide_eq_false_2 by (by intros [? ?]). cbn [negb].
  by rewrite getDefaultData_run.
Qed.

Lemma touches_only_set_cache h dbName d w :
  nominal w = true →
  touches_only h dbName w (set_caches (<[(h, dbName) := d]> (caches w)) w).
Proof.
  intros Hn. split; [by apply (nominal_transfer w)|]. repeat split; try done.
  intros k Hk. world_simpl. by apply lookup_insert_ne.
Qed.

Lemma readData_elsewhere h dbName h' dbName' w w2 d w1 :
  nominal w = true → touches_only h dbName w w2 → dbName' ≠ dbName →
  DatabaseManager.readData h' dbName' w = (Ok d, w1) →
  ∃ w3, DatabaseManager.readData h' dbName' w2 = (Ok d, w3)
    ∧ touches_only h' dbName' w2 w3
    ∧ (w3 = w2 ∨ caches w3 !! (h', dbName') = Some d).
Proof.
  intros Hn Ht Hne Hr.
  pose proof Ht as (Hn2 & Hc2 & Hnow2 & He2 & Hg2 & Hca2 & Hf2).
  destruct (nominal_inv _ Hn) as [Hio Hcr]. destruct (nominal_inv _ Hn2) as [Hio2 Hcr2].
  assert ((h', dbName') ≠ (h, dbName)) as Hk by (intros [= ? ?]; done).
  specialize (Hca2 _ Hk). specialize (Hf2 _ Hne).
  destruct (caches w !! (h', dbName')) as [d0|] eqn:Hc.
  { rewrite (readData_hit _ _ _ _ Hc) in Hr. simplify_eq.
    exists w2. split; [by apply readData_hit|].
    split; [by apply touches_only_refl|by left]. }
  destruct (DatabaseManager.known dbName') eqn:Hkn.
  2:{ destruct (DatabaseManager.inherited dbName') eqn:Hi.
      - rewrite (proj1 (readData_inherited _ _ _ Hi Hc)) in Hr. simplify_eq.
        exists w2. split; [|split; [by apply touches_only_refl|by left]].
        rewrite <- Hnow2. apply readData_inherited; [done|by rewrite Hca2].
      - rewrite readData_unknown in Hr by done. simplify_eq.
        exists w2. split; [by apply readData_unknown|].
        split; [by apply touches_only_refl|by left]. }
  destruct (files w !! dbName') as [raw|] eqn:Hf.
  2:{ rewrite readData_missing in Hr by done. simplify_eq.
      exists w2. split; [rewrite <- Hnow2; by apply readData_missing|].
      split; [by apply touches_only_refl|by left]. }
  destruct (decoded (config w) raw) as [d0|] eqn:Hdec.
  - rewrite (readData_cold _ _ raw d0) in Hr by (done || by rewrite Hio).
    simplify_eq.
    exists (set_caches (<[(h', dbName') := d]> (caches w2)) w2).
    split.
    { rewrite (readData_cold _ _ raw d); try done.
      - by rewrite nominal_after_fs_call.
      - by rewrite Hc2.
      - by rewrite Hio2. }
    split; [by apply touches_only_set_cache|].
    right. world_simpl. apply lookup_insert_eq.
  - rewrite (readData_failed_read _ _ raw) in Hr;
      [|done|done|done|right; by rewrite Hio].
    simplify_eq. exists w2. split.
    { rewrite (readData_failed_read _ _ raw);
        [|done|done|done|right; rewrite Hio2, Hc2; done].
      by rewrite Hnow2, nominal_after_fs_call. }
    split; [by apply touches_only_refl|by left].
Qed.

Lemma findOne_elsewhere h dbName h' dbName' (query : item) w w2 r w1 :
  nominal w = true → touches_only h dbName w w2 → dbName' ≠ dbName →
  DatabaseManager.findOne h' dbName' query w = (Ok r, w1) →
  ∃ w3, DatabaseManager.findOne h' dbName' query w2 = (Ok r, w3)
    ∧ touches_only h' dbName' w2 w3.
Proof.
  intros Hn Ht Hne. unfold DatabaseManager.findOne. run_monad.
  destruct (DatabaseManager.readData h' dbName' w) as [[d|e] w'] eqn:Hr; [|done].
  destruct (readData_elsewhere _ _ _ _ _ _ _ _ Hn Ht Hne Hr) as (w3 & -> & Ht3 & _).
  destruct d; intros; simplify_eq; by exists w3.
Qed.

(** Touching two collections in turn. *)
Lemma touches_only_elsewhere h dbName h' dbName' l w w2 w3 :
  touches_only h dbName w w2 → touches_only h' dbName' w2 w3 →
  (h', dbName') ≠ (h, dbName) →
  warm h dbName l w2 → warm h dbName l w3.
Proof.
  intros _ (_&_&_&_&_&Hca&_) Hne Hw. unfold warm. rewrite Hca; [done|].
  intros [= ? ?]. by apply Hne; f_equal.
Qed.

(** ** The order operations in the nominal environment *)

Lemma rejectOrder_run id reason who w o w1 :
  OrderManager.getOrder id w = (Ok (Some o), w1) →
  OrderManager.rejectOrder id reason who w =
    (Ok (Success o),
     (DatabaseManager.update db_order "orders" (by_key "orderId" id)
        (rejection reason who (now w1)) w1).2).
Proof.
  intros Hg. unfold OrderManager.rejectOrder. run_monad. rewrite Hg.
  rewrite updateOrder_run.
  destruct (update_never_throws db_order "orders" (by_key "orderId" id)
              (rejection reason who (now w1)) w1) as (b & w2 & Hu).
  rewrite Hu. unfold rejection in Hu. by rewrite Hu.
Qed.

Lemma completeOrder_run id w o w1 :
  OrderManager.getOrder id w = (Ok (Some o), w1) →
  OrderManager.completeOrder id w =
    (Ok (Success o),
     (DatabaseManager.update db_order "orders" (by_key "orderId" id)
        (completion (now w1)) w1).2).
Proof.
  intros Hg. unfold OrderManager.completeOrder. run_monad. rewrite Hg.
  rewrite updateOrder_run.
  destruct (update_never_throws db_order "orders" (by_key "orderId" id)
              (completion (now w1)) w1) as (b & w2 & Hu).
  rewrite Hu. unfold completion in Hu. by rewrite Hu.
Qed.

Lemma cancelOrder_run id reason w o w1 :
  OrderManager.getOrder id w = (Ok (Some o), w1) →
  OrderManager.cancelOrder id reason w =
    if strict_eq (prop o "status") (VStr "pending")
       || strict_eq (prop o "status") (VStr "processing")
    then (Ok (Success o),
          (DatabaseManager.update db_order "orders" (by_key "orderId" id)
             (cancellation reason (now w1)) w1).2)
    else (Ok (Failure "Order cannot be cancelled"), w1).
Proof.
  intros Hg. unfold OrderManager.cancelOrder. run_monad. rewrite Hg.
  destruct (strict_eq (prop o "status") (VStr "pending")
            || strict_eq (prop o "status") (VStr "processing")); simpl; [|done].
  rewrite updateOrder_run.
  destruct (update_never_throws db_order "orders" (by_key "orderId" id)
              (cancellation reason (now w1)) w1) as (b & w2 & Hu).
  rewrite Hu. unfold cancellation in Hu. by rewrite Hu.
Qed.

(** What an order operation that goes through leaves behind: the order
    found before, overlaid with the operation's updates. *)
Lemma order_update_nominal id updates w o w1 :
  nominal w = true →
  OrderManager.getOrder id w = (Ok (Some o), w1) →
  updates !! "orderId" = None →
  ∃ w2,
    (DatabaseManager.update db_order "orders" (by_key "orderId" id) updates w1).2 = w2
    ∧ OrderManager.getOrder id w2
      = (Ok (Some (DatabaseManager.patch (now w) updates o)), w2)
    ∧ now w1 = now w
    ∧ touches_only db_order "orders" w w1
    ∧ touches_only db_order "orders" w w2.
Proof.
  intros Hn Hg Hup. rewrite getOrder_run in Hg.
  destruct (update_after_lookup db_order "orders" "orderId" id updates w o w1
              Hn eq_refl Hg)
    as (l & w2 & Hw1 & Hf & Hu & Hw2 & Hfind2 & Hfile & Ht1 & Ht2); [done..|].
  exists w2. rewrite Hu. split; [done|]. split; [by rewrite getOrder_run|].
  split; [by destruct Ht1 as (_ & _ & ? & _)|done].
Qed.

Lemma approveOrder_nominal id who w o w1 :
  nominal w = true →
  OrderManager.getOrder id w = (Ok (Some o), w1) →
  prop o "status" = VStr "pending" →
  ∃ w2,
    OrderManager.approveOrder id who w = (Ok (Success o), w2)
    ∧ OrderManager.getOrder id w2
      = (Ok (Some (DatabaseManager.patch (now w) (approval who (now w)) o)), w2)
    ∧ touches_only db_order "orders" w w2.
Proof.
  intros Hn Hg Hs. rewrite (approveOrder_run _ _ _ _ _ Hg), Hs. cbn [strict_eq].
  rewrite String.eqb_refl.
  destruct (order_update_nominal id (approval who (now w)) w o w1 Hn Hg eq_refl)
    as (w2 & Hu & Hg2 & Hnow & _ & Ht).
  rewrite Hnow, Hu. exists w2. split; [done|]. split; assumption.
Qed.

Lemma approveOrder_refused id who w o w1 :
  nominal w = true →
  OrderManager.getOrder id w = (Ok (Some o), w1) →
  prop o "status" ≠ VStr "pending" →
  OrderManager.approveOrder id who w = (Ok (Failure "Order cannot be approved"), w1)
  ∧ OrderManager.getOrder id w1 = (Ok (Some o), w1)
  ∧ touches_only db_order "orders" w w1.
Proof.
  intros Hn Hg Hs. rewrite (approveOrder_run _ _ _ _ _ Hg).
  destruct (strict_eq (prop o "status") (VStr "pending")) eqn:He.
  { by apply strict_eq_str in He. }
  split; [done|].
  rewrite getOrder_run in *.
  destruct (findOne_found_nominal _ _ _ _ _ _ Hn Hg)
    as (l & Hw1 & Hf & Hn1 & Hc1 & Ht1 & Hf1 & He1 & Hg1 & Hca1).
  split; [by rewrite (findOne_warm _ _ _ _ _ Hw1), Hf|].
  repeat split; try done. intros n _. by rewrite Hf1.
Qed.

Lemma completeOrder_nominal id w o w1 :
  nominal w = true →
  OrderManager.getOrder id w = (Ok (Some o), w1) →
  ∃ w2,
    OrderManager.completeOrder id w = (Ok (Success o), w2)
    ∧ OrderManager.getOrder id w2
      = (Ok (Some (DatabaseManager.patch (now w) (completion (now w)) o)), w2)
    ∧ touches_only db_order "orders" w w2.
Proof.
  intros Hn Hg. rewrite (completeOrder_run _ _ _ _ Hg).
  destruct (order_update_nominal id (completion (now w)) w o w1 Hn Hg eq_refl)
    as (w2 & Hu & Hg2 & Hnow & _ & Ht).
  rewrite Hnow, Hu. exists w2. split; [done|]. split; assumption.
Qed.

Lemma rejectOrder_nominal id reason who w o w1 :
  nominal w = true →
  OrderManager.getOrder id w = (Ok (Some o), w1) →
  ∃ w2,
    OrderManager.rejectOrder id reason who w = (Ok (Success o), w2)
    ∧ OrderManager.getOrder id w2
      = (Ok (Some (DatabaseManager.patch (now w) (rejection reason who (now w)) o)), w2)
    ∧ touches_only db_order "orders" w w2.
Proof.
  intros Hn Hg. rewrite (rejectOrder_run _ _ _ _ _ _ Hg).
  destruct (order_update_nominal id (rejection reason who (now w)) w o w1 Hn Hg eq_refl)
    as (w2 & Hu & Hg2 & Hnow & _ & Ht).
  rewrite Hnow, Hu. exists w2. split; [done|]. split; assumption.
Qed.

Lemma cancelOrder_nominal id reason w o w1 :
  nominal w = true →
  OrderManager.getOrder id w = (Ok (Some o), w1) →
  prop o "status" = VStr "pending" ∨ prop o "status" = VStr "processing" →
  ∃ w2,
    OrderManager.cancelOrder id reason w = (Ok (Success o), w2)
    ∧ OrderManager.getOrder id w2
      = (Ok (Some (DatabaseManager.patch (now w) (cancellation reason (now w)) o)), w2)
    ∧ touches_only db_order "orders" w w2.
Proof.
  intros Hn Hg Hs. rewrite (cancelOrder_run _ _ _ _ _ Hg).
  assert (strict_eq (prop o "status") (VStr "pending")
          || strict_eq (prop o "status") (VStr "processing") = true) as ->.
  { destruct Hs as [-> | ->]; reflexivity. }
  destruct (order_update_nominal id (cancellation reason (now w)) w o w1 Hn Hg eq_refl)
    as (w2 & Hu & Hg2 & Hnow & _ & Ht).
  rewrite Hnow, Hu. exists w2. split; [done|]. split; assumption.
Qed.

(** A lookup by the user manager after the order manager has worked. *)
Lemma getUser_elsewhere h dbName id w w2 r w1 :
  nominal w = true → touches_only h dbName w w2 → dbName ≠ "users" →
  UserManager.getUser id w = (Ok r, w1) →
  ∃ w3, UserManager.getUser id w2 = (Ok r, w3) ∧ touches_only db_user "users" w2 w3.
Proof.
  intros Hn Ht Hne Hg. rewrite getUser_run in *.
  by eapply (findOne_elsewhere h dbName).
Qed.

Lemma getProduct_elsewhere h dbName id w w2 r w1 :
  nominal w = true → touches_only h dbName w w2 → dbName ≠ "products" →
  ProductManager.getProduct id w = (Ok r, w1) →
  ∃ w3, ProductManager.getProduct id w2 = (Ok r, w3)
    ∧ touches_only db_product "products" w2 w3.
Proof.
  intros Hn Ht Hne Hg. rewrite getProduct_run in *.
  by eapply (findOne_elsewhere h dbName).
Qed.

Lemma getOrder_after h dbName id w2 w3 r :
  touches_only h dbName w2 w3 → dbName ≠ "orders" →
  OrderManager.getOrder id w2 = (Ok (Some r), w2) →
  OrderManager.getOrder id w3 = (Ok (Some r), w3).
Proof.
  intros Ht Hne Hg. rewrite getOrder_run in *.
  destruct (findOne_found _ _ _ _ _ _ Hg) as (l & Hw & Hf & _).
  rewrite (findOne_warm _ _ _ l); [by rewrite Hf|].
  apply (touches_only_warm h dbName _ _ _ w2); [done| |done].
  intros [= ? ?]. by apply Hne.
Qed.

Lemma getDeposit_after h dbName id w2 w3 r :
  touches_only h dbName w2 w3 → dbName ≠ "deposits" →
  PaymentManager.getDeposit id w2 = (Ok (Some r), w2) →
  PaymentManager.getDeposit id w3 = (Ok (Some r), w3).
Proof.
  intros Ht Hne Hg. rewrite getDeposit_run in *.
  destruct (findOne_found _ _ _ _ _ _ Hg) as (l & Hw & Hf & _).
  rewrite (findOne_warm _ _ _ l); [by rewrite Hf|].
  apply (touches_only_warm h dbName _ _ _ w2); [done| |done].
  intros [= ? ?]. by apply Hne.
Qed.

Lemma touches_only_now h dbName w w' : touches_only h dbName w w' → now w' = now w.
Proof. by intros (_&_&?&_). Qed.

(** A lookup that has found its record finds it again at once. *)
Lemma findOne_settles h dbName (query : item) w o w1 :
  nominal w = true →
  DatabaseManager.findOne h dbName query w = (Ok (Some o), w1) →
  nominal w1 = true ∧ now w1 = now w
  ∧ DatabaseManager.findOne h dbName query w1 = (Ok (Some o), w1)
  ∧ touches_only h dbName w w1.
Proof.
  intros Hn Hg.
  destruct (findOne_found_nominal _ _ _ _ _ _ Hn Hg)
    as (l & Hw1 & Hf & Hn1 & Hc1 & Ht1 & Hf1 & He1 & Hg1 & Hca1).
  split; [done|]. split; [done|].
  split; [by rewrite (findOne_warm _ _ _ _ _ Hw1), Hf|].
  repeat split; try done. intros n _. by rewrite Hf1.
Qed.

Lemma getOrder_settles id w o w1 :
  nominal w = true →
  OrderManager.getOrder id w = (Ok (Some o), w1) →
  nominal w1 = true ∧ now w1 = now w
  ∧ OrderManager.getOrder id w1 = (Ok (Some o), w1)
  ∧ touches_only db_order "orders" w w1.
Proof. rewrite !getOrder_run. apply findOne_settles. Qed.

Lemma getUser_settles id w u w1 :
  nominal w = true →
  UserManager.getUser id w = (Ok (Some u), w1) →
  nominal w1 = true ∧ now w1 = now w
  ∧ UserManager.getUser id w1 = (Ok (Some u), w1)
  ∧ touches_only db_user "users" w w1.
Proof. rewrite !getUser_run. apply findOne_settles. Qed.

Lemma getProduct_settles id w p w1 :
  nominal w = true →
  ProductManager.getProduct id w = (Ok (Some p), w1) →
  nominal w1 = true ∧ now w1 = now w
  ∧ ProductManager.getProduct id w1 = (Ok (Some p), w1)
  ∧ touches_only db_product "products" w w1.
Proof. rewrite !getProduct_run. apply findOne_settles. Qed.

Lemma getDeposit_settles id w d w1 :
  nominal w = true →
  PaymentManager.getDeposit id w = (Ok (Some d), w1) →
  nominal w1 = true ∧ now w1 = now w
  ∧ PaymentManager.getDeposit id w1 = (Ok (Some d), w1)
  ∧ touches_only db_payment "deposits" w w1.
Proof. rewrite !getDeposit_run. apply findOne_settles. Qed.

(** ** The order handlers of the main file *)

(** X21. Cancelling an order through the bot credits its amount,
    whether or not the order was ever paid. In the nominal environment,
    when the order is the user's own and pending or processing, the
    handler leaves the order cancelled and the user's balance higher by
    the amount of the order; the payment status of the order is not
    looked at and stays what it was. *)
Theorem cancel_credits_unpaid_orders userId orderId w o wo u wu (a b : Z) :
  nominal w = true →
  OrderManager.getOrder orderId w = (Ok (Some o), wo) →
  UserManager.getUser userId w = (Ok (Some u), wu) →
  prop o "userId" = userId →
  prop o "status" = VStr "pending" ∨ prop o "status" = VStr "processing" →
  prop o "amount" = VNum a → prop u "balance" = VNum b →
  ∃ w' o' u',
    Handlers.handleOrderCancel userId orderId w = (Ok tt, w')
    ∧ OrderManager.getOrder orderId w' = (Ok (Some o'), w')
    ∧ prop o' "status" = VStr "cancelled"
    ∧ prop o' "paymentStatus" = prop o "paymentStatus"
    ∧ UserManager.getUser userId w' = (Ok (Some u'), w')
    ∧ prop u' "balance" = VNum (b + a).
Proof.
  intros Hn Ho Hu Huid Hs Ha Hb.
  assert (strict_eq (prop o "userId") userId = true) as Hown.
  { rewrite getUser_run in Hu. destruct (findOne_found _ _ _ _ _ _ Hu) as (l & _ & Hf & _).
    apply find_matches in Hf. rewrite matches_by_key in Hf.
    rewrite Huid. by rewrite <- (strict_eq_eq _ _ Hf) at 1. }
  destruct (getOrder_settles _ _ _ _ Hn Ho) as (Hno & Hnowo & Ho' & Hto).
  destruct (cancelOrder_nominal orderId (VStr "Dibatalkan oleh user") wo o wo Hno Ho' Hs)
    as (w2 & Hcancel & Ho2 & Ht2).
  rewrite Hnowo in Ho2.
  pose proof (touches_only_trans _ _ _ _ _ Hto Ht2) as Ht02.
  destruct (getUser_elsewhere db_order "orders" userId w w2 _ _ Hn Ht02 ltac:(done) Hu)
    as (w3 & Hu3 & Ht3).
  destruct (updateBalance_nominal userId (VNum a) "add" w2 u w3 (VNum (b + a))
              (touches_only_nominal _ _ _ _ Ht2) Hu3)
    as (w4 & u4 & Hadd & Hu4 & Hb4 & _ & Ht4).
  { unfold new_balance. by rewrite Hb. }
  exists w4, (DatabaseManager.patch (now w) (cancellation (VStr "Dibatalkan oleh user") (now w)) o), u4.
  split.
  { unfold Handlers.handleOrderCancel. run_monad. rewrite Ho, Hown. cbn [negb].
    assert (strict_eq (prop o "status") (VStr "pending")
            || strict_eq (prop o "status") (VStr "processing") = true) as ->
      by (destruct Hs as [-> | ->]; reflexivity).
    cbn [negb]. rewrite Hcancel, Ha, Hadd. reflexivity. }
  split; [by apply (getOrder_after db_user "users" _ w2)|].
  split; [apply prop_patch_set; [done|unfold cancellation; prop_lookup]|].
  split; [apply prop_patch_other; [done|unfold cancellation; by rewrite !lookup_insert_ne]|].
  done.
Qed.

Lemma cancel_credits_unpaid_orders_witness :
  ∃ w' o' u',
    Handlers.handleOrderCancel (VNum 7) (VStr "ORD-B") (order_world "pending") = (Ok tt, w')
    ∧ OrderManager.getOrder (VStr "ORD-B") w' = (Ok (Some o'), w')
    ∧ prop o' "status" = VStr "cancelled"
    ∧ prop o' "paymentStatus" = VStr "unpaid"
    ∧ UserManager.getUser (VNum 7) w' = (Ok (Some u'), w')
    ∧ prop u' "balance" = VNum 15000.
Proof.
  assert (OrderManager.getOrder (VStr "ORD-B") (order_world "pending")
          = (Ok (Some (order_B "pending" 5000000)),
             (OrderManager.getOrder (VStr "ORD-B") (order_world "pending")).2)) as Ho
    by (vm_compute; reflexivity).
  assert (UserManager.getUser (VNum 7) (order_world "pending")
          = (Ok (Some (user_U 10000)),
             (UserManager.getUser (VNum 7) (order_world "pending")).2)) as Hu
    by (vm_compute; reflexivity).
  exact (cancel_credits_unpaid_orders (VNum 7) (VStr "ORD-B") (order_world "pending")
           _ _ _ _ 5000 10000 eq_refl Ho Hu eq_refl (or_introl eq_refl) eq_refl eq_refl).
Defined.

(** ** The product and deposit operations in the nominal environment *)

Lemma incrementSalesCount_nominal scrub id w p w1 (s k : Z) :
  nominal w = true →
  ProductManager.getProduct id w = (Ok (Some p), w1) →
  prop p "stock" = VNum s → prop p "totalSales" = VNum k →
  ∃ w2 p',
    ProductManager.incrementSalesCount scrub id w = (Ok true, w2)
    ∧ ProductManager.getProduct id w2 = (Ok (Some p'), w2)
    ∧ prop p' "stock" = VNum (Z.max 0 (s - 1))
    ∧ prop p' "totalSales" = VNum (k + 1)
    ∧ touches_only db_product "products" w w2.
Proof.
  intros Hn Hg Hs Hk. rewrite (incrementSalesCount_run _ _ _ _ _ Hg).
  rewrite Hs, Hk, !js_or_num0.
  change (js_add (VNum k) (VNum 1)) with (VNum (k + 1)).
  change (Math_max0 (js_sub (VNum s) (VNum 1))) with (VNum (Z.max 0 (s - 1))).
  rewrite getProduct_run in Hg.
  destruct (update_after_lookup db_product "products" "productId" id
              (sale_update (VNum (k + 1)) (VNum (Z.max 0 (s - 1))) (now w)) w p w1
              Hn eq_refl Hg)
    as (l & w2 & Hw1 & Hf & Hu & Hw2 & Hfind2 & Hfile & Ht1 & Ht2); [done..|].
  destruct Ht1 as (_ & _ & Hnow1 & _). rewrite Hnow1, Hu. cbn [snd].
  eexists _, _. split; [reflexivity|]. split; [by rewrite getProduct_run|].
  split; [apply prop_patch_set; [done|unfold sale_update; prop_lookup]|].
  split; [apply prop_patch_set; [done|unfold sale_update; prop_lookup]|done].
Qed.

Lemma approveDeposit_run id who w d w1 :
  PaymentManager.getDeposit id w = (Ok (Some d), w1) →
  PaymentManager.approveDeposit id who w =
    if strict_eq (prop d "status") (VStr "pending")
    then (Ok (Success d),
          (DatabaseManager.update db_payment "deposits" (by_key "depositId" id)
             (deposit_approval who (now w1)) w1).2)
    else (Ok (Failure "Deposit cannot be approved"), w1).
Proof.
  intros Hg. unfold PaymentManager.approveDeposit. run_monad. rewrite Hg.
  destruct (strict_eq (prop d "status") (VStr "pending")); simpl; [|done].
  rewrite updateDeposit_run.
  destruct (update_never_throws db_payment "deposits" (by_key "depositId" id)
              (deposit_approval who (now w1)) w1) as (b & w2 & Hu).
  rewrite Hu. unfold deposit_approval in Hu. by rewrite Hu.
Qed.

Lemma deposit_update_nominal id updates w d w1 :
  nominal w = true →
  PaymentManager.getDeposit id w = (Ok (Some d), w1) →
  updates !! "depositId" = None →
  ∃ w2,
    (DatabaseManager.update db_payment "deposits" (by_key "depositId" id) updates w1).2 = w2
    ∧ PaymentManager.getDeposit id w2
      = (Ok (Some (DatabaseManager.patch (now w) updates d)), w2)
    ∧ now w1 = now w
    ∧ touches_only db_payment "deposits" w w1
    ∧ touches_only db_payment "deposits" w w2.
Proof.
  intros Hn Hg Hup. rewrite getDeposit_run in Hg.
  destruct (update_after_lookup db_payment "deposits" "depositId" id updates w d w1
              Hn eq_refl Hg)
    as (l & w2 & Hw1 & Hf & Hu & Hw2 & Hfind2 & Hfile & Ht1 & Ht2); [done..|].
  exists w2. rewrite Hu. split; [done|]. split; [by rewrite getDeposit_run|].
  split; [by destruct Ht1 as (_ & _ & ? & _)|done].
Qed.

Lemma approveDeposit_nominal id who w d w1 :
  nominal w = true →
  PaymentManager.getDeposit id w = (Ok (Some d), w1) →
  prop d "status" = VStr "pending" →
  ∃ w2,
    PaymentManager.approveDeposit id who w = (Ok (Success d), w2)
    ∧ PaymentManager.getDeposit id w2
      = (Ok (Some (DatabaseManager.patch (now w) (deposit_approval who (now w)) d)), w2)
    ∧ touches_only db_payment "deposits" w w2.
Proof.
  intros Hn Hg Hs. rewrite (approveDeposit_run _ _ _ _ _ Hg), Hs. cbn [strict_eq].
  rewrite String.eqb_refl.
  destruct (deposit_update_nominal id (deposit_approval who (now w)) w d w1 Hn Hg eq_refl)
    as (w2 & Hu & Hg2 & Hnow & _ & Ht).
  rewrite Hnow, Hu. exists w2. split; [done|]. split; assumption.
Qed.

Lemma approveDeposit_refused id who w d w1 :
  nominal w = true →
  PaymentManager.getDeposit id w = (Ok (Some d), w1) →
  prop d "status" ≠ VStr "pending" →
  PaymentManager.approveDeposit id who w
    = (Ok (Failure "Deposit cannot be approved"), w1)
  ∧ PaymentManager.getDeposit id w1 = (Ok (Some d), w1)
  ∧ touches_only db_payment "deposits" w w1.
Proof.
  intros Hn Hg Hs. rewrite (approveDeposit_run _ _ _ _ _ Hg).
  destruct (strict_eq (prop d "status") (VStr "pending")) eqn:He.
  { by apply strict_eq_str in He. }
  split; [done|].
  destruct (getDeposit_settles _ _ _ _ Hn Hg) as (_ & _ & ? & ?). done.
Qed.

Lemma addDepositHistory_run id amount w u w1 :
  UserManager.getUser id w = (Ok (Some u), w1) →
  UserManager.addDepositHistory id amount w =
    (Ok true,
     (DatabaseManager.update db_user "users" (by_key "userId" id)
        (deposit_history_update
           (js_add (js_or (UserManager.statistic u "totalDeposits") (VNum 0)) amount)
           (now w1)) w1).2).
Proof.
  intros Hg. unfold UserManager.addDepositHistory. run_monad. rewrite Hg.
  rewrite updateUser_run.
  destruct (update_never_throws db_user "users" (by_key "userId" id)
              (deposit_history_update
                 (js_add (js_or (UserManager.statistic u "totalDeposits") (VNum 0)) amount)
                 (now w1)) w1) as (b & w2 & Hu).
  rewrite Hu. unfold deposit_history_update in Hu. by rewrite Hu.
Qed.

Lemma addDepositHistory_nominal id amount w u w1 :
  nominal w = true →
  UserManager.getUser id w = (Ok (Some u), w1) →
  ∃ w2 u',
    UserManager.addDepositHistory id amount w = (Ok true, w2)
    ∧ UserManager.getUser id w2 = (Ok (Some u'), w2)
    ∧ prop u' "balance" = prop u "balance"
    ∧ prop u' "statistics" = prop u "statistics"
    ∧ touches_only db_user "users" w w2.
Proof.
  intros Hn Hg. rewrite (addDepositHistory_run _ _ _ _ _ Hg).
  rewrite getUser_run in Hg.
  destruct (update_after_lookup db_user "users" "userId" id
              (deposit_history_update
                 (js_add (js_or (UserManager.statistic u "totalDeposits") (VNum 0)) amount)
                 (now w)) w u w1 Hn eq_refl Hg)
    as (l & w2 & Hw1 & Hf & Hu & Hw2 & Hfind2 & Hfile & Ht1 & Ht2); [done..|].
  destruct Ht1 as (_ & _ & Hnow1 & _). rewrite Hnow1, Hu. cbn [snd].
  eexists _, _. split; [reflexivity|]. split; [by rewrite getUser_run|].
  split; [apply prop_patch_other; [done|unfold deposit_history_update;
                                        by rewrite !lookup_insert_ne]|].
  split; [apply prop_patch_other; [done|unfold deposit_history_update;
                                        by rewrite !lookup_insert_ne]|done].
Qed.

Lemma approveDeposit_either id who w d w1 :
  nominal w = true →
  PaymentManager.getDeposit id w = (Ok (Some d), w1) →
  ∃ r w2,
    PaymentManager.approveDeposit id who w = (Ok r, w2)
    ∧ touches_only db_payment "deposits" w w2.
Proof.
  intros Hn Hg.
  destruct (strict_eq (prop d "status") (VStr "pending")) eqn:He.
  - apply strict_eq_str in He.
    destruct (approveDeposit_nominal id who w d w1 Hn Hg He) as (w2 & H & _ & Ht).
    by exists (Success d), w2.
  - assert (prop d "status" ≠ VStr "pending") as Hne.
    { intros E. apply strict_eq_str in E. congruence. }
    destruct (approveDeposit_refused id who w d w1 Hn Hg Hne) as (H & _ & Ht).
    by exists (Failure "Deposit cannot be approved"), w1.
Qed.

Lemma checkQRISStatus_paid status_answer e resp w :
  status_answer e = Ok resp → truthy resp = true →
  member (member resp "data") "status" = VStr "success" →
  ∃ r, PaymentManager.checkQRISStatus status_answer e w = (Ok (Success r), w)
       ∧ prop r "status" = VStr "success".
Proof.
  intros Ha Ht Hs. unfold PaymentManager.checkQRISStatus. run_monad.
  rewrite Ha, Ht, Hs. eexists. split; [reflexivity|]. by rewrite prop_insert_eq.
Qed.

(** X22. When the owner approves a pending order, the handler brings it
    to "completed" in one go — paid, delivered, approved by that owner —
    and counts the sale on the order's product: one more sale, one unit
    less in stock (never below zero). *)
Theorem admin_approval_completes_the_sale scrub adminId orderId w o wo p wp (s k : Z) :
  nominal w = true →
  OrderManager.getOrder orderId w = (Ok (Some o), wo) →
  prop o "status" = VStr "pending" →
  ProductManager.getProduct (prop o "productId") w = (Ok (Some p), wp) →
  prop p "stock" = VNum s → prop p "totalSales" = VNum k →
  ∃ w' o' p',
    Handlers.handleAdminOrderApprove scrub adminId orderId w = (Ok tt, w')
    ∧ OrderManager.getOrder orderId w' = (Ok (Some o'), w')
    ∧ prop o' "status" = VStr "completed"
    ∧ prop o' "paymentStatus" = VStr "paid"
    ∧ prop o' "deliveryStatus" = VStr "delivered"
    ∧ prop o' "approvedBy" = adminId
    ∧ ProductManager.getProduct (prop o "productId") w' = (Ok (Some p'), w')
    ∧ prop p' "totalSales" = VNum (k + 1)
    ∧ prop p' "stock" = VNum (Z.max 0 (s - 1)).
Proof.
  intros Hn Ho Hs Hp Hstock Hsales.
  destruct (approveOrder_nominal orderId adminId w o wo Hn Ho Hs) as (w2 & Happ & Ho2 & Ht2).
  destruct (completeOrder_nominal orderId w2 _ w2 (touches_only_nominal _ _ _ _ Ht2) Ho2)
    as (w3 & Hcomp & Ho3 & Ht3).
  rewrite (touches_only_now _ _ _ _ Ht2) in Ho3.
  pose proof (touches_only_trans _ _ _ _ _ Ht2 Ht3) as Ht03.
  destruct (getProduct_elsewhere db_order "orders" _ w w3 _ _ Hn Ht03 ltac:(done) Hp)
    as (w4 & Hp4 & Ht4).
  destruct (incrementSalesCount_nominal scrub _ w3 p w4 s k
              (touches_only_nominal _ _ _ _ Ht3) Hp4 Hstock Hsales)
    as (w5 & p5 & Hinc & Hp5 & Hs5 & Hk5 & Ht5).
  eexists w5, _, p5. split.
  { unfold Handlers.handleAdminOrderApprove. run_monad.
    rewrite Happ, Hcomp, Hinc. reflexivity. }
  split; [by apply (getOrder_after db_product "products" _ w3)|].
  split; [apply prop_patch_set; [done|unfold completion; prop_lookup]|].
  split.
  { rewrite prop_patch_other; [|done|unfold completion; by rewrite !lookup_insert_ne].
    apply prop_patch_set; [done|unfold approval; prop_lookup]. }
  split; [apply prop_patch_set; [done|unfold completion; prop_lookup]|].
  split.
  { rewrite prop_patch_other; [|done|unfold completion; by rewrite !lookup_insert_ne].
    apply prop_patch_set; [done|unfold approval; prop_lookup]. }
  done.
Qed.

Lemma admin_approval_completes_the_sale_witness :
  ∃ w' o' p',
    Handlers.handleAdminOrderApprove (λ s, s) (VNum 1) (VStr "ORD-B") (order_world "pending")
      = (Ok tt, w')
    ∧ OrderManager.getOrder (VStr "ORD-B") w' = (Ok (Some o'), w')
    ∧ prop o' "status" = VStr "completed"
    ∧ prop o' "paymentStatus" = VStr "paid"
    ∧ prop o' "deliveryStatus" = VStr "delivered"
    ∧ prop o' "approvedBy" = VNum 1
    ∧ ProductManager.getProduct (VStr "prod-1") w' = (Ok (Some p'), w')
    ∧ prop p' "totalSales" = VNum 4
    ∧ prop p' "stock" = VNum 3.
Proof.
  assert (OrderManager.getOrder (VStr "ORD-B") (order_world "pending")
          = (Ok (Some (order_B "pending" 5000000)),
             (OrderManager.getOrder (VStr "ORD-B") (order_world "pending")).2)) as Ho
    by (vm_compute; reflexivity).
  assert (ProductManager.getProduct (VStr "prod-1") (order_world "pending")
          = (Ok (Some (product_P 5000 4)),
             (ProductManager.getProduct (VStr "prod-1") (order_world "pending")).2)) as Hp
    by (vm_compute; reflexivity).
  exact (admin_approval_completes_the_sale (λ s, s) (VNum 1) (VStr "ORD-B")
           (order_world "pending") _ _ _ _ 4 3 eq_refl Ho eq_refl Hp eq_refl eq_refl).
Defined.

(** X23. Once the owner has typed a reason, the rejection handler cancels
    the order, marks it refunded and credits the order's amount to the
    buyer — whatever the order's status and payment status were: an order
    never paid, or one already delivered, is refunded all the same. *)
Theorem rejection_refunds_any_order adminId orderId reason w o wo u wu (a b : Z) :
  nominal w = true →
  OrderManager.getOrder orderId w = (Ok (Some o), wo) →
  UserManager.getUser (prop o "userId") w = (Ok (Some u), wu) →
  prop o "amount" = VNum a → prop u "balance" = VNum b →
  ∃ w' o' u',
    Handlers.handleOrderRejectReason adminId orderId reason w = (Ok tt, w')
    ∧ OrderManager.getOrder orderId w' = (Ok (Some o'), w')
    ∧ prop o' "status" = VStr "cancelled"
    ∧ prop o' "paymentStatus" = VStr "refunded"
    ∧ UserManager.getUser (prop o "userId") w' = (Ok (Some u'), w')
    ∧ prop u' "balance" = VNum (b + a).
Proof.
  intros Hn Ho Hu Ha Hb.
  destruct (rejectOrder_nominal orderId reason adminId w o wo Hn Ho) as (w2 & Hrej & Ho2 & Ht2).
  destruct (getUser_elsewhere db_order "orders" _ w w2 _ _ Hn Ht2 ltac:(done) Hu)
    as (w3 & Hu3 & Ht3).
  destruct (updateBalance_nominal (prop o "userId") (VNum a) "add" w2 u w3 (VNum (b + a))
              (touches_only_nominal _ _ _ _ Ht2) Hu3)
    as (w4 & u4 & Hadd & Hu4 & Hb4 & _ & Ht4).
  { unfold new_balance. by rewrite Hb. }
  eexists w4, _, u4. split.
  { unfold Handlers.handleOrderRejectReason. run_monad.
    rewrite Hrej, Ha, Hadd. reflexivity. }
  split; [by apply (getOrder_after db_user "users" _ w2)|].
  split; [apply prop_patch_set; [done|unfold rejection; prop_lookup]|].
  split; [apply prop_patch_set; [done|unfold rejection; prop_lookup]|].
  done.
Qed.

Lemma rejection_refunds_any_order_witness :
  ∃ w' o' u',
    Handlers.handleOrderRejectReason (VNum 1) (VStr "ORD-B") (VStr "stok habis")
      (order_world "completed") = (Ok tt, w')
    ∧ OrderManager.getOrder (VStr "ORD-B") w' = (Ok (Some o'), w')
    ∧ prop o' "status" = VStr "cancelled"
    ∧ prop o' "paymentStatus" = VStr "refunded"
    ∧ UserManager.getUser (VNum 7) w' = (Ok (Some u'), w')
    ∧ prop u' "balance" = VNum 15000.
Proof.
  assert (OrderManager.getOrder (VStr "ORD-B") (order_world "completed")
          = (Ok (Some (order_B "completed" 5000000)),
             (OrderManager.getOrder (VStr "ORD-B") (order_world "completed")).2)) as Ho
    by (vm_compute; reflexivity).
  assert (UserManager.getUser (VNum 7) (order_world "completed")
          = (Ok (Some (user_U 10000)),
             (UserManager.getUser (VNum 7) (order_world "completed")).2)) as Hu
    by (vm_compute; reflexivity).
  exact (rejection_refunds_any_order (VNum 1) (VStr "ORD-B") (VStr "stok habis")
           (order_world "completed") _ _ _ _ 5000 10000 eq_refl Ho Hu eq_refl eq_refl).
Defined.

(** X24. When the owner approves a pending deposit, the handler marks it
    completed, approved by that owner, and credits its amount to the
    depositor's balance. *)
Theorem admin_approval_credits_the_deposit adminId depositId w d wd u wu (a b : Z) :
  nominal w = true →
  PaymentManager.getDeposit depositId w = (Ok (Some d), wd) →
  prop d "status" = VStr "pending" →
  UserManager.getUser (prop d "userId") w = (Ok (Some u), wu) →
  prop d "amount" = VNum a → prop u "balance" = VNum b →
  ∃ w' d' u',
    Handlers.handleAdminDepositApprove adminId depositId w = (Ok tt, w')
    ∧ PaymentManager.getDeposit depositId w' = (Ok (Some d'), w')
    ∧ prop d' "status" = VStr "completed"
    ∧ prop d' "approvedBy" = adminId
    ∧ UserManager.getUser (prop d "userId") w' = (Ok (Some u'), w')
    ∧ prop u' "balance" = VNum (b + a).
Proof.
  intros Hn Hd Hs Hu Ha Hb.
  destruct (approveDeposit_nominal depositId adminId w d wd Hn Hd Hs) as (w2 & Happ & Hd2 & Ht2).
  destruct (getUser_elsewhere db_payment "deposits" _ w w2 _ _ Hn Ht2 ltac:(done) Hu)
    as (w3 & Hu3 & Ht3).
  destruct (updateBalance_nominal (prop d "userId") (VNum a) "add" w2 u w3 (VNum (b + a))
              (touches_only_nominal _ _ _ _ Ht2) Hu3)
    as (w4 & u4 & Hadd & Hu4 & Hb4 & _ & Ht4).
  { unfold new_balance. by rewrite Hb. }
  destruct (addDepositHistory_nominal (prop d "userId") (VNum a) w4 u4 w4
              (touches_only_nominal _ _ _ _ Ht4) Hu4)
    as (w5 & u5 & Hhist & Hu5 & Hb5 & _ & Ht5).
  eexists w5, _, u5. split.
  { unfold Handlers.handleAdminDepositApprove. run_monad.
    rewrite Happ, Ha, Hadd, Hhist. reflexivity. }
  split.
  { apply (getDeposit_after db_user "users" _ w4); [done..|].
    by apply (getDeposit_after db_user "users" _ w2). }
  split; [apply prop_patch_set; [done|unfold deposit_approval; prop_lookup]|].
  split; [apply prop_patch_set; [done|unfold deposit_approval; prop_lookup]|].
  split; [done|]. by rewrite Hb5.
Qed.

Lemma admin_approval_credits_the_deposit_witness :
  ∃ w' d' u',
    Handlers.handleAdminDepositApprove (VNum 1) (VStr "dep-2") (deposit_world "pending")
      = (Ok tt, w')
    ∧ PaymentManager.getDeposit (VStr "dep-2") w' = (Ok (Some d'), w')
    ∧ prop d' "status" = VStr "completed"
    ∧ prop d' "approvedBy" = VNum 1
    ∧ UserManager.getUser (VNum 7) w' = (Ok (Some u'), w')
    ∧ prop u' "balance" = VNum 30000.
Proof.
  assert (PaymentManager.getDeposit (VStr "dep-2") (deposit_world "pending")
          = (Ok (Some (gateway_deposit "pending")),
             (PaymentManager.getDeposit (VStr "dep-2") (deposit_world "pending")).2)) as Hd
    by (vm_compute; reflexivity).
  assert (UserManager.getUser (VNum 7) (deposit_world "pending")
          = (Ok (Some (user_U 10000)),
             (UserManager.getUser (VNum 7) (deposit_world "pending")).2)) as Hu
    by (vm_compute; reflexivity).
  exact (admin_approval_credits_the_deposit (VNum 1) (VStr "dep-2")
           (deposit_world "pending") _ _ _ _ 20000 10000 eq_refl Hd eq_refl Hu eq_refl eq_refl).
Defined.

(** X25. A photo sent as proof of transfer puts the deposit back to
    "pending" with the photo attached, whatever its status was: a deposit
    already completed, rejected or expired is open for approval again.
    Amount and owner stay as they were. *)
Theorem proof_upload_reopens_the_deposit depositId file_id w d wd :
  nominal w = true →
  PaymentManager.getDeposit depositId w = (Ok (Some d), wd) →
  ∃ w' d',
    Handlers.handleDepositProof depositId file_id w = (Ok tt, w')
    ∧ PaymentManager.getDeposit depositId w' = (Ok (Some d'), w')
    ∧ prop d' "status" = VStr "pending"
    ∧ prop d' "proofUrl" = file_id
    ∧ prop d' "amount" = prop d "amount"
    ∧ prop d' "userId" = prop d "userId".
Proof.
  intros Hn Hd. rewrite getDeposit_run in Hd.
  destruct (update_after_lookup db_payment "deposits" "depositId" depositId
              (proof_update file_id (now w)) w d wd Hn eq_refl Hd)
    as (l & w2 & Hw1 & Hf & Hu & Hw2 & Hd2 & Hfile & Ht1 & Ht2); [done..|].
  eexists w2, _. split.
  { unfold Handlers.handleDepositProof. run_monad.
    rewrite updateDeposit_run, (update_cold _ _ _ _ _ _ _ Hd).
    fold (proof_update file_id (now w)). rewrite Hu. unfold Handlers.bot_send, ret. rewrite getDeposit_run, Hd2. reflexivity. }
  rewrite getDeposit_run.
  split; [done|].
  split; [apply prop_patch_set; [done|unfold proof_update; prop_lookup]|].
  split; [apply prop_patch_set; [done|unfold proof_update; prop_lookup]|].
  split; apply prop_patch_other; try done; unfold proof_update; by rewrite !lookup_insert_ne.
Qed.

Lemma proof_upload_reopens_the_deposit_witness :
  ∃ w' d',
    Handlers.handleDepositProof (VStr "dep-2") (VStr "photo-1") (deposit_world "completed")
      = (Ok tt, w')
    ∧ PaymentManager.getDeposit (VStr "dep-2") w' = (Ok (Some d'), w')
    ∧ prop d' "status" = VStr "pending"
    ∧ prop d' "proofUrl" = VStr "photo-1"
    ∧ prop d' "amount" = VNum 20000
    ∧ prop d' "userId" = VNum 7.
Proof.
  assert (PaymentManager.getDeposit (VStr "dep-2") (deposit_world "completed")
          = (Ok (Some (gateway_deposit "completed")),
             (PaymentManager.getDeposit (VStr "dep-2") (deposit_world "completed")).2)) as Hd
    by (vm_compute; reflexivity).
  exact (proof_upload_reopens_the_deposit (VStr "dep-2") (VStr "photo-1")
           (deposit_world "completed") _ _ eq_refl Hd).
Defined.

(** X26. The "check status" button of a gateway deposit credits the
    deposit's amount to whoever presses it, each time it is pressed while
    the gateway reports the transaction as paid: neither the deposit's
    status nor its owner is looked at before the balance is raised. *)
Theorem check_credits_on_every_press status_answer userId depositId w d wd
    resp u wu (a b : Z) :
  nominal w = true →
  PaymentManager.getDeposit depositId w = (Ok (Some d), wd) →
  truthy (prop d "externalId") = true →
  status_answer (prop d "externalId") = Ok resp →
  truthy resp = true →
  member (member resp "data") "status" = VStr "success" →
  UserManager.getUser userId w = (Ok (Some u), wu) →
  prop d "amount" = VNum a → prop u "balance" = VNum b →
  ∃ w' u',
    Handlers.handleDepositCheck status_answer userId depositId w = (Ok tt, w')
    ∧ UserManager.getUser userId w' = (Ok (Some u'), w')
    ∧ prop u' "balance" = VNum (b + a).
Proof.
  intros Hn Hd He Hans Hresp Hpaid Hu Ha Hb.
  destruct (getDeposit_settles _ _ _ _ Hn Hd) as (Hnd & Hnowd & Hd' & Htd).
  destruct (approveDeposit_either depositId (VStr "AUTO_SYSTEM") wd d wd Hnd Hd')
    as (r & w2 & Happ & Ht2).
  pose proof (touches_only_trans _ _ _ _ _ Htd Ht2) as Ht02.
  destruct (getUser_elsewhere db_payment "deposits" _ w w2 _ _ Hn Ht02 ltac:(done) Hu)
    as (w3 & Hu3 & Ht3).
  destruct (updateBalance_nominal userId (VNum a) "add" w2 u w3 (VNum (b + a))
              (touches_only_nominal _ _ _ _ Ht2) Hu3)
    as (w4 & u4 & Hadd & Hu4 & Hb4 & _ & Ht4).
  { unfold new_balance. by rewrite Hb. }
  destruct (checkQRISStatus_paid status_answer _ resp wd Hans Hresp Hpaid) as (sr & Hsr & Hst).
  exists w4, u4. split; [|done].
  unfold Handlers.handleDepositCheck. run_monad.
  rewrite Hd, He. fold (@try_catch (Reply item)).
  unfold mbind, M_bind, bind in Hsr. rewrite Hsr, Hst. cbn [strict_eq].
  rewrite String.eqb_refl, Happ, Ha, Hadd. reflexivity.
Qed.

Lemma check_credits_on_every_press_witness :
  ∃ w' u',
    Handlers.handleDepositCheck paid_answer (VNum 7) (VStr "dep-2") (deposit_world "completed")
      = (Ok tt, w')
    ∧ UserManager.getUser (VNum 7) w' = (Ok (Some u'), w')
    ∧ prop u' "balance" = VNum 30000.
Proof.
  assert (PaymentManager.getDeposit (VStr "dep-2") (deposit_world "completed")
          = (Ok (Some (gateway_deposit "completed")),
             (PaymentManager.getDeposit (VStr "dep-2") (deposit_world "completed")).2)) as Hd
    by (vm_compute; reflexivity).
  assert (UserManager.getUser (VNum 7) (deposit_world "completed")
          = (Ok (Some (user_U 10000)),
             (UserManager.getUser (VNum 7) (deposit_world "completed")).2)) as Hu
    by (vm_compute; reflexivity).
  exact (check_credits_on_every_press paid_answer (VNum 7) (VStr "dep-2")
           (deposit_world "completed") _ _ _ _ _ 20000 10000
           eq_refl Hd eq_refl eq_refl eq_refl eq_refl Hu eq_refl eq_refl).
Defined.

(** ** The dispatcher and its buttons *)

(** X27. No button of the page navigation that the product list and the
    order list put under their pages reaches a handler: the listener's
    tests match neither "products_page_N" nor "orders_page_N" (nor the
    "noop" of the page counter), for the owner as for any user; the
    'page' branches of [handleProductActions] and [handleOrderActions]
    wait for "product_page_N" and "order_page_N". *)
Theorem page_buttons_lead_nowhere show owner page totalPages b :
  In b (Dispatcher.productsNavButtons show page totalPages
        ++ Dispatcher.ordersNavButtons show page totalPages) →
  Dispatcher.route owner b = None.
Proof.
  unfold Dispatcher.productsNavButtons, Dispatcher.ordersNavButtons, Dispatcher.navButtons.
  intros H. apply in_app_or in H. destruct H as [H|H].
  all: apply in_app_or in H; destruct H as [H|H];
    [|apply in_app_or in H; destruct H as [H|H]].
  all: try (destruct (1 <? page); simpl in H; [|done]).
  all: try (destruct (page <? totalPages); simpl in H; [|done]).
  all: destruct H as [<-|[]]; reflexivity.
Qed.

Lemma page_buttons_lead_nowhere_witness :
  Dispatcher.route false "products_page_2" = None.
Proof.
  apply (page_buttons_lead_nowhere (λ _, "2") false 1 3). simpl. right. left. reflexivity.
Defined.

(** ** Sessions *)

(** X28. A session that [validateSession] has refused once is refused at
    every later check, whatever the clock shows then: a session that is
    unknown stays unknown, and one found too old is marked inactive for
    good. *)
Theorem refused_session_stays_refused sessions sessionId t t' :
  (SecurityManager.validateSession sessions sessionId t).2 = false →
  (SecurityManager.validateSession
     (SecurityManager.validateSession sessions sessionId t).1 sessionId t').2 = false.
Proof.
  unfold SecurityManager.validateSession at 1 3.
  destruct (sessions !! sessionId) as [s|] eqn:Hs; cbn [fst snd].
  - destruct (SecurityManager.isActive s) eqn:Ha; cbn [negb fst snd].
    + destruct (SecurityManager.SESSION_TIMEOUT <? t - SecurityManager.lastActivity s);
        cbn [fst snd]; [intros _|done].
      unfold SecurityManager.validateSession. by rewrite lookup_insert_eq.
    + intros _. unfold SecurityManager.validateSession. by rewrite Hs, Ha.
  - intros _. unfold SecurityManager.validateSession. by rewrite Hs.
Qed.

Lemma refused_session_stays_refused_witness :
  (SecurityManager.validateSession
     (SecurityManager.validateSession one_session "s-1" 3600001).1 "s-1" 5).2 = false.
Proof.
  apply (refused_session_stays_refused one_session "s-1" 3600001 5). vm_compute. reflexivity.
Defined.

(** ** createDeposit *)

Lemma createQRISPayment_refused create_answer ToString amount depositId w :
  refused (create_answer amount depositId) = true →
  ∃ e, PaymentManager.createQRISPayment create_answer ToString amount depositId w
       = (Ok (Failure e), w).
Proof.
  unfold refused, PaymentManager.createQRISPayment. run_monad.
  destruct (create_answer amount depositId) as [r|e]; [|by eexists].
  intros H. apply Bool.negb_true_iff in H. rewrite H. by eexists.
Qed.

(** X29. When the gateway refuses a QRIS payment — it cannot be reached,
    or it answers without [status: true] — [createDeposit] answers with
    the one message "Failed to create QRIS payment", whatever the gateway
    has said, and stores nothing: files and caches are as before, only
    the token drawn for the deposit id is used up. *)
Theorem createDeposit_gateway_refuses create_answer ToString depositData w :
  prop depositData "method" = VStr "QRIS_AUTO" →
  refused (create_answer (prop depositData "amount") (VStr (hd "" (entropy w)))) = true →
  PaymentManager.createDeposit create_answer ToString depositData w
  = (Ok (Failure "Failed to create QRIS payment"), set_entropy (tail (entropy w)) w).
Proof.
  intros Hm Href.
  destruct (createQRISPayment_refused create_answer ToString _ _
              (set_entropy (tail (entropy w)) w) Href) as (e & He).
  unfold PaymentManager.createDeposit, SecurityManager.generateSecureToken.
  unfold PaymentManager.createQRISPayment in *. run_monad.
  rewrite draw_run, Hm. cbn [strict_eq]. rewrite String.eqb_refl.
  world_simpl. rewrite He. reflexivity.
Qed.

Lemma createDeposit_gateway_refuses_witness :
  PaymentManager.createDeposit gateway_down (λ _, "") qris_request no_deposits_world
  = (Ok (Failure "Failed to create QRIS payment"),
     set_entropy (tail (entropy no_deposits_world)) no_deposits_world).
Proof.
  apply (createDeposit_gateway_refuses gateway_down (λ _, "") qris_request no_deposits_world);
    reflexivity.
Defined.

Lemma createDeposit_run create_answer ToString depositData w l w0 r d :
  nominal w = true →
  DatabaseManager.readData db_payment "deposits" w = (Ok (DArr l), w0) →
  prop depositData "method" = VStr "QRIS_AUTO" →
  create_answer (prop depositData "amount") (VStr (hd "" (entropy w))) = Ok r →
  truthy r = true → member r "status" = VBool true → member r "data" = VObj d →
  ∃ w1,
    let deposit :=
      inserted (gateway_fields d (new_deposit depositData (VStr (hd "" (entropy w))) (now w)))
        (VStr (hd "" (tail (entropy w)))) (now w) in
    PaymentManager.createDeposit create_answer ToString depositData w
      = (Ok (Success deposit), w1)
    ∧ warm db_payment "deposits" (l ++ [deposit]) w1.
Proof.
  intros Hn Hr Hm Hans Htr Hst Hd.
  destruct (readData_nominal _ _ _ _ _ Hn Hr) as (Hn0 & Hc0 & Hf0 & Ht0 & He0 & Hg0 & Hca0 & _).
  unfold PaymentManager.createDeposit, SecurityManager.generateSecureToken,
    PaymentManager.createQRISPayment. run_monad.
  rewrite draw_run. world_simpl. rewrite Hm. cbn [strict_eq]. rewrite String.eqb_refl.
  rewrite Hans, Htr, Hst, Hd. cbn [strict_eq andb Bool.eqb member].
  repeat first [rewrite prop_insert_eq | rewrite prop_insert_ne by done].
  rewrite <- Hm.
  fold (new_deposit depositData (VStr (hd "" (entropy w))) (now w)).
  fold (gateway_fields d (new_deposit depositData (VStr (hd "" (entropy w))) (now w))).
  set (deposit := gateway_fields _ _).
  assert (DatabaseManager.readData db_payment "deposits" (set_entropy (tail (entropy w)) w)
          = (Ok (DArr l), set_entropy (tail (entropy w)) w0)) as Hr'
    by (by rewrite readData_set_entropy, Hr).
  destruct (insert_run db_payment "deposits" deposit l _ _ Hr')
    as (w1 & Hins & Hw1 & _); [by apply (nominal_transfer w0)|done|].
  assert (truthy (prop deposit "id") = false) as Hid
    by (subst deposit; unfold gateway_fields, new_deposit; prop_lookup).
  unfold insert_id in *. rewrite Hid in *. world_simpl.
  rewrite Ht0 in *. rewrite Hins. cbn [default].
  by exists w1.
Qed.

(** X30. In the nominal environment, when the gateway accepts a QRIS
    payment, [createDeposit] stores a pending deposit that expires one
    hour after the clock, under the id it drew, with the amount it was
    given and the transaction id, QR code and payment page the gateway
    answered; when no older deposit carries that id, [getDeposit] with the
    id finds exactly the deposit that was answered. *)
Theorem createDeposit_then_getDeposit create_answer ToString depositData w l w0 r d :
  nominal w = true →
  DatabaseManager.readData db_payment "deposits" w = (Ok (DArr l), w0) →
  List.find (matches (by_key "depositId" (VStr (hd "" (entropy w))))) l = None →
  prop depositData "method" = VStr "QRIS_AUTO" →
  create_answer (prop depositData "amount") (VStr (hd "" (entropy w))) = Ok r →
  truthy r = true → member r "status" = VBool true → member r "data" = VObj d →
  ∃ deposit w1,
    PaymentManager.createDeposit create_answer ToString depositData w
      = (Ok (Success deposit), w1)
    ∧ prop deposit "depositId" = VStr (hd "" (entropy w))
    ∧ prop deposit "status" = VStr "pending"
    ∧ prop deposit "userId" = prop depositData "userId"
    ∧ prop deposit "amount" = prop depositData "amount"
    ∧ prop deposit "expiresAt" = VTime (now w + 3600000)
    ∧ prop deposit "externalId" = prop d "trxid"
    ∧ prop deposit "qrUrl" = prop d "qr_url"
    ∧ prop deposit "paymentUrl" = prop d "checkout_url"
    ∧ PaymentManager.getDeposit (prop deposit "depositId") w1 = (Ok (Some deposit), w1).
Proof.
  intros Hn Hr Hfresh Hm Hans Htr Hst Hd.
  destruct (createDeposit_run create_answer ToString depositData w l w0 r d
              Hn Hr Hm Hans Htr Hst Hd) as (w1 & Hrun & Hw1).
  cbn zeta in Hrun, Hw1.
  set (deposit := inserted _ _ _) in *.
  assert (∀ key, key ≠ "id" → key ≠ "createdAt" → key ≠ "updatedAt" →
            prop deposit key
            = prop (gateway_fields d
                      (new_deposit depositData (VStr (hd "" (entropy w))) (now w))) key)
    as Hprop by (intros; by apply prop_inserted_other).
  assert (prop deposit "depositId" = VStr (hd "" (entropy w))) as Hdid
    by (rewrite Hprop by done; unfold gateway_fields, new_deposit; prop_lookup).
  exists deposit, w1. split; [done|]. split; [done|].
  do 7 (split; [rewrite Hprop by done; unfold gateway_fields, new_deposit; prop_lookup|]).
  rewrite getDeposit_run, (findOne_warm _ _ _ _ _ Hw1), Hdid.
  rewrite find_app_last; [done|done|].
  rewrite matches_by_key, Hdid. apply strict_eq_refl_str.
Qed.

Lemma createDeposit_then_getDeposit_witness :
  ∃ deposit w1,
    PaymentManager.createDeposit accepting_gateway (λ _, "") qris_request no_deposits_world
      = (Ok (Success deposit), w1)
    ∧ prop deposit "depositId" = VStr "d1"
    ∧ prop deposit "externalId" = VStr "trx-9"
    ∧ PaymentManager.getDeposit (VStr "d1") w1 = (Ok (Some deposit), w1).
Proof.
  assert (DatabaseManager.readData db_payment "deposits" no_deposits_world
          = (Ok (DArr []),
             (DatabaseManager.readData db_payment "deposits" no_deposits_world).2)) as Hr
    by (vm_compute; reflexivity).
  destruct (createDeposit_then_getDeposit accepting_gateway (λ _, "") qris_request
              no_deposits_world _ _ _ _ eq_refl Hr eq_refl eq_refl eq_refl eq_refl eq_refl
              eq_refl)
    as (deposit & w1 & Hrun & Hid & _ & _ & _ & _ & Hext & _ & _ & Hget).
  exists deposit, w1. split; [exact Hrun|]. split; [exact Hid|]. split; [exact Hext|].
  rewrite Hid in Hget. exact Hget.
Defined.
